(** * YouTube analysis endpoint: a shallow embedding of the route handler

    The development follows the route module of the application: the
    helpers [extractVideoId], [getYoutubeMetadata], [extractKeyTakeaways],
    [extractTopics], [generateFallbackAnalysis] and the [POST] handler.

    JavaScript strings are sequences of UTF-16 code units, regular
    expressions are run by a backtracking matcher with capture groups, and
    the handler is written in a small state-and-exception monad whose state
    records the clock readings consumed and the outbound calls made. *)

From Stdlib Require Import String Ascii.
From Stdlib Require QArith_base.
From Stdlib Require Import List ZArith NArith Bool Lia.
Import ListNotations.
Local Open Scope string_scope.
Local Open Scope list_scope.

Set Implicit Arguments.

(* ===================================================================== *)
(** ** JavaScript strings *)
(* ===================================================================== *)

Module Js.

(** A string is a list of UTF-16 code units; [length] is the [.length]
    property. *)
Definition char16 := N.
Definition jsstring := list char16.

Local Open Scope N_scope.

(** An ASCII literal of the source text. *)
Definition lit (s : string) : jsstring :=
  List.map N_of_ascii (list_ascii_of_string s).

(** The one code unit of a one-character ASCII literal. *)
Definition chr (s : string) : char16 :=
  match lit s with c :: _ => c | [] => 0 end.

(** U+2022 BULLET, the only non-ASCII character of the source text. *)
Definition bullet : char16 := 8226.

Definition eqc (a b : char16) : bool := N.eqb a b.

Definition between (lo hi c : char16) : bool := (N.leb lo c && N.leb c hi)%bool.

(** ECMAScript LineTerminator: LF, CR, LS, PS. *)
Definition isLineTerminator (c : char16) : bool :=
  (eqc c 10 || eqc c 13 || eqc c 8232 || eqc c 8233)%bool.

(** ECMAScript WhiteSpace and LineTerminator, the set that both [\s] and
    [String.prototype.trim] use. *)
Definition isWhiteSpace (c : char16) : bool :=
  (between 9 13 c || eqc c 32 || eqc c 160 || eqc c 5760
   || between 8192 8202 c || eqc c 8232 || eqc c 8233 || eqc c 8239
   || eqc c 8287 || eqc c 12288 || eqc c 65279)%bool.

(** [\d] and [\w] (no unicode or ignore-case flag). *)
Definition isDigit (c : char16) : bool := between 48 57 c.
Definition isWordChar (c : char16) : bool :=
  (between 97 122 c || between 65 90 c || isDigit c || eqc c 95)%bool.

(** [.] without the s flag. *)
Definition isDot (c : char16) : bool := negb (isLineTerminator c).

(** A string is truthy when it is not empty. *)
Definition truthy (s : jsstring) : bool :=
  match s with [] => false | _ :: _ => true end.

Fixpoint startsWith (s p : jsstring) {struct p} : bool :=
  match p, s with
  | [], _ => true
  | a :: p', b :: s' => (eqc a b && startsWith s' p')%bool
  | _ :: _, [] => false
  end.

Fixpoint includes (s sub : jsstring) : bool :=
  (startsWith s sub
   || match s with [] => false | _ :: s' => includes s' sub end)%bool.

Fixpoint dropWhile (p : char16 -> bool) (s : jsstring) : jsstring :=
  match s with
  | c :: s' => if p c then dropWhile p s' else s
  | [] => []
  end.

Definition trimStart (s : jsstring) : jsstring := dropWhile isWhiteSpace s.
Definition trimEnd (s : jsstring) : jsstring := rev (dropWhile isWhiteSpace (rev s)).
Definition trim (s : jsstring) : jsstring := trimEnd (trimStart s).

(** [s.substring(0, n)]. *)
Definition substring0 (n : nat) (s : jsstring) : jsstring := firstn n s.

(** [toLowerCase].  The results are only ever searched for ASCII phrases,
    so what matters is which code units become ASCII letters: the capitals
    A-Z, U+212A KELVIN SIGN (to k) and U+0130 (to i followed by U+0307).
    Every other mapping of the Unicode tables sends a non-ASCII code unit to
    non-ASCII code units and is left out. *)
Definition lowerUnit (c : char16) : jsstring :=
  if between 65 90 c then [c + 32]
  else if eqc c 8490 then [107]
  else if eqc c 304 then [105; 775]
  else [c].

Definition toLowerCase (s : jsstring) : jsstring := flat_map lowerUnit s.

(** [s.split('\n')]. *)
Fixpoint split_nl (s : jsstring) : list jsstring :=
  match s with
  | [] => [[]]
  | c :: s' =>
      if eqc c 10 then [] :: split_nl s'
      else match split_nl s' with
           | l :: ls => (c :: l) :: ls
           | [] => [[c]]
           end
  end.

(** [lines.join('\n')], the inverse used to build inputs. *)
Fixpoint join_nl (ls : list jsstring) : jsstring :=
  match ls with
  | [] => []
  | [l] => l
  | l :: ls' => l ++ 10 :: join_nl ls'
  end.

(** Decimal rendering of an integer inside a template literal. *)
Fixpoint digitsOf (fuel : nat) (n : N) (acc : jsstring) : jsstring :=
  match fuel with
  | O => acc
  | S f =>
      let acc' := (48 + N.modulo n 10) :: acc in
      if N.ltb n 10 then acc' else digitsOf f (N.div n 10) acc'
  end.

Definition numberToString (z : Z) : jsstring :=
  let n := Z.abs_N z in
  let ds := digitsOf (S (N.to_nat (N.log2 n))) n [] in
  if Z.ltb z 0 then 45 :: ds else ds.

End Js.
Import Js.

(* ===================================================================== *)
(** ** A backtracking matcher for the regular expressions of the source *)
(* ===================================================================== *)

Module RegExp.

(** The pattern syntax that the three regular expressions of the module
    use.  Quantifiers [*] and [+] only ever apply to a character class. *)
Inductive regex : Type :=
| Eps                                   (* the empty pattern *)
| Class (p : char16 -> bool)            (* one code unit of a class *)
| Bol                                   (* ^ without the m flag *)
| Seq (r1 r2 : regex)
| Alt (r1 r2 : regex)
| Opt (r : regex)                       (* r? , greedy *)
| Star (p : char16 -> bool)             (* c* , greedy *)
| Plus (p : char16 -> bool)             (* c+ , greedy *)
| Group (n : nat) (r : regex).          (* the n-th capturing group *)

Declare Scope regex_scope.
Delimit Scope regex_scope with re.
Infix "+>" := Seq (at level 60, right associativity) : regex_scope.
Infix "<|>" := Alt (at level 70, right associativity) : regex_scope.

(** A literal run of characters. *)
Fixpoint chars (s : jsstring) : regex :=
  match s with
  | [] => Eps
  | c :: s' => Seq (Class (eqc c)) (chars s')
  end.

(** Matcher state: the index reached, the input from there on, and the
    captures made so far (latest first). *)
Record mstate : Type := MState {
  pos : nat;
  rest : jsstring;
  caps : list (nat * jsstring)
}.

Definition cont := mstate -> option mstate.

(** Greedy iteration of a class: one more character first, then the
    continuation. *)
Fixpoint star (p : char16 -> bool) (k : cont) (cs : list (nat * jsstring))
         (i : nat) (s : jsstring) : option mstate :=
  match s with
  | c :: s' =>
      if p c then
        match star p k cs (S i) s' with
        | Some r => Some r
        | None => k (MState i s cs)
        end
      else k (MState i s cs)
  | [] => k (MState i s cs)
  end.

(** The matcher in continuation-passing style, as ECMAScript defines it:
    a continuation that fails makes the matcher try its next choice. *)
Fixpoint run (r : regex) (st : mstate) (k : cont) : option mstate :=
  match r with
  | Eps => k st
  | Class p =>
      match rest st with
      | c :: s' => if p c then k (MState (S (pos st)) s' (caps st)) else None
      | [] => None
      end
  | Bol => if Nat.eqb (pos st) 0 then k st else None
  | Seq r1 r2 => run r1 st (fun st' => run r2 st' k)
  | Alt r1 r2 =>
      match run r1 st k with
      | Some res => Some res
      | None => run r2 st k
      end
  | Opt r1 =>
      match run r1 st k with
      | Some res => Some res
      | None => k st
      end
  | Star p => star p k (caps st) (pos st) (rest st)
  | Plus p =>
      match rest st with
      | c :: s' => if p c then star p k (caps st) (S (pos st)) s' else None
      | [] => None
      end
  | Group n r1 =>
      run r1 st (fun st' =>
        k (MState (pos st') (rest st')
                  ((n, firstn (pos st' - pos st) (rest st)) :: caps st')))
  end.

(** The result of a successful match: where it starts and the final
    state. *)
Record result : Type := Result { start : nat; final : mstate }.

(** [RegExpBuiltinExec] with lastIndex 0: every start index in turn. *)
Fixpoint execFrom (r : regex) (i : nat) (s : jsstring) : option result :=
  match run r (MState i s []) Some with
  | Some st => Some (Result i st)
  | None =>
      match s with
      | [] => None
      | _ :: s' => execFrom r (S i) s'
      end
  end.

Definition exec (r : regex) (input : jsstring) : option result :=
  execFrom r 0 input.

(** [match[n]] for a capture group: absent when the group took no part. *)
Fixpoint lookup (n : nat) (cs : list (nat * jsstring)) : option jsstring :=
  match cs with
  | [] => None
  | (m, v) :: cs' => if Nat.eqb n m then Some v else lookup n cs'
  end.

Definition group (m : result) (n : nat) : option jsstring :=
  lookup n (caps (final m)).

(** [re.test(s)]. *)
Definition test (r : regex) (s : jsstring) : bool :=
  match exec r s with Some _ => true | None => false end.

(** [s.replace(re, '')] for a pattern without the g flag. *)
Definition replaceEmpty (r : regex) (s : jsstring) : jsstring :=
  match exec r s with
  | Some m => firstn (start m) s ++ rest (final m)
  | None => s
  end.

End RegExp.
Import RegExp.
Local Open Scope regex_scope.

(* ===================================================================== *)
(** ** extractVideoId *)
(* ===================================================================== *)

(** [[^#&?]] *)
Definition notDelimiter (c : char16) : bool :=
  negb (eqc c (chr "#") || eqc c (chr "&") || eqc c (chr "?")).

(** The pattern of [extractVideoId].  Its source reads, in order: the
    anchor and "^.*", the marker group
    "((youtu.be\/)|(v\/)|(\/u\/\w\/)|(embed\/)|(watch\?))", the optional
    characters "\??v?=?", the seventh group over the class "[^#&?]" with a
    star, and a final ".*" . *)
Definition markerGroup : regex :=
  Group 1 (Group 2 (chars (lit "youtu") +> Class isDot +> chars (lit "be/"))
           <|> Group 3 (chars (lit "v/"))
           <|> Group 4 (chars (lit "/u/") +> Class isWordChar +> chars (lit "/"))
           <|> Group 5 (chars (lit "embed/"))
           <|> Group 6 (chars (lit "watch?"))).

Definition idTail : regex :=
  Opt (Class (eqc (chr "?"))) +>
  Opt (Class (eqc (chr "v"))) +>
  Opt (Class (eqc (chr "="))) +>
  Group 7 (Star notDelimiter) +>
  Star isDot.

Definition videoRegExp : regex :=
  Bol +> Star isDot +> markerGroup +> idTail.

(** [extractVideoId]: [None] is [null].  Matching a string against a
    regular expression does not throw, so the catch branch is never taken
    for a string argument. *)
Definition extractVideoId (url : jsstring) : option jsstring :=
  if negb (truthy url) then None
  else
    match exec videoRegExp url with
    | Some m =>
        match group m 7 with
        | Some id =>
            if (truthy id && Nat.eqb (length id) 11)%bool then Some id else None
        | None => None
        end
    | None => None
    end.

(* ===================================================================== *)
(** ** extractKeyTakeaways and extractTopics *)
(* ===================================================================== *)

(** The pattern "/^\d+\./" . *)
Definition numberedRegExp : regex :=
  Bol +> Plus isDigit +> Class (eqc (chr ".")).

(** The class "[-•\d\.]" and the pattern "/^[-•\d\.]+\s*/" . *)
Definition isMarkerChar (c : char16) : bool :=
  (eqc c (chr "-") || eqc c bullet || isDigit c || eqc c (chr "."))%bool.

Definition markerRegExp : regex :=
  Bol +> Plus isMarkerChar +> Star isWhiteSpace.

(** One pass of the loop of [extractKeyTakeaways] over the remaining lines:
    a line with a trigger phrase opens the section and is skipped
    ([continue]); any other line is pushed when the section is open and the
    line is a list line; the loop stops ([break]) at five items. *)
Fixpoint takeawaysLoop (lines : list jsstring) (inTakeawaysSection : bool)
         (takeaways : list jsstring) : list jsstring :=
  match lines with
  | [] => takeaways
  | line :: more =>
      if (includes (toLowerCase line) (lit "key takeaway")
          || includes (toLowerCase line) (lit "main point"))%bool
      then takeawaysLoop more true takeaways
      else
        let takeaways' :=
          if (inTakeawaysSection && truthy (trim line)
              && (startsWith line (lit "-") || startsWith line [bullet]
                  || test numberedRegExp line))%bool
          then takeaways ++ [trim (replaceEmpty markerRegExp line)]
          else takeaways in
        if Nat.leb 5 (length takeaways') then takeaways'
        else takeawaysLoop more inTakeawaysSection takeaways'
  end.

Definition extractKeyTakeaways (text : jsstring) : list jsstring :=
  let takeaways := takeawaysLoop (split_nl text) false [] in
  if Nat.eqb (length takeaways) 0
  then takeaways ++ [lit "No specific key takeaways identified"]
  else takeaways.

Module Topic.
Record t : Type := Make { title : jsstring; description : jsstring }.
End Topic.

(** The loop of [extractTopics], written out again as the source does. *)
Fixpoint topicsLoop (lines : list jsstring) (inTopicsSection : bool)
         (topics : list Topic.t) : list Topic.t :=
  match lines with
  | [] => topics
  | line :: more =>
      if (includes (toLowerCase line) (lit "topic")
          || includes (toLowerCase line) (lit "theme")
          || includes (toLowerCase line) (lit "subject"))%bool
      then topicsLoop more true topics
      else
        let topics' :=
          if (inTopicsSection && truthy (trim line)
              && (startsWith line (lit "-") || startsWith line [bullet]
                  || test numberedRegExp line))%bool
          then
            let topicText := trim (replaceEmpty markerRegExp line) in
            topics ++ [Topic.Make topicText (lit "Discussion about " ++ topicText)]
          else topics in
        if Nat.leb 5 (length topics') then topics'
        else topicsLoop more inTopicsSection topics'
  end.

Definition extractTopics (text : jsstring) : list Topic.t :=
  let topics := topicsLoop (split_nl text) false [] in
  if Nat.eqb (length topics) 0
  then topics ++ [Topic.Make (lit "General Content")
                             (lit "The main content of the video")]
  else topics.

(* ===================================================================== *)
(** ** Values exchanged with the outside *)
(* ===================================================================== *)

(** A thrown [Error]. *)
Record JsError : Type := MkError {
  message : jsstring;
  stack : option jsstring
}.

(** What an operation that may throw (or a promise that may reject)
    yields. *)
Inductive Outcome (A : Type) : Type :=
| Returned (a : A)
| Thrown (e : JsError).
Arguments Returned {A} a.
Arguments Thrown {A} e.

(** A parsed JSON value: what [req.json()] resolves to. *)
#[local] Set Warnings "-register-all".
Inductive Json : Type :=
| JNull
| JBool (b : bool)
| JNumber (q : QArith_base.Q)
| JString (s : jsstring)
| JArray (items : list Json)
| JObject (fields : list (jsstring * Json)).

Fixpoint eqs (a b : jsstring) : bool :=
  match a, b with
  | [], [] => true
  | x :: a', y :: b' => (eqc x y && eqs a' b')%bool
  | _, _ => false
  end.

Fixpoint lookupField (k : jsstring) (fs : list (jsstring * Json)) : option Json :=
  match fs with
  | [] => None
  | (k', v) :: fs' => if eqs k k' then Some v else lookupField k fs'
  end.

(** ToBoolean of a value that may be [undefined] ([None]). *)
Definition jsTruthy (v : option Json) : bool :=
  match v with
  | None => false
  | Some JNull => false
  | Some (JBool b) => b
  | Some (JNumber q) => negb (Z.eqb (QArith_base.Qnum q) 0)
  | Some (JString s) => truthy s
  | Some (JArray _) => true
  | Some (JObject _) => true
  end.

(** [a || b] on an optional string: [a] when it is present and not empty. *)
Definition orElse (a : option jsstring) (b : jsstring) : jsstring :=
  match a with
  | Some s => if truthy s then s else b
  | None => b
  end.

(** The oEmbed document, every field optional. *)
Module OEmbed.
Record t : Type := Make {
  title : option jsstring;
  author_name : option jsstring;
  length_seconds : option Z;
  thumbnail_url : option jsstring;
  description : option jsstring
}.
End OEmbed.

(** [metadata?.field] *)
Definition opt {A : Type} (metadata : option OEmbed.t)
           (field : OEmbed.t -> option A) : option A :=
  match metadata with
  | Some m => field m
  | None => None
  end.

(** The transcript service's document: { success, message, data: { text,
    segments } }.  Segments are passed through untouched. *)
Record TranscriptData : Type := MkTranscriptData {
  text : jsstring;
  data_segments : option (list Json)
}.

Record SupadataBody : Type := MkSupadataBody {
  body_success : bool;
  body_message : option jsstring;
  body_data : option TranscriptData
}.

(** A fetch response: its status and what [response.json()] yields. *)
Record HttpResponse (A : Type) : Type := MkHttpResponse {
  status : Z;
  json : Outcome A
}.

(** [response.ok]: a status in the range 200-299. *)
Definition ok {A : Type} (r : HttpResponse A) : bool :=
  (Z.leb 200 (status r) && Z.leb (status r) 299)%bool.

(** The chat-completion request and response. *)
Record ChatMessage : Type := MkChatMessage {
  role : jsstring;
  content : jsstring
}.

Record ChatRequest : Type := MkChatRequest {
  messages : list ChatMessage;
  model : jsstring
}.

Record Choice : Type := MkChoice {
  choice_message : option (option jsstring)   (* message, then its content *)
}.

Record Completion : Type := MkCompletion {
  choices : list Choice
}.

(** The incoming request: what [req.json()] yields. *)
Record Request : Type := MkRequest {
  req_json : Outcome Json
}.

(** Everything the handler reads from outside itself. *)
Record World : Type := MkWorld {
  SUPADATA_API_KEY : option jsstring;
  GROQ_API_KEY : option jsstring;
  NODE_ENV : option jsstring;
  (** the n-th reading of [Date.now()] *)
  dateNow : nat -> Z;
  (** [Math.random().toString(36).substring(2, 10)] *)
  randomId : jsstring;
  (** the engine's TypeError for reading a property of null or undefined *)
  typeError : jsstring -> JsError;
  (** the engine's TypeError for an object that cannot be converted to a
      primitive value *)
  conversionError : JsError;
  (** the stack the engine records in [new Error(message)] *)
  captureStack : jsstring -> option jsstring;
  (** GET of the oEmbed endpoint *)
  fetchOEmbed : jsstring -> Outcome (HttpResponse OEmbed.t);
  (** GET of the transcript endpoint with the x-api-key header *)
  fetchTranscript : jsstring -> jsstring -> Outcome (HttpResponse SupadataBody);
  (** [groq.chat.completions.create] *)
  createCompletion : ChatRequest -> Outcome Completion
}.

(** [new Error(message)] *)
Definition newError (w : World) (msg : jsstring) : JsError :=
  MkError msg (captureStack w msg).

(** [const { videoUrl } = body]: throws on null, yields undefined on a
    value without the property. *)
Definition destructure (w : World) (body : Json) (k : jsstring)
  : Outcome (option Json) :=
  match body with
  | JNull => Thrown (typeError w k)
  | JObject fields => Returned (lookupField k fields)
  | JBool _ | JNumber _ | JString _ | JArray _ => Returned None
  end.

(** Whether the conversion of a parsed value to a string throws.  A
    string, a number, a boolean and null always convert.  A parsed object
    is converted by the [toString] it finds: the inherited one answers
    '[object Object]'; an own property 'toString' hides it and, being a
    parsed value, is not callable, after which [valueOf] (inherited, it
    yields the object itself; own, it is not callable either) gives no
    primitive and the conversion throws a TypeError.  An array joins the
    conversions of its elements, null counting as the empty string. *)
Fixpoint toStringThrows (v : Json) : bool :=
  match v with
  | JNull | JBool _ | JNumber _ | JString _ => false
  | JArray items => existsb toStringThrows items
  | JObject fields =>
      match lookupField (lit "toString") fields with
      | Some _ => true
      | None => false
      end
  end.

(** A value interpolated in a template literal that is only written to
    the console: the text is not kept, what matters is whether the
    conversion throws.  [undefined] converts to 'undefined'. *)
Definition templateLiteral (w : World) (v : option Json) : Outcome unit :=
  match v with
  | Some j => if toStringThrows j then Thrown (conversionError w) else Returned tt
  | None => Returned tt
  end.

(* ===================================================================== *)
(** ** The response *)
(* ===================================================================== *)

Module VideoInfo.
Record t : Type := Make {
  title : jsstring;
  author : jsstring;
  lengthSeconds : option Z;
  thumbnailUrl : jsstring;
  description : option jsstring;
  videoId : jsstring;
  videoUrl : jsstring
}.
End VideoInfo.

Module ErrorDescriptor.
Record t : Type := Make { message : jsstring; code : jsstring }.
End ErrorDescriptor.

Module Transcript.
Record t : Type := Make {
  content : jsstring;
  segments : list Json;
  videoInfo : VideoInfo.t;
  error : option ErrorDescriptor.t
}.
End Transcript.

Module Component.
Record t : Type := Make { heading : jsstring; description : jsstring }.
End Component.

Module Framework.
Record t : Type := Make { title : jsstring; components : list Component.t }.
End Framework.

Module Analysis.
Record t : Type := Make {
  framework : Framework.t;
  summary : jsstring;
  keyTakeaways : list jsstring;
  topics : list Topic.t
}.
End Analysis.

Module Data.
Record t : Type := Make { transcript : Transcript.t; analysis : Analysis.t }.
End Data.

(** The [error] property is a string, or in the partial tier an object
    with an [analysis] string. *)
Inductive ErrorField : Type :=
| ErrorText (s : jsstring)
| ErrorAnalysis (s : jsstring).

(** The JSON body of a response; an absent property is [None]. *)
Module Body.
Record t : Type := Make {
  success : bool;
  partial : option bool;
  requestId : option jsstring;
  processingTime : option Z;
  error : option ErrorField;
  troubleshooting : option jsstring;
  stack : option jsstring;
  data : option Data.t
}.
End Body.

Record Response : Type := MkResponse {
  httpStatus : Z;
  body : Body.t
}.

(** [NextResponse.json(body, { status })]; the status defaults to 200. *)
Definition jsonResponse (b : Body.t) (init : option Z) : Response :=
  MkResponse (match init with Some s => s | None => 200%Z end) b.

(** [generateFallbackAnalysis] *)
Definition generateFallbackAnalysis (title : jsstring) : Analysis.t :=
  Analysis.Make
    (Framework.Make
       (lit "Framework for " ++ title)
       [Component.Make
          (lit "Summary")
          (lit "A summary of the video could not be generated automatically.")])
    (lit "Unable to generate a summary for this video.")
    [lit "Automatic key takeaways could not be generated.";
     lit "Please watch the video for the main points."]
    [Topic.Make (lit "Video Content") (lit "The main content of the video.")].

(* ===================================================================== *)
(** ** The handler's effects *)
(* ===================================================================== *)

(** An outbound call, as it is logged when it is made. *)
Inductive Call : Type :=
| FetchCall (url : jsstring)
| CompletionCall (request : ChatRequest).

(** What a run has consumed and done so far. *)
Record Effects : Type := MkEffects {
  ticks : nat;            (* readings of Date.now() taken *)
  calls : list Call       (* outbound calls made, oldest first *)
}.

Definition noEffects : Effects := MkEffects 0 [].

(** Computations that read the world, record their effects and may
    throw. *)
Definition M (A : Type) : Type := Effects -> Outcome A * Effects.

Definition ret {A : Type} (a : A) : M A := fun s => (Returned a, s).

Definition bind {A B : Type} (m : M A) (f : A -> M B) : M B :=
  fun s =>
    match m s with
    | (Returned a, s') => f a s'
    | (Thrown e, s') => (Thrown e, s')
    end.

Definition throw {A : Type} (e : JsError) : M A := fun s => (Thrown e, s).

(** [try { m } catch (e) { handler e }] *)
Definition tryCatch {A : Type} (m : M A) (handler : JsError -> M A) : M A :=
  fun s =>
    match m s with
    | (Returned a, s') => (Returned a, s')
    | (Thrown e, s') => handler e s'
    end.

(** [await] of something that resolves or rejects without further
    effects. *)
Definition await {A : Type} (o : Outcome A) : M A := fun s => (o, s).

Declare Scope js_scope.
Delimit Scope js_scope with js.
Notation "x <- m ;; k" := (bind m (fun x => k))
  (at level 61, m at next level, right associativity) : js_scope.
Local Open Scope js_scope.

(** [Date.now()] *)
Definition now (w : World) : M Z :=
  fun s => (Returned (dateNow w (ticks s)), MkEffects (S (ticks s)) (calls s)).

Definition logCall (c : Call) : M unit :=
  fun s => (Returned tt, MkEffects (ticks s) (calls s ++ [c])).

(** [await fetch(url)] of the oEmbed endpoint. *)
Definition fetchMetadata (w : World) (url : jsstring) : M (HttpResponse OEmbed.t) :=
  _ <- logCall (FetchCall url) ;; await (fetchOEmbed w url).

(** [await fetch(url, { method: 'GET', headers: { 'x-api-key': key, ... } })] *)
Definition fetchSupadata (w : World) (url key : jsstring)
  : M (HttpResponse SupadataBody) :=
  _ <- logCall (FetchCall url) ;; await (fetchTranscript w url key).

(** [await groq.chat.completions.create(request)] *)
Definition chatCompletionsCreate (w : World) (request : ChatRequest) : M Completion :=
  _ <- logCall (CompletionCall request) ;; await (createCompletion w request).

(* ===================================================================== *)
(** ** getYoutubeMetadata *)
(* ===================================================================== *)

Definition oembedUrl (videoId : jsstring) : jsstring :=
  lit "https://www.youtube.com/oembed?url=https://www.youtube.com/watch?v="
  ++ videoId ++ lit "&format=json".

(** [None] is [null]. *)
Definition getYoutubeMetadata (w : World) (videoUrl : jsstring)
  : M (option OEmbed.t) :=
  tryCatch
    (match extractVideoId videoUrl with
     | None => ret None
     | Some videoId =>
         response <- fetchMetadata w (oembedUrl videoId) ;;
         if negb (ok response) then ret None
         else
           metadata <- await (json response) ;;
           ret (Some metadata)
     end)
    (fun _ => ret None).

(* ===================================================================== *)
(** ** POST *)
(* ===================================================================== *)

(** An environment variable is usable when it is set and not empty. *)
Definition configured (key : option jsstring) : bool :=
  match key with Some k => truthy k | None => false end.

(** The string value of a variable that passed the check above. *)
Definition keyValue (key : option jsstring) : jsstring :=
  match key with Some k => k | None => [] end.

(** [process.env.NODE_ENV === 'development'] *)
Definition isDevelopment (w : World) : bool :=
  match NODE_ENV w with Some e => eqs e (lit "development") | None => false end.

(** [metadata?.title || `Video ${videoId}`] *)
Definition titleOrDefault (metadata : option OEmbed.t) (videoId : jsstring) : jsstring :=
  orElse (opt metadata OEmbed.title) (lit "Video " ++ videoId).

Definition defaultThumbnail (videoId : jsstring) : jsstring :=
  lit "https://img.youtube.com/vi/" ++ videoId ++ lit "/hqdefault.jpg".

(** The [transcript] object built after a successful fetch. *)
Definition buildTranscript (metadata : option OEmbed.t)
           (videoId videoUrl : jsstring) (d : TranscriptData) : Transcript.t :=
  Transcript.Make
    (text d)
    (match data_segments d with Some segs => segs | None => [] end)
    (VideoInfo.Make
       (titleOrDefault metadata videoId)
       (orElse (opt metadata OEmbed.author_name) (lit "Unknown"))
       (Some (match opt metadata OEmbed.length_seconds with
              | Some n => n
              | None => 0%Z
              end))
       (orElse (opt metadata OEmbed.thumbnail_url) (defaultThumbnail videoId))
       (Some (orElse (opt metadata OEmbed.description) []))
       videoId
       videoUrl)
    None.

(** The [fallbackTranscript] object of the transcript catch block. *)
Definition fallbackTranscript (metadata : option OEmbed.t)
           (videoId videoUrl : jsstring) (transcriptError : JsError) : Transcript.t :=
  Transcript.Make
    (lit "Could not fetch transcript for video " ++ videoId)
    []
    (VideoInfo.Make
       (titleOrDefault metadata videoId)
       (orElse (opt metadata OEmbed.author_name) (lit "Unknown"))
       None
       (orElse (opt metadata OEmbed.thumbnail_url) (defaultThumbnail videoId))
       None
       videoId
       videoUrl)
    (Some (ErrorDescriptor.Make (message transcriptError)
                                (lit "TRANSCRIPT_FETCH_ERROR"))).

Definition systemPrompt : jsstring :=
  lit "You are an AI assistant that creates structured frameworks from YouTube video transcripts.".

Definition userPrompt (textToAnalyze : jsstring) : jsstring :=
  lit "Based on this transcript, create a structured framework summarizing the main points. Include key takeaways, terms, and topics."
  ++ [10%N; 10%N] ++ lit "TRANSCRIPT:" ++ [10%N] ++ textToAnalyze.

(** The transcript text as it is sent: cut at 15,000 code units, with an
    ellipsis when cut. *)
#[local] Set Warnings "-abstract-large-number".
Definition textToAnalyze (content : jsstring) : jsstring :=
  if Nat.ltb 15000 (length content)
  then substring0 15000 content ++ lit "..."
  else content.

Definition completionRequest (content : jsstring) : ChatRequest :=
  MkChatRequest
    [MkChatMessage (lit "system") systemPrompt;
     MkChatMessage (lit "user") (userPrompt (textToAnalyze content))]
    (lit "llama3-70b-8192").

(** [completion.choices[0]?.message?.content || ""] *)
Definition analysisTextOf (completion : Completion) : jsstring :=
  match choices completion with
  | c :: _ =>
      match choice_message c with
      | Some msg => orElse msg []
      | None => []
      end
  | [] => []
  end.

(** The inner try block: summarise the transcript, or fall back to the
    partial response. *)
Definition analyze (w : World) (requestId : jsstring) (requestStartTime : Z)
           (metadata : option OEmbed.t) (videoId : jsstring)
           (transcript : Transcript.t) : M Response :=
  tryCatch
    (completion <- chatCompletionsCreate w
                     (completionRequest (Transcript.content transcript)) ;;
     let analysisText := analysisTextOf completion in
     let analysis :=
       Analysis.Make
         (Framework.Make
            (orElse (opt metadata OEmbed.title) (lit "Framework for " ++ videoId))
            [Component.Make (lit "Summary") (substring0 500 analysisText)])
         (substring0 500 analysisText)
         (extractKeyTakeaways analysisText)
         (extractTopics analysisText) in
     requestEndTime <- now w ;;
     ret (jsonResponse
            (Body.Make true None (Some requestId)
                       (Some (requestEndTime - requestStartTime)%Z)
                       None None None
                       (Some (Data.Make transcript analysis)))
            None))
    (fun groqError =>
       ret (jsonResponse
              (Body.Make true (Some true) None None
                         (Some (ErrorAnalysis
                                  (lit "Error generating analysis: "
                                   ++ message groqError)))
                         None None
                         (Some (Data.Make transcript
                                  (generateFallbackAnalysis
                                     (titleOrDefault metadata videoId)))))
              None)).

Definition transcriptUrl (videoId : jsstring) : jsstring :=
  lit "https://api.supadata.co/services/youtube/transcript?videoId=" ++ videoId.

(** The outer of the two nested try blocks: fetch the transcript and
    analyse it, or fall back to the failure response. *)
Definition fetchAndAnalyze (w : World) (requestId : jsstring)
           (requestStartTime : Z) (apiKey videoUrl videoId : jsstring)
           (metadata : option OEmbed.t) : M Response :=
  tryCatch
    (response <- fetchSupadata w (transcriptUrl videoId) apiKey ;;
     if negb (ok response)
     then throw (newError w (lit "Supadata API returned status: "
                             ++ numberToString (status response)))
     else
       data <- await (json response) ;;
       if negb (body_success data)
       then throw (newError w (orElse (body_message data)
                                      (lit "Unknown error from Supadata API")))
       else
         match body_data data with
         | None => throw (typeError w (lit "text"))
         | Some d =>
             analyze w requestId requestStartTime metadata videoId
                     (buildTranscript metadata videoId videoUrl d)
         end)
    (fun transcriptError =>
       ret (jsonResponse
              (Body.Make false None None None
                         (Some (ErrorText (lit "Failed to fetch transcript: "
                                           ++ message transcriptError)))
                         None None
                         (Some (Data.Make
                                  (fallbackTranscript metadata videoId videoUrl
                                                      transcriptError)
                                  (generateFallbackAnalysis
                                     (titleOrDefault metadata videoId)))))
              None)).

(** [extractVideoId(videoUrl)] on the value taken from the body.  A truthy
    value that is not a string has no [match] method: the call throws a
    TypeError inside [extractVideoId], whose catch returns null. *)
Definition extractVideoIdOf (videoUrl : option Json) : option (jsstring * jsstring) :=
  match videoUrl with
  | Some (JString url) =>
      match extractVideoId url with
      | Some videoId => Some (url, videoId)
      | None => None
      end
  | _ => None
  end.

Definition POST (w : World) (req : Request) : M Response :=
  requestStartTime <- now w ;;
  let requestId := randomId w in
  tryCatch
    (body <- await (req_json req) ;;
     videoUrl <- await (destructure w body (lit "videoUrl")) ;;
     if negb (jsTruthy videoUrl)
     then ret (jsonResponse
                 (Body.Make false None None None
                    (Some (ErrorText (lit "Missing videoUrl parameter in request body")))
                    None None None)
                 (Some 400%Z))
     else
     (* console.log(`... Processing YouTube URL: ${videoUrl}`) *)
     _ <- await (templateLiteral w videoUrl) ;;
     if negb (configured (SUPADATA_API_KEY w))
     then ret (jsonResponse
                 (Body.Make false None None None
                    (Some (ErrorText (lit "Server configuration error: Missing Supadata API key")))
                    (Some (lit "Add SUPADATA_API_KEY to your environment variables"))
                    None None)
                 (Some 500%Z))
     else if negb (configured (GROQ_API_KEY w))
     then ret (jsonResponse
                 (Body.Make false None None None
                    (Some (ErrorText (lit "Server configuration error: Missing Groq API key")))
                    (Some (lit "Add GROQ_API_KEY to your environment variables"))
                    None None)
                 (Some 500%Z))
     else
       match extractVideoIdOf videoUrl with
       | None =>
           ret (jsonResponse
                  (Body.Make false None None None
                     (Some (ErrorText (lit "Invalid YouTube URL. Could not extract video ID.")))
                     None None None)
                  (Some 400%Z))
       | Some (url, videoId) =>
           metadata <- getYoutubeMetadata w url ;;
           fetchAndAnalyze w requestId requestStartTime
                           (keyValue (SUPADATA_API_KEY w)) url videoId metadata
       end)
    (fun error =>
       requestEndTime <- now w ;;
       ret (jsonResponse
              (Body.Make false None (Some requestId)
                         (Some (requestEndTime - requestStartTime)%Z)
                         (Some (ErrorText (lit "Server error: " ++ message error)))
                         None
                         (if isDevelopment w then stack error else None)
                         None)
              (Some 500%Z))).

(* ===================================================================== *)
(** ** GET and OPTIONS *)
(* ===================================================================== *)

Definition API_VERSION : jsstring := lit "1.0.5".

Module Health.
Record t : Type := Make {
  success : bool;
  version : jsstring;
  message : jsstring;
  hasSupadataKey : bool;
  hasGroqKey : bool
}.
End Health.

Record HealthResponse : Type := MkHealthResponse {
  healthStatus : Z;
  healthBody : Health.t
}.

(** [GET]: the health check. *)
Definition GET (w : World) : HealthResponse :=
  MkHealthResponse 200
    (Health.Make true API_VERSION (lit "YouTube Analysis API is running")
                 (configured (SUPADATA_API_KEY w))
                 (configured (GROQ_API_KEY w))).

Record PreflightResponse : Type := MkPreflightResponse {
  preflightStatus : Z;
  preflightBody : option jsstring;
  headers : list (jsstring * jsstring)
}.

(** [OPTIONS]: the CORS preflight. *)
Definition OPTIONS : PreflightResponse :=
  MkPreflightResponse 204 None
    [(lit "Access-Control-Allow-Origin", lit "*");
     (lit "Access-Control-Allow-Methods", lit "GET, POST, OPTIONS");
     (lit "Access-Control-Allow-Headers", lit "Content-Type, X-Requested-With");
     (lit "Access-Control-Max-Age", lit "86400")].

(* ===================================================================== *)
(** ** Reading the two scanners as one strategy *)
(* ===================================================================== *)

Module Scan.

(** The trigger tests of the two loops. *)
Definition isTakeawayTrigger (line : jsstring) : bool :=
  (includes (toLowerCase line) (lit "key takeaway")
   || includes (toLowerCase line) (lit "main point"))%bool.

Definition isTopicTrigger (line : jsstring) : bool :=
  (includes (toLowerCase line) (lit "topic")
   || includes (toLowerCase line) (lit "theme")
   || includes (toLowerCase line) (lit "subject"))%bool.

(** A list line: it starts with a dash, a bullet, or digits and a dot. *)
Definition isListLine (line : jsstring) : bool :=
  (startsWith line (lit "-") || startsWith line [bullet]
   || test numberedRegExp line)%bool.

Definition nonBlank (line : jsstring) : bool := truthy (trim line).

(** The line without its leading markers. *)
Definition stripMarkers (line : jsstring) : jsstring :=
  trim (replaceEmpty markerRegExp line).

Definition topicOf (line : jsstring) : Topic.t :=
  Topic.Make (stripMarkers line) (lit "Discussion about " ++ stripMarkers line).

(** The lines that follow the first trigger line. *)
Fixpoint afterFirst (trigger : jsstring -> bool) (lines : list jsstring)
  : list jsstring :=
  match lines with
  | [] => []
  | line :: more => if trigger line then more else afterFirst trigger more
  end.

(** The lines a scan collects: among the lines after the first trigger
    line, those that are not trigger lines themselves and are non-blank
    list lines, up to five. *)
Definition collectable (trigger : jsstring -> bool) (line : jsstring) : bool :=
  (negb (trigger line) && nonBlank line && isListLine line)%bool.

Definition collected (trigger : jsstring -> bool) (lines : list jsstring)
  : list jsstring :=
  firstn 5 (filter (collectable trigger) (afterFirst trigger lines)).

(** The reading of the scan in which every list line after the first
    trigger line is collected, trigger phrase or not. *)
Definition collectedAll (trigger : jsstring -> bool) (lines : list jsstring)
  : list jsstring :=
  firstn 5 (filter (fun line => (nonBlank line && isListLine line)%bool)
                   (afterFirst trigger lines)).

(** The common shape of the two loops. *)
Fixpoint scanLoop {A : Type} (trigger : jsstring -> bool) (item : jsstring -> A)
         (lines : list jsstring) (inSection : bool) (acc : list A) : list A :=
  match lines with
  | [] => acc
  | line :: more =>
      if trigger line then scanLoop trigger item more true acc
      else
        let acc' :=
          if (inSection && nonBlank line && isListLine line)%bool
          then acc ++ [item line] else acc in
        if Nat.leb 5 (length acc') then acc'
        else scanLoop trigger item more inSection acc'
  end.

End Scan.
Import Scan.

(* ===================================================================== *)
(** ** Reading the video pattern as a scan for the last marker *)
(* ===================================================================== *)

Module VideoUrl.

(** The longest prefix of characters of a class. *)
Fixpoint takeWhile (p : char16 -> bool) (s : jsstring) : jsstring :=
  match s with
  | c :: s' => if p c then c :: takeWhile p s' else []
  | [] => []
  end.

(** Two literal runs around one character of a class. *)
Definition midMatch (a : jsstring) (p : char16 -> bool) (b s : jsstring) : bool :=
  (startsWith s a
   && match skipn (length a) s with
      | c :: r => p c && startsWith r b
      | [] => false
      end)%bool.

(** The length of the marker that a string starts with, the alternatives
    being tried in the order of the pattern. *)
Definition markerLength (s : jsstring) : option nat :=
  if midMatch (lit "youtu") isDot (lit "be/") s then Some 9
  else if startsWith s (lit "v/") then Some 2
  else if midMatch (lit "/u/") isWordChar (lit "/") s then Some 5
  else if startsWith s (lit "embed/") then Some 6
  else if startsWith s (lit "watch?") then Some 6
  else None.

(** Drop one leading [c], if there is one. *)
Definition skipOne (c : char16) (s : jsstring) : jsstring :=
  match s with
  | x :: r => if eqc c x then r else s
  | [] => s
  end.

(** The candidate id read at a marker: past the marker, past at most one
    "?", one "v" and one "=", up to the next delimiter. *)
Definition candidateAfter (s : jsstring) : jsstring :=
  takeWhile notDelimiter
    (skipOne (chr "=") (skipOne (chr "v") (skipOne (chr "?") s))).

Definition candidateAt (s : jsstring) : option jsstring :=
  match markerLength s with
  | Some n => Some (candidateAfter (skipn n s))
  | None => None
  end.

(** The candidate at the last marker that starts on the first line. *)
Fixpoint lastCandidate (s : jsstring) : option jsstring :=
  match s with
  | c :: s' =>
      if isDot c then
        match lastCandidate s' with
        | Some g => Some g
        | None => candidateAt s
        end
      else candidateAt s
  | [] => candidateAt []
  end.

(** The seventh group of a matcher result. *)
Definition seventh (r : option mstate) : option (option jsstring) :=
  option_map (fun st => lookup 7 (caps st)) r.

(** A continuation that cannot fail. *)
Definition total (k : cont) : Prop := forall st, exists r, k st = Some r.

(** The state after an optional single character. *)
Definition skipState (c : char16) (st : mstate) : mstate :=
  match rest st with
  | x :: r => if eqc c x then MState (S (pos st)) r (caps st) else st
  | [] => st
  end.

(** The state after a group that took [len] code units. *)
Definition afterGroup (n len : nat) (st : mstate) : mstate :=
  MState (pos st + len) (skipn len (rest st))
         ((n, firstn len (rest st)) :: caps st).

(** What the pattern reads at one position. *)
Definition atPosition : cont := fun st => run (markerGroup +> idTail) st Some.

(** The alphabet of video ids: letters, digits, underscore and dash. *)
Definition isIdChar (c : char16) : bool := (isWordChar c || eqc c (chr "-"))%bool.

(** The candidates at the positions of a prefix, last position first. *)
Fixpoint lastWithin (a b : jsstring) : option jsstring :=
  match a with
  | [] => None
  | _ :: a' =>
      match lastWithin a' b with
      | Some g => Some g
      | None => candidateAt (a ++ b)
      end
  end.

End VideoUrl.
Import VideoUrl.

(* ===================================================================== *)
(** ** Vocabulary for the statements *)
(* ===================================================================== *)

(** A line as [split] produces them: it holds no newline. *)
Definition noNewline (line : jsstring) : bool :=
  forallb (fun c => negb (eqc c 10%N)) line.

(** The placeholders of the two scanners. *)
Definition takeawayPlaceholder : jsstring :=
  lit "No specific key takeaways identified".

Definition topicPlaceholder : Topic.t :=
  Topic.Make (lit "General Content") (lit "The main content of the video").

(** A bulleted line of a well-formed list: it starts with a dash or a
    bullet, holds no newline and no trigger phrase. *)
Definition plainBullet (trigger : jsstring -> bool) (line : jsstring) : bool :=
  ((startsWith line (lit "-") || startsWith line [bullet])
   && noNewline line && negb (trigger line))%bool.

(** A line that holds no newline and no trigger phrase. *)
Definition plainLine (trigger : jsstring -> bool) (line : jsstring) : bool :=
  (noNewline line && negb (trigger line))%bool.

(** Seven bulleted lines, with dashes and bullets and stray spaces. *)
Definition sevenBullets : list jsstring :=
  [lit "- one"; lit "- two"; [bullet; 32%N] ++ lit "three"; lit "- four";
   lit "-  five "; lit "- six"; lit "- seven"].

(** The input on which the reading that collects every later list line
    fails: the second bullet holds a trigger phrase and is skipped, so the
    result is not the first five bullets. *)
Definition triggerInBullet : jsstring :=
  join_nl [lit "Key Takeaways:"; lit "- alpha"; lit "- the main point";
           lit "- gamma"; lit "- delta"; lit "- epsilon"; lit "- zeta";
           lit "- eta"].

(** What [getYoutubeMetadata] returns, read off the world. *)
Definition metadataOf (w : World) (videoUrl : jsstring) : option OEmbed.t :=
  match extractVideoId videoUrl with
  | None => None
  | Some videoId =>
      match fetchOEmbed w (oembedUrl videoId) with
      | Thrown _ => None
      | Returned response =>
          if ok response then
            match json response with
            | Returned metadata => Some metadata
            | Thrown _ => None
            end
          else None
      end
  end.

(** The effects of one call of [getYoutubeMetadata]. *)
Definition metadataEffects (videoUrl : jsstring) (s : Effects) : Effects :=
  match extractVideoId videoUrl with
  | None => s
  | Some videoId => MkEffects (ticks s) (calls s ++ [FetchCall (oembedUrl videoId)])
  end.

(** The request passes every check that precedes the transcript fetch:
    the body holds a string [videoUrl] from which [videoId] is extracted,
    and both keys are configured. *)
Record PassesValidation (w : World) (req : Request)
       (videoUrl videoId : jsstring) : Prop := {
  valid_body : exists body,
    req_json req = Returned body
    /\ destructure w body (lit "videoUrl") = Returned (Some (JString videoUrl));
  valid_supadata : configured (SUPADATA_API_KEY w) = true;
  valid_groq : configured (GROQ_API_KEY w) = true;
  valid_id : extractVideoId videoUrl = Some videoId
}.

(** The transcript fetch succeeds with the data [d]. *)
Definition TranscriptFetched (w : World) (videoId : jsstring)
           (d : TranscriptData) : Prop :=
  exists response data,
    fetchTranscript w (transcriptUrl videoId) (keyValue (SUPADATA_API_KEY w))
    = Returned response
    /\ ok response = true
    /\ json response = Returned data
    /\ body_success data = true
    /\ body_data data = Some d.

(** The transcript fetch fails, by a status outside 200-299 or by a body
    whose success flag is false; the index is the message of the error
    that the handler throws. *)
Inductive TranscriptFailed (w : World) (videoId : jsstring) : jsstring -> Prop :=
| failed_status (response : HttpResponse SupadataBody) :
    fetchTranscript w (transcriptUrl videoId) (keyValue (SUPADATA_API_KEY w))
    = Returned response ->
    ok response = false ->
    TranscriptFailed w videoId
      (lit "Supadata API returned status: " ++ numberToString (status response))
| failed_flag (response : HttpResponse SupadataBody) (data : SupadataBody) :
    fetchTranscript w (transcriptUrl videoId) (keyValue (SUPADATA_API_KEY w))
    = Returned response ->
    ok response = true ->
    json response = Returned data ->
    body_success data = false ->
    TranscriptFailed w videoId
      (orElse (body_message data) (lit "Unknown error from Supadata API")).

(** The responses of the three tiers, as the handler assembles them. *)
Definition successResponse (requestId : jsstring) (elapsed : Z)
           (transcript : Transcript.t) (analysis : Analysis.t) : Response :=
  jsonResponse
    (Body.Make true None (Some requestId) (Some elapsed) None None None
               (Some (Data.Make transcript analysis)))
    None.

Definition partialResponse (metadata : option OEmbed.t) (videoId : jsstring)
           (transcript : Transcript.t) (groqError : JsError) : Response :=
  jsonResponse
    (Body.Make true (Some true) None None
               (Some (ErrorAnalysis (lit "Error generating analysis: "
                                     ++ message groqError)))
               None None
               (Some (Data.Make transcript
                        (generateFallbackAnalysis (titleOrDefault metadata videoId)))))
    None.

Definition failureResponse (metadata : option OEmbed.t)
           (videoId videoUrl : jsstring) (transcriptError : JsError) : Response :=
  jsonResponse
    (Body.Make false None None None
               (Some (ErrorText (lit "Failed to fetch transcript: "
                                 ++ message transcriptError)))
               None None
               (Some (Data.Make
                        (fallbackTranscript metadata videoId videoUrl transcriptError)
                        (generateFallbackAnalysis (titleOrDefault metadata videoId)))))
    None.

(** The responses that end a run before or outside the pipeline. *)
Definition plainError (status : Z) (text : jsstring)
           (troubleshooting : option jsstring) : Response :=
  jsonResponse
    (Body.Make false None None None (Some (ErrorText text)) troubleshooting
               None None)
    (Some status).

Inductive ErrorResponse (w : World) : Response -> Prop :=
| missing_parameter :
    ErrorResponse w
      (plainError 400 (lit "Missing videoUrl parameter in request body") None)
| missing_supadata_key :
    ErrorResponse w
      (plainError 500 (lit "Server configuration error: Missing Supadata API key")
         (Some (lit "Add SUPADATA_API_KEY to your environment variables")))
| missing_groq_key :
    ErrorResponse w
      (plainError 500 (lit "Server configuration error: Missing Groq API key")
         (Some (lit "Add GROQ_API_KEY to your environment variables")))
| invalid_url :
    ErrorResponse w
      (plainError 400 (lit "Invalid YouTube URL. Could not extract video ID.") None)
| uncaught_exception (error : JsError) (elapsed : Z) :
    ErrorResponse w
      (jsonResponse
         (Body.Make false None (Some (randomId w)) (Some elapsed)
                    (Some (ErrorText (lit "Server error: " ++ message error)))
                    None
                    (if isDevelopment w then stack error else None)
                    None)
         (Some 500%Z)).

(** Unfolds the handler and the operations of its monad. *)
Ltac unfold_handler :=
  cbv beta iota zeta delta
      [POST fetchAndAnalyze analyze getYoutubeMetadata fetchMetadata
       fetchSupadata chatCompletionsCreate logCall now bind ret throw
       tryCatch await].

(** The effects of the transcript fetch. *)
Definition transcriptEffects (videoId : jsstring) (s : Effects) : Effects :=
  MkEffects (ticks s) (calls s ++ [FetchCall (transcriptUrl videoId)]).

(** The effects of a validated run up to the transcript fetch, and up to
    the summariser: the start time has been read, and the oEmbed, the
    transcript and the completion endpoints have been called in that
    order. *)
Definition fetchedEffects (videoId : jsstring) (s : Effects) : Effects :=
  MkEffects (S (ticks s))
            (calls s ++ [FetchCall (oembedUrl videoId);
                         FetchCall (transcriptUrl videoId)]).

Definition pipelineEffects (videoId : jsstring) (d : TranscriptData)
           (s : Effects) : Effects :=
  MkEffects (S (ticks s))
            (calls s ++ [FetchCall (oembedUrl videoId);
                         FetchCall (transcriptUrl videoId);
                         CompletionCall (completionRequest (text d))]).

(** [body.videoUrl] on a body that is not null. *)
Definition property (body : Json) (k : jsstring) : option Json :=
  match body with
  | JObject fields => lookupField k fields
  | _ => None
  end.

(* ===================================================================== *)
(** ** Vocabulary for further properties *)
(* ===================================================================== *)

(** A line that starts with one or more digits, the digits being followed
    by a dot. *)
Definition numbered (line : jsstring) : bool :=
  match line with
  | c :: _ =>
      (isDigit c
       && match dropWhile isDigit line with
          | d :: _ => eqc (chr ".") d
          | [] => false
          end)%bool
  | [] => false
  end.

(** A character that ends no marker: neither a slash nor a question
    mark. *)
Definition isPlain (c : char16) : bool :=
  negb (eqc c (chr "/") || eqc c (chr "?")).

(** The world in which every oEmbed request is rejected. *)
Definition withoutMetadata (w : World) : World :=
  MkWorld (SUPADATA_API_KEY w) (GROQ_API_KEY w) (NODE_ENV w) (dateNow w)
          (randomId w) (typeError w) (conversionError w) (captureStack w)
          (fun _ => Thrown (MkError [] None))
          (fetchTranscript w) (createCompletion w).

(** What a response says apart from the fields that are filled from the
    metadata (title, author, length, thumbnail, description and the
    framework). *)
Definition payloadView (d : Data.t) :=
  let t := Data.transcript d in
  let a := Data.analysis d in
  (Transcript.content t, Transcript.segments t, Transcript.error t,
   VideoInfo.videoId (Transcript.videoInfo t),
   VideoInfo.videoUrl (Transcript.videoInfo t),
   Analysis.summary a, Analysis.keyTakeaways a, Analysis.topics a).

Definition responseView (r : Response) :=
  let b := body r in
  (httpStatus r, Body.success b, Body.partial b, Body.requestId b,
   Body.processingTime b, Body.error b, Body.troubleshooting b, Body.stack b,
   option_map payloadView (Body.data b)).

(** An exception while the transcript is fetched or read: the request is
    rejected, the body does not parse, or the body has no data. *)
Inductive TranscriptThrows (w : World) (videoId : jsstring) : JsError -> Prop :=
| throws_fetch e :
    fetchTranscript w (transcriptUrl videoId) (keyValue (SUPADATA_API_KEY w))
    = Thrown e ->
    TranscriptThrows w videoId e
| throws_json response e :
    fetchTranscript w (transcriptUrl videoId) (keyValue (SUPADATA_API_KEY w))
    = Returned response ->
    ok response = true ->
    json response = Thrown e ->
    TranscriptThrows w videoId e
| throws_data response data :
    fetchTranscript w (transcriptUrl videoId) (keyValue (SUPADATA_API_KEY w))
    = Returned response ->
    ok response = true ->
    json response = Returned data ->
    body_success data = true ->
    body_data data = None ->
    TranscriptThrows w videoId (typeError w (lit "text")).

(** The analysis of the full-success response. *)
Definition analysisOf (metadata : option OEmbed.t) (videoId analysisText : jsstring)
  : Analysis.t :=
  Analysis.Make
    (Framework.Make
       (orElse (opt metadata OEmbed.title) (lit "Framework for " ++ videoId))
       [Component.Make (lit "Summary") (substring0 500 analysisText)])
    (substring0 500 analysisText)
    (extractKeyTakeaways analysisText)
    (extractTopics analysisText).

(** The response of the catch-all block. *)
Definition uncaughtResponse (w : World) (error : JsError) (elapsed : Z) : Response :=
  jsonResponse
    (Body.Make false None (Some (randomId w)) (Some elapsed)
               (Some (ErrorText (lit "Server error: " ++ message error)))
               None
               (if isDevelopment w then stack error else None)
               None)
    (Some 500%Z).

(** The time between the two readings of the clock that a run takes when
    it reports a processing time. *)
Definition elapsedFrom (w : World) (s : Effects) : Z :=
  (dateNow w (S (ticks s)) - dateNow w (ticks s))%Z.

(** How a run of the handler that starts with the effects [s] can end:
    the response, and the effects at the end.  The constructors of the two
    clients, which are given keys that passed the checks, are taken not to
    throw, as in [POST]. *)
Inductive Ending (w : World) (req : Request) (s : Effects)
  : Response -> Effects -> Prop :=
| ends_missing_parameter payload :
    req_json req = Returned payload ->
    payload <> JNull ->
    jsTruthy (property payload (lit "videoUrl")) = false ->
    Ending w req s
           (plainError 400 (lit "Missing videoUrl parameter in request body") None)
           (MkEffects (S (ticks s)) (calls s))
| ends_unconvertible payload videoUrl :
    req_json req = Returned payload ->
    property payload (lit "videoUrl") = Some videoUrl ->
    jsTruthy (Some videoUrl) = true ->
    toStringThrows videoUrl = true ->
    Ending w req s (uncaughtResponse w (conversionError w) (elapsedFrom w s))
           (MkEffects (S (S (ticks s))) (calls s))
| ends_missing_supadata_key payload :
    req_json req = Returned payload ->
    jsTruthy (property payload (lit "videoUrl")) = true ->
    templateLiteral w (property payload (lit "videoUrl")) = Returned tt ->
    configured (SUPADATA_API_KEY w) = false ->
    Ending w req s
           (plainError 500
              (lit "Server configuration error: Missing Supadata API key")
              (Some (lit "Add SUPADATA_API_KEY to your environment variables")))
           (MkEffects (S (ticks s)) (calls s))
| ends_missing_groq_key payload :
    req_json req = Returned payload ->
    jsTruthy (property payload (lit "videoUrl")) = true ->
    templateLiteral w (property payload (lit "videoUrl")) = Returned tt ->
    configured (SUPADATA_API_KEY w) = true ->
    configured (GROQ_API_KEY w) = false ->
    Ending w req s
           (plainError 500
              (lit "Server configuration error: Missing Groq API key")
              (Some (lit "Add GROQ_API_KEY to your environment variables")))
           (MkEffects (S (ticks s)) (calls s))
| ends_invalid_url payload :
    req_json req = Returned payload ->
    jsTruthy (property payload (lit "videoUrl")) = true ->
    templateLiteral w (property payload (lit "videoUrl")) = Returned tt ->
    configured (SUPADATA_API_KEY w) = true ->
    configured (GROQ_API_KEY w) = true ->
    extractVideoIdOf (property payload (lit "videoUrl")) = None ->
    Ending w req s
           (plainError 400 (lit "Invalid YouTube URL. Could not extract video ID.")
                       None)
           (MkEffects (S (ticks s)) (calls s))
| ends_uncaught error :
    req_json req = Thrown error
    \/ (req_json req = Returned JNull /\ error = typeError w (lit "videoUrl")) ->
    Ending w req s (uncaughtResponse w error (elapsedFrom w s))
           (MkEffects (S (S (ticks s))) (calls s))
| ends_failure videoUrl videoId error :
    PassesValidation w req videoUrl videoId ->
    Ending w req s
           (failureResponse (metadataOf w videoUrl) videoId videoUrl error)
           (fetchedEffects videoId s)
| ends_partial videoUrl videoId d groqError :
    PassesValidation w req videoUrl videoId ->
    createCompletion w (completionRequest (text d)) = Thrown groqError ->
    Ending w req s
           (partialResponse (metadataOf w videoUrl) videoId
              (buildTranscript (metadataOf w videoUrl) videoId videoUrl d)
              groqError)
           (pipelineEffects videoId d s)
| ends_success videoUrl videoId d completion :
    PassesValidation w req videoUrl videoId ->
    createCompletion w (completionRequest (text d)) = Returned completion ->
    Ending w req s
           (successResponse (randomId w) (elapsedFrom w s)
              (buildTranscript (metadataOf w videoUrl) videoId videoUrl d)
              (analysisOf (metadataOf w videoUrl) videoId
                          (analysisTextOf completion)))
           (MkEffects (S (S (ticks s))) (calls (pipelineEffects videoId d s))).

(* ===================================================================== *)
(** ** Concrete requests and worlds *)
(* ===================================================================== *)

Module Demo.

Definition videoId : jsstring := lit "dQw4w9WgXcQ".

Definition videoUrl : jsstring := lit "https://www.youtube.com/watch?v=" ++ videoId.

Definition request : Request :=
  MkRequest (Returned (JObject [(lit "videoUrl", JString videoUrl)])).

Definition nullRequest : Request := MkRequest (Returned JNull).

Definition emptyRequest : Request := MkRequest (Returned (JObject [])).

Definition oembed : OEmbed.t :=
  OEmbed.Make (Some (lit "Never Gonna Give You Up")) (Some (lit "Rick Astley"))
              None None None.

Definition transcriptData : TranscriptData :=
  MkTranscriptData (lit "We are no strangers to love") None.

Definition world (supadataKey : option jsstring)
           (metadata : Outcome (HttpResponse OEmbed.t))
           (transcript : Outcome (HttpResponse SupadataBody))
           (completion : Outcome Completion) : World :=
  MkWorld supadataKey (Some (lit "gsk-test")) (Some (lit "production"))
          (fun n => (1700000000000 + 250 * Z.of_nat n)%Z)
          (lit "k3x9q2ab")
          (fun k => MkError (lit "Cannot read properties of null (reading '"
                            ++ k ++ lit "')") None)
          (MkError (lit "Cannot convert object to primitive value") None)
          (fun _ => None)
          (fun _ => metadata)
          (fun _ _ => transcript)
          (fun _ => completion).

Definition metadataFound : Outcome (HttpResponse OEmbed.t) :=
  Returned (MkHttpResponse 200 (Returned oembed)).

Definition metadataMissing : Outcome (HttpResponse OEmbed.t) :=
  Returned (MkHttpResponse 404 (Thrown (MkError (lit "Unexpected token") None))).

Definition transcriptFound : Outcome (HttpResponse SupadataBody) :=
  Returned (MkHttpResponse 200
              (Returned (MkSupadataBody true None (Some transcriptData)))).

Definition transcriptStatus500 : Outcome (HttpResponse SupadataBody) :=
  Returned (MkHttpResponse 500 (Thrown (MkError (lit "Unexpected token") None))).

Definition transcriptFlagged : Outcome (HttpResponse SupadataBody) :=
  Returned (MkHttpResponse 200
              (Returned (MkSupadataBody false (Some (lit "Transcript unavailable"))
                                        None))).

Definition completionFails : Outcome Completion :=
  Thrown (MkError (lit "Rate limit exceeded") None).

Definition completionText : jsstring :=
  join_nl [lit "Key Takeaways:"; lit "- Commitment"; lit "Topics:"; lit "- Love"].

Definition completionFound : Outcome Completion :=
  Returned (MkCompletion [MkChoice (Some (Some completionText))]).

Definition key : option jsstring := Some (lit "sd-test").

(** Summarisation throws after the transcript was fetched. *)
Definition partialWorld : World :=
  world key metadataFound transcriptFound completionFails.

(** The transcript service answers 500. *)
Definition failedWorld : World :=
  world key metadataFound transcriptStatus500 completionFound.

(** The transcript service answers 200 with success false. *)
Definition flaggedWorld : World :=
  world key metadataFound transcriptFlagged completionFound.

(** Everything succeeds. *)
Definition successWorld : World :=
  world key metadataFound transcriptFound completionFound.

(** The oEmbed lookup answers 404 and summarisation throws. *)
Definition noMetadataWorld : World :=
  world key metadataMissing transcriptFound completionFails.

(** SUPADATA_API_KEY is not set. *)
Definition noKeyWorld : World :=
  world None metadataFound transcriptFound completionFound.

(** A body whose [videoUrl] is an object with an own property
    'toString'. *)
Definition unconvertible : Json := JObject [(lit "toString", JNumber (QArith_base.Qmake 1 1))].

Definition unconvertibleRequest : Request :=
  MkRequest (Returned (JObject [(lit "videoUrl", unconvertible)])).

(** The transcript service answers 403 with a message of its own. *)
Definition transcriptForbidden : Outcome (HttpResponse SupadataBody) :=
  Returned (MkHttpResponse 403
              (Returned (MkSupadataBody false (Some (lit "Video is private"))
                                        None))).

Definition forbiddenWorld : World :=
  world key metadataFound transcriptForbidden completionFound.

End Demo.

Module Sample.

(** The world with another GROQ_API_KEY and another NODE_ENV. *)
Definition configuredAs (groqKey nodeEnv : option jsstring) (w : World) : World :=
  MkWorld (SUPADATA_API_KEY w) groqKey nodeEnv (dateNow w) (randomId w)
          (typeError w) (conversionError w) (captureStack w) (fetchOEmbed w)
          (fetchTranscript w) (createCompletion w).

(** GROQ_API_KEY is not set. *)
Definition noGroqWorld : World :=
  configuredAs None (Some (lit "production")) Demo.successWorld.

(** The development server. *)
Definition developmentWorld : World :=
  configuredAs (Some (lit "gsk-test")) (Some (lit "development")) Demo.successWorld.

(** The summariser answers without a choice. *)
Definition emptyWorld : World :=
  Demo.world Demo.key Demo.metadataFound Demo.transcriptFound
             (Returned (MkCompletion [])).

(** The request to the transcript service is rejected. *)
Definition rejectedWorld : World :=
  Demo.world Demo.key Demo.metadataFound
             (Thrown (MkError (lit "fetch failed") None)) Demo.completionFound.

(** A body whose [videoUrl] is a number. *)
Definition numberRequest : Request :=
  MkRequest (Returned (JObject [(lit "videoUrl", JNumber (QArith_base.Qmake 42 1))])).

(** A body whose [videoUrl] is no video link. *)
Definition otherRequest : Request :=
  MkRequest (Returned (JObject [(lit "videoUrl", JString (lit "https://example.com/"))])).

(** A body that is not JSON. *)
Definition syntaxError : JsError :=
  MkError (lit "Unexpected end of JSON input")
          (Some (lit "SyntaxError: Unexpected end of JSON input")).

Definition unreadableRequest : Request := MkRequest (Thrown syntaxError).

(** A watch link whose first parameter is not the id. *)
Definition sharedUrl : jsstring :=
  lit "https://www.youtube.com/watch?feature=share&v=dQw4w9WgXcQ".

(** An answer with five takeaways. *)
Definition longAnswer : jsstring :=
  join_nl [lit "Key Takeaways:"; lit "- one"; lit "- two"; lit "- three";
           lit "- four"; lit "- five"].

End Sample.

(* ===================================================================== *)
(** ** Facts about the scan *)
(* ===================================================================== *)

Module ScanFacts.

Lemma takeawaysLoop_scanLoop lines b acc :
  takeawaysLoop lines b acc = scanLoop isTakeawayTrigger stripMarkers lines b acc.
Proof.
  revert b acc. induction lines as [|line more IH]; intros b acc.
  - reflexivity.
  - cbn [takeawaysLoop scanLoop]. fold (isTakeawayTrigger line).
    destruct (isTakeawayTrigger line); [apply IH|].
    rewrite IH. reflexivity.
Qed.

Lemma topicsLoop_scanLoop lines b acc :
  topicsLoop lines b acc = scanLoop isTopicTrigger topicOf lines b acc.
Proof.
  revert b acc. induction lines as [|line more IH]; intros b acc.
  - reflexivity.
  - cbn [topicsLoop scanLoop]. fold (isTopicTrigger line).
    destruct (isTopicTrigger line); [apply IH|].
    rewrite IH. reflexivity.
Qed.

Section Characterisation.
Context {A : Type} (trigger : jsstring -> bool) (item : jsstring -> A).

(** Once the section is open, the loop appends the items of the
    collectable lines until the accumulator holds five. *)
Lemma scanLoop_open lines : forall acc,
  length acc < 5 ->
  scanLoop trigger item lines true acc
  = acc ++ map item (firstn (5 - length acc) (filter (collectable trigger) lines)).
Proof.
  induction lines as [|line more IH]; intros acc Hacc; cbn [scanLoop filter].
  - rewrite firstn_nil. cbn [map]. now rewrite app_nil_r.
  - unfold collectable at 1. destruct (trigger line); cbn [negb andb].
    + now apply IH.
    + destruct (nonBlank line && isListLine line)%bool eqn:E.
      * rewrite length_app. cbn [length].
        destruct (Nat.leb 5 (length acc + 1)) eqn:L.
        -- apply Nat.leb_le in L.
           replace (5 - length acc) with 1 by lia. reflexivity.
        -- apply Nat.leb_gt in L.
           rewrite IH by (rewrite length_app; cbn [length]; lia).
           rewrite length_app. cbn [length].
           replace (5 - length acc) with (S (5 - (length acc + 1))) by lia.
           cbn [firstn map]. now rewrite <- app_assoc.
      * destruct (Nat.leb 5 (length acc)) eqn:L.
        -- apply Nat.leb_le in L. lia.
        -- now apply IH.
Qed.

(** Before the section opens nothing is collected. *)
Lemma scanLoop_closed lines : forall acc,
  length acc < 5 ->
  scanLoop trigger item lines false acc
  = acc ++ map item (firstn (5 - length acc)
                            (filter (collectable trigger) (afterFirst trigger lines))).
Proof.
  induction lines as [|line more IH]; intros acc Hacc; cbn [scanLoop afterFirst].
  - cbn [filter]. rewrite firstn_nil. cbn [map]. now rewrite app_nil_r.
  - destruct (trigger line).
    + now apply scanLoop_open.
    + cbn [andb]. destruct (Nat.leb 5 (length acc)) eqn:L.
      * apply Nat.leb_le in L. lia.
      * now apply IH.
Qed.

Lemma scanLoop_collected lines :
  scanLoop trigger item lines false [] = map item (collected trigger lines).
Proof.
  rewrite scanLoop_closed by (simpl; lia). reflexivity.
Qed.

(** Without a trigger line there is nothing after the first one. *)
Lemma afterFirst_no_trigger lines :
  forallb (fun line => negb (trigger line)) lines = true ->
  afterFirst trigger lines = [].
Proof.
  induction lines as [|line more IH]; simpl; [reflexivity|].
  destruct (trigger line); simpl; [discriminate | exact IH].
Qed.

End Characterisation.

Lemma collected_length trigger lines : length (collected trigger lines) <= 5.
Proof. unfold collected. apply firstn_le_length. Qed.

End ScanFacts.

(* ===================================================================== *)
(** ** Facts about strings and the matcher *)
(* ===================================================================== *)

Module StringFacts.

Lemma startsWith_app s t p : startsWith s p = true -> startsWith (s ++ t) p = true.
Proof.
  revert s. induction p as [|a p IH]; intros s H; [reflexivity|].
  destruct s as [|b s]; [discriminate|].
  cbn [startsWith app] in *. apply andb_true_iff in H as [H1 H2].
  rewrite H1. cbn [andb]. now apply IH.
Qed.

Lemma includes_app_l s t p : includes s p = true -> includes (s ++ t) p = true.
Proof.
  induction s as [|c s IH]; cbn [includes app]; intros H.
  - rewrite orb_false_r in H. destruct p; [|discriminate].
    destruct t; reflexivity.
  - apply orb_true_iff in H as [H|H].
    + change (c :: s ++ t) with ((c :: s) ++ t).
      rewrite (startsWith_app _ t _ H). reflexivity.
    + rewrite (IH H). apply orb_true_r.
Qed.

Lemma includes_app_r s t p : includes t p = true -> includes (s ++ t) p = true.
Proof.
  induction s as [|c s IH]; cbn [includes app]; intros H; [exact H|].
  rewrite (IH H). apply orb_true_r.
Qed.

Lemma toLowerCase_app s t : toLowerCase (s ++ t) = toLowerCase s ++ toLowerCase t.
Proof. unfold toLowerCase. apply flat_map_app. Qed.

(** The first line of a text is a prefix of it. *)
Lemma split_nl_head text : forall l ls,
  split_nl text = l :: ls -> exists post, text = l ++ post.
Proof.
  induction text as [|d t IHt]; intros l ls E; cbn [split_nl] in E.
  - injection E as <- <-. now exists [].
  - destruct (eqc d 10%N).
    + injection E as <- <-. now exists (d :: t).
    + destruct (split_nl t) as [|l' ls'] eqn:E'.
      * injection E as <- <-. now exists t.
      * injection E as <- <-.
        destruct (IHt _ _ eq_refl) as (post' & ->). now exists post'.
Qed.

(** Every line of a text is a piece of it. *)
Lemma split_nl_piece text : forall line,
  In line (split_nl text) -> exists pre post, text = pre ++ line ++ post.
Proof.
  induction text as [|c text IH]; intros line H; cbn [split_nl] in H.
  - destruct H as [<-|[]]. now exists [], [].
  - destruct (eqc c 10%N).
    + destruct H as [<-|H].
      * now exists [], (c :: text).
      * destruct (IH _ H) as (pre & post & ->). now exists (c :: pre), post.
    + destruct (split_nl text) as [|l ls] eqn:E.
      * destruct H as [<-|[]]. now exists [], text.
      * destruct H as [<-|H].
        -- destruct (split_nl_head _ E) as (post' & ->). now exists [], post'.
        -- destruct (IH _ (or_intror H)) as (pre & post & ->).
           now exists (c :: pre), post.
Qed.

(** A trigger phrase found on a line is found in the whole text. *)
Lemma includes_line text line p :
  In line (split_nl text) ->
  includes (toLowerCase line) p = true ->
  includes (toLowerCase text) p = true.
Proof.
  intros Hin H. destruct (split_nl_piece _ _ Hin) as (pre & post & ->).
  rewrite !toLowerCase_app. apply includes_app_r. now apply includes_app_l.
Qed.

Lemma split_nl_line line : noNewline line = true -> split_nl line = [line].
Proof.
  induction line as [|c line IH]; cbn [split_nl noNewline forallb]; intros H.
  - reflexivity.
  - apply andb_true_iff in H as [H1 H2]. apply negb_true_iff in H1.
    rewrite H1. now rewrite (IH H2).
Qed.

Lemma split_nl_cons line text :
  noNewline line = true -> split_nl (line ++ 10%N :: text) = line :: split_nl text.
Proof.
  induction line as [|c line IH]; cbn [split_nl noNewline forallb app]; intros H.
  - reflexivity.
  - apply andb_true_iff in H as [H1 H2]. apply negb_true_iff in H1.
    rewrite H1. now rewrite (IH H2).
Qed.

(** Splitting undoes joining when no line holds a newline. *)
Lemma split_join ls :
  ls <> [] -> forallb noNewline ls = true -> split_nl (join_nl ls) = ls.
Proof.
  induction ls as [|l ls IH]; intros Hne H; [contradiction|].
  cbn [forallb] in H. apply andb_true_iff in H as [H1 H2].
  destruct ls as [|l' ls].
  - now apply split_nl_line.
  - change (join_nl (l :: l' :: ls)) with (l ++ 10%N :: join_nl (l' :: ls)).
    rewrite split_nl_cons by exact H1. f_equal. now apply IH.
Qed.

Lemma dropWhile_last p s c : p c = false -> dropWhile p (s ++ [c]) <> [].
Proof.
  intros Hc. induction s as [|d s IH]; cbn [app dropWhile].
  - rewrite Hc. discriminate.
  - destruct (p d); [exact IH | discriminate].
Qed.

(** A string whose first code unit is not white space is not blank. *)
Lemma trim_truthy c s : isWhiteSpace c = false -> truthy (trim (c :: s)) = true.
Proof.
  intros Hc. unfold trim, trimStart, trimEnd. cbn [dropWhile]. rewrite Hc.
  cbn [rev]. pose proof (dropWhile_last isWhiteSpace (rev s) c Hc) as Hne.
  destruct (dropWhile isWhiteSpace (rev s ++ [c])) as [|x xs]; [contradiction|].
  cbn [rev]. destruct (rev xs); reflexivity.
Qed.

(** A pattern anchored at the start matches at index 0 or not at all. *)
Lemma execFrom_anchored r s : forall i, execFrom (Bol +> r) (S i) s = None.
Proof.
  induction s as [|c s IH]; intros i; cbn [execFrom run pos Nat.eqb];
    [reflexivity | apply IH].
Qed.

Lemma test_numbered_digit line :
  test numberedRegExp line = true ->
  exists c s, line = c :: s /\ isDigit c = true.
Proof.
  unfold test, exec, numberedRegExp. destruct line as [|c s].
  - cbn. discriminate.
  - cbn [execFrom run pos rest Nat.eqb]. destruct (isDigit c) eqn:D.
    + intros _. now exists c, s.
    + rewrite execFrom_anchored. discriminate.
Qed.

Lemma digit_not_space c : isDigit c = true -> isWhiteSpace c = false.
Proof.
  unfold isDigit, isWhiteSpace, between, eqc. intros H.
  apply andb_true_iff in H as [H1 H2].
  apply N.leb_le in H1. apply N.leb_le in H2.
  repeat (apply orb_false_iff; split);
    first [ apply N.eqb_neq; lia
          | apply andb_false_iff;
            first [ right; apply N.leb_gt; lia | left; apply N.leb_gt; lia ] ].
Qed.

End StringFacts.
Import ScanFacts StringFacts.

(* ===================================================================== *)
(** ** The text scanners *)
(* ===================================================================== *)

(** A list line is never blank, so the loop's blank test never decides. *)
Lemma isListLine_nonBlank line : isListLine line = true -> nonBlank line = true.
Proof.
  unfold isListLine, nonBlank. intros H.
  apply orb_true_iff in H as [H|H]; [apply orb_true_iff in H as [H|H]|].
  - destruct line as [|c s]; [discriminate|]. cbn [startsWith lit] in H.
    apply andb_true_iff in H as [H _]. apply N.eqb_eq in H. subst c.
    now apply trim_truthy.
  - destruct line as [|c s]; [discriminate|]. cbn [startsWith] in H.
    apply andb_true_iff in H as [H _]. apply N.eqb_eq in H. subst c.
    now apply trim_truthy.
  - destruct (test_numbered_digit _ H) as (c & s & -> & D).
    apply trim_truthy. now apply digit_not_space.
Qed.

Lemma extractKeyTakeaways_collected text :
  extractKeyTakeaways text =
  match collected isTakeawayTrigger (split_nl text) with
  | [] => [takeawayPlaceholder]
  | (_ :: _) as lines => map stripMarkers lines
  end.
Proof.
  unfold extractKeyTakeaways. cbv zeta.
  rewrite takeawaysLoop_scanLoop, scanLoop_collected.
  destruct (collected isTakeawayTrigger (split_nl text)); reflexivity.
Qed.

Lemma extractTopics_collected text :
  extractTopics text =
  match collected isTopicTrigger (split_nl text) with
  | [] => [topicPlaceholder]
  | (_ :: _) as lines => map topicOf lines
  end.
Proof.
  unfold extractTopics. cbv zeta.
  rewrite topicsLoop_scanLoop, scanLoop_collected.
  destruct (collected isTopicTrigger (split_nl text)); reflexivity.
Qed.

Lemma plainBullet_collectable trigger line :
  plainBullet trigger line = true -> collectable trigger line = true.
Proof.
  unfold plainBullet, collectable. intros H.
  apply andb_true_iff in H as [H Ht]. apply andb_true_iff in H as [Hb _].
  assert (Hl : isListLine line = true).
  { unfold isListLine. rewrite Hb. reflexivity. }
  rewrite Ht, Hl, (isListLine_nonBlank _ Hl). reflexivity.
Qed.

Lemma filter_all {A : Type} (p : A -> bool) l :
  forallb p l = true -> filter p l = l.
Proof.
  induction l as [|x l IH]; cbn [forallb filter]; intros H; [reflexivity|].
  apply andb_true_iff in H as [H1 H2]. rewrite H1. now rewrite IH.
Qed.

Lemma forallb_impl {A : Type} (p q : A -> bool) l :
  (forall x, p x = true -> q x = true) -> forallb p l = true -> forallb q l = true.
Proof.
  intros Hpq. induction l as [|x l IH]; cbn [forallb]; intros H; [reflexivity|].
  apply andb_true_iff in H as [H1 H2]. rewrite (Hpq _ H1). now apply IH.
Qed.

Lemma afterFirst_app trigger before line rest :
  forallb (fun l => negb (trigger l)) before = true ->
  trigger line = true ->
  afterFirst trigger (before ++ line :: rest) = rest.
Proof.
  intros Hb Hl. induction before as [|l before IH]; cbn [app afterFirst].
  - now rewrite Hl.
  - cbn [forallb] in Hb. apply andb_true_iff in Hb as [H1 H2].
    apply negb_true_iff in H1. rewrite H1. now apply IH.
Qed.

Lemma forallb_and {A : Type} (p q : A -> bool) l :
  forallb (fun x => p x && q x)%bool l = true ->
  forallb p l = true /\ forallb q l = true.
Proof.
  induction l as [|x l IH]; cbn [forallb]; intros H; [split; reflexivity|].
  apply andb_true_iff in H as [Hx Hl]. apply andb_true_iff in Hx as [Hp Hq].
  destruct (IH Hl) as [IHp IHq]. now rewrite Hp, Hq, IHp, IHq.
Qed.

Lemma plainBullet_noNewline trigger bullets :
  forallb (plainBullet trigger) bullets = true -> forallb noNewline bullets = true.
Proof.
  apply forallb_impl. intros x Hx. unfold plainBullet in Hx.
  apply andb_true_iff in Hx as [Hx _]. now apply andb_true_iff in Hx as [_ Hx].
Qed.

(** C5 (as amended).  [extractKeyTakeaways] scans the lines in order.
    After the first line containing 'key takeaway' or 'main point' (in any
    letter case) it collects each later line that does not itself contain
    one of the two phrases and that is a non-blank line starting with a
    dash, a bullet, or digits followed by a dot, each stripped of its
    leading markers, and stops at five items or at the end of the input;
    when nothing is collected the result is the one placeholder string.
    On an input in which a 'Key Takeaways:' line, the first line with a
    trigger phrase, is followed by seven bulleted lines none of which
    contains a trigger phrase, the result is the first five of them,
    stripped, whatever follows. *)
Theorem extractKeyTakeaways_scan :
  (forall text,
     extractKeyTakeaways text =
     match firstn 5 (filter (fun line =>
                               negb (isTakeawayTrigger line)
                               && nonBlank line && isListLine line)%bool
                            (afterFirst isTakeawayTrigger (split_nl text))) with
     | [] => [lit "No specific key takeaways identified"]
     | (_ :: _) as lines => map stripMarkers lines
     end)
  /\ (forall before bullets rest,
        forallb (plainLine isTakeawayTrigger) before = true ->
        length bullets = 7 ->
        forallb (plainBullet isTakeawayTrigger) bullets = true ->
        forallb noNewline rest = true ->
        extractKeyTakeaways
          (join_nl (before ++ lit "Key Takeaways:" :: bullets ++ rest))
        = map stripMarkers (firstn 5 bullets)).
Proof.
  split.
  - intros text. apply extractKeyTakeaways_collected.
  - intros before bullets rest Hbefore Hlen Hall Hrest.
    destruct (forallb_and _ _ _ Hbefore) as [Hnl Hnt].
    rewrite extractKeyTakeaways_collected.
    rewrite split_join.
    + unfold collected.
      rewrite (@afterFirst_app isTakeawayTrigger before (lit "Key Takeaways:")
                 (bullets ++ rest) Hnt eq_refl).
      rewrite filter_app, filter_all
        by (eapply forallb_impl; [apply plainBullet_collectable | exact Hall]).
      rewrite firstn_app, Hlen. cbn [Nat.sub firstn]. rewrite app_nil_r.
      destruct bullets as [|b bs]; [discriminate Hlen | reflexivity].
    + destruct before; discriminate.
    + rewrite forallb_app. cbn [forallb]. rewrite forallb_app.
      now rewrite Hnl, (plainBullet_noNewline _ _ Hall), Hrest.
Qed.

Lemma extractKeyTakeaways_scan_witness :
  extractKeyTakeaways
    (join_nl ([lit "A summary of the talk."; []]
              ++ lit "Key Takeaways:" :: sevenBullets
              ++ [[]; lit "Topics:"; lit "- Numbers"]))
  = [lit "one"; lit "two"; lit "three"; lit "four"; lit "five"].
Proof.
  rewrite (proj2 extractKeyTakeaways_scan
             [lit "A summary of the talk."; []] sevenBullets
             [[]; lit "Topics:"; lit "- Numbers"]); reflexivity.
Defined.

Lemma extractKeyTakeaways_skips_trigger_bullet :
  extractKeyTakeaways triggerInBullet
  = [lit "alpha"; lit "gamma"; lit "delta"; lit "epsilon"; lit "zeta"]
  /\ map stripMarkers (collectedAll isTakeawayTrigger (split_nl triggerInBullet))
     = [lit "alpha"; lit "the main point"; lit "gamma"; lit "delta"; lit "epsilon"]
  /\ extractKeyTakeaways triggerInBullet
     <> map stripMarkers (collectedAll isTakeawayTrigger (split_nl triggerInBullet)).
Proof.
  split; [vm_compute; reflexivity|]. split; [vm_compute; reflexivity|].
  vm_compute. discriminate.
Qed.

Lemma trigger_line_in_text (text line : jsstring) :
  In line (split_nl text) -> isTopicTrigger line = true -> isTopicTrigger text = true.
Proof.
  unfold isTopicTrigger. intros Hin H.
  apply orb_true_iff in H as [H|H]; [apply orb_true_iff in H as [H|H]|];
    rewrite (includes_line _ _ _ Hin H); rewrite ?orb_true_r; reflexivity.
Qed.

(** C6.  [extractTopics] runs the same scan as [extractKeyTakeaways], the
    two loops being instances of one, with the trigger phrases 'topic',
    'theme' and 'subject' (in any letter case): each collected list line
    becomes a topic whose title is the stripped line and whose description
    is 'Discussion about ' followed by that stripped line; there are at
    most five topics; and an input that contains no trigger phrase yields
    exactly the one placeholder topic titled 'General Content'. *)
Theorem extractTopics_scan :
  (forall lines,
     topicsLoop lines false [] = scanLoop isTopicTrigger topicOf lines false []
     /\ takeawaysLoop lines false []
        = scanLoop isTakeawayTrigger stripMarkers lines false [])
  /\ (forall text,
        extractTopics text =
        match collected isTopicTrigger (split_nl text) with
        | [] => [Topic.Make (lit "General Content")
                            (lit "The main content of the video")]
        | (_ :: _) as lines =>
            map (fun line =>
                   Topic.Make (stripMarkers line)
                              (lit "Discussion about " ++ stripMarkers line))
                lines
        end)
  /\ (forall text, 1 <= length (extractTopics text) <= 5)
  /\ (forall text,
        isTopicTrigger text = false ->
        extractTopics text = [Topic.Make (lit "General Content")
                                         (lit "The main content of the video")]).
Proof.
  split; [|split; [|split]].
  - intros lines. split;
      [apply topicsLoop_scanLoop | apply takeawaysLoop_scanLoop].
  - intros text. apply extractTopics_collected.
  - intros text. rewrite extractTopics_collected.
    pose proof (collected_length isTopicTrigger (split_nl text)) as H.
    destruct (collected isTopicTrigger (split_nl text)) as [|l ls].
    + cbn [length]. lia.
    + rewrite length_map. cbn [length] in *. lia.
  - intros text Hno. rewrite extractTopics_collected. unfold collected.
    rewrite afterFirst_no_trigger; [reflexivity|].
    apply forallb_forall. intros line Hin.
    destruct (isTopicTrigger line) eqn:E; [|reflexivity].
    rewrite (trigger_line_in_text _ _ Hin E) in Hno. discriminate.
Qed.

Lemma extractTopics_scan_witness :
  isTopicTrigger (lit "An overview of the video") = false
  /\ extractTopics (lit "An overview of the video")
     = [Topic.Make (lit "General Content") (lit "The main content of the video")].
Proof.
  split; [reflexivity|].
  apply (proj2 (proj2 (proj2 extractTopics_scan))). reflexivity.
Defined.

(* ===================================================================== *)
(** ** extractVideoId *)
(* ===================================================================== *)

(** What the function returns, in terms of the seventh group of the
    match: the group when it has eleven code units, null otherwise. *)
Lemma extractVideoId_group url :
  extractVideoId url =
  match exec videoRegExp url with
  | Some m =>
      match group m 7 with
      | Some id => if Nat.eqb (length id) 11 then Some id else None
      | None => None
      end
  | None => None
  end.
Proof.
  unfold extractVideoId. destruct url as [|c url]; [reflexivity|].
  cbn [truthy negb].
  destruct (exec videoRegExp (c :: url)) as [m|]; [|reflexivity].
  destruct (group m 7) as [[|x id]|]; reflexivity.
Qed.

Lemma extractVideoId_length url id :
  extractVideoId url = Some id -> length id = 11.
Proof.
  rewrite extractVideoId_group.
  destruct (exec videoRegExp url) as [m|]; [|discriminate].
  destruct (group m 7) as [g|]; [|discriminate].
  destruct (Nat.eqb (length g) 11) eqn:E; [|discriminate].
  intros H. injection H as <-. now apply Nat.eqb_eq.
Qed.

Module VideoUrlFacts.

Lemma run_chars s : forall st k,
  run (chars s) st k =
  if startsWith (rest st) s
  then k (MState (pos st + length s) (skipn (length s) (rest st)) (caps st))
  else None.
Proof.
  induction s as [|c s IH]; intros [i r cs] k; cbn [chars run rest pos caps].
  - cbn. now rewrite Nat.add_0_r.
  - destruct r as [|x r]; [reflexivity|].
    cbn [startsWith length skipn]. destruct (eqc c x); [|reflexivity].
    rewrite IH. cbn [rest pos caps andb].
    now rewrite Nat.add_succ_r.
Qed.

Lemma firstn_takeWhile p s : firstn (length (takeWhile p s)) s = takeWhile p s.
Proof.
  induction s as [|c s IH]; [reflexivity|]. cbn [takeWhile].
  destruct (p c); [|reflexivity]. cbn [length firstn]. now rewrite IH.
Qed.

(** With a continuation that cannot fail, a greedy star takes the longest
    run and never gives anything back. *)
Lemma star_total p k cs : total k -> forall s i,
  star p k cs i s
  = k (MState (i + length (takeWhile p s)) (dropWhile p s) cs).
Proof.
  intros Hk. induction s as [|c s IH]; intros i; cbn [star takeWhile dropWhile].
  - cbn. now rewrite Nat.add_0_r.
  - destruct (p c).
    + rewrite IH. cbn [length]. rewrite Nat.add_succ_r. cbn [Nat.add].
      destruct (Hk (MState (S (i + length (takeWhile p s))) (dropWhile p s) cs))
        as (r & ->). reflexivity.
    + cbn. now rewrite Nat.add_0_r.
Qed.

Lemma skipState_rest c st : rest (skipState c st) = skipOne c (rest st).
Proof.
  destruct st as [i [|x r] cs]; [reflexivity|]. unfold skipState, skipOne.
  cbn [rest]. destruct (eqc c x); reflexivity.
Qed.

Lemma opt_total c k : total k -> forall st,
  run (Opt (Class (eqc c))) st k = k (skipState c st).
Proof.
  intros Hk [i r cs]. unfold skipState. cbn [run rest pos caps].
  destruct r as [|x r]; [reflexivity|].
  destruct (eqc c x); [|reflexivity].
  destruct (Hk (MState (S i) r cs)) as (res & E). now rewrite E.
Qed.

(** The part of the pattern after the markers cannot fail, and its
    seventh group is the candidate read from where it starts. *)
Lemma tail3 st :
  exists r, run (Group 7 (Star notDelimiter) +> Star isDot) st Some = Some r
            /\ lookup 7 (caps r) = Some (takeWhile notDelimiter (rest st)).
Proof.
  destruct st as [i s cs]. cbn [run pos rest caps].
  rewrite star_total.
  - cbn [pos rest caps]. rewrite star_total by (intros st; now exists st).
    eexists. split; [reflexivity|]. cbn [caps lookup Nat.eqb].
    replace (i + length (takeWhile notDelimiter s) - i)
      with (length (takeWhile notDelimiter s)) by lia.
    now rewrite firstn_takeWhile.
  - intros st. cbn [pos rest caps].
    rewrite star_total by (intros st'; now exists st'). now eexists.
Qed.

Lemma run_seq r1 r2 st k :
  run (r1 +> r2) st k = run r1 st (fun st' => run r2 st' k).
Proof. reflexivity. Qed.

(** One optional character in front of a part that cannot fail. *)
Lemma opt_step c r (f : jsstring -> jsstring) :
  (forall st, exists res, run r st Some = Some res
                          /\ lookup 7 (caps res) = Some (f (rest st))) ->
  forall st, exists res,
    run (Opt (Class (eqc c)) +> r) st Some = Some res
    /\ lookup 7 (caps res) = Some (f (skipOne c (rest st))).
Proof.
  intros Hr st. rewrite run_seq, opt_total.
  - destruct (Hr (skipState c st)) as (res & E & H7).
    exists res. split; [exact E|]. now rewrite H7, skipState_rest.
  - intros st'. destruct (Hr st') as (res & E & _). now exists res.
Qed.

Lemma idTail_run st :
  exists r, run idTail st Some = Some r
            /\ lookup 7 (caps r) = Some (candidateAfter (rest st)).
Proof.
  unfold idTail, candidateAfter.
  apply (@opt_step (chr "?") _
           (fun s => takeWhile notDelimiter
                       (skipOne (chr "=") (skipOne (chr "v") s)))).
  apply (@opt_step (chr "v") _
           (fun s => takeWhile notDelimiter (skipOne (chr "=") s))).
  apply (@opt_step (chr "=") _ (takeWhile notDelimiter)).
  exact tail3.
Qed.

Lemma group_lit n s st k :
  run (Group n (chars s)) st k
  = if startsWith (rest st) s then k (afterGroup n (length s) st) else None.
Proof.
  cbn [run]. rewrite run_chars. destruct (startsWith (rest st) s); [|reflexivity].
  unfold afterGroup. cbn [pos rest caps].
  now replace (pos st + length s - pos st) with (length s) by lia.
Qed.

Lemma skipn_cons_add {A : Type} n m (s : list A) c r :
  skipn n s = c :: r -> skipn (n + 1 + m) s = skipn m r.
Proof.
  intros H. replace (n + 1 + m) with (S m + n) by lia.
  rewrite <- skipn_skipn, H. reflexivity.
Qed.

Lemma group_mid n a p b st k :
  run (Group n (chars a +> Class p +> chars b)) st k
  = if midMatch a p b (rest st)
    then k (afterGroup n (length a + 1 + length b) st) else None.
Proof.
  unfold midMatch. cbn [run]. rewrite run_chars.
  destruct (startsWith (rest st) a); [|reflexivity]. cbn [andb pos rest caps].
  destruct (skipn (length a) (rest st)) as [|c r] eqn:E; [reflexivity|].
  destruct (p c); [|reflexivity]. rewrite run_chars. cbn [andb pos rest caps].
  destruct (startsWith r b); [|reflexivity].
  unfold afterGroup. rewrite (skipn_cons_add _ (length b) _ E).
  replace (S (pos st + length a) + length b - pos st)
    with (length a + 1 + length b) by lia.
  now replace (S (pos st + length a) + length b)
    with (pos st + (length a + 1 + length b)) by lia.
Qed.

Lemma run_alt r1 r2 st k :
  run (r1 <|> r2) st k
  = match run r1 st k with Some res => Some res | None => run r2 st k end.
Proof. reflexivity. Qed.

Lemma afterGroup_rest n len st : rest (afterGroup n len st) = skipn len (rest st).
Proof. reflexivity. Qed.

(** With a continuation that cannot fail, the marker group takes the first
    alternative that matches where it stands. *)
Lemma markerGroup_run k : total k -> forall st,
  match markerLength (rest st) with
  | Some n => exists st', rest st' = skipn n (rest st)
                          /\ run markerGroup st k = k st'
  | None => run markerGroup st k = None
  end.
Proof.
  intros Hk st. unfold markerGroup, markerLength.
  set (k1 := fun st' =>
               k (MState (pos st') (rest st')
                         ((1, firstn (pos st' - pos st) (rest st)) :: caps st'))).
  match goal with
  | |- context [run (Group 1 ?alts) st k] =>
      change (run (Group 1 alts) st k) with (run alts st k1)
  end.
  assert (Hk1 : total k1) by (intros st'; apply Hk).
  rewrite run_alt, group_mid.
  destruct (midMatch (lit "youtu") isDot (lit "be/") (rest st)).
  { destruct (Hk1 (afterGroup 2 (length (lit "youtu") + 1 + length (lit "be/")) st))
      as (res & E). rewrite E. unfold k1 in E. eexists. split; [|symmetry; exact E]. reflexivity. }
  rewrite run_alt, group_lit.
  destruct (startsWith (rest st) (lit "v/")).
  { destruct (Hk1 (afterGroup 3 (length (lit "v/")) st)) as (res & E).
    rewrite E. unfold k1 in E. eexists. split; [|symmetry; exact E]. reflexivity. }
  rewrite run_alt, group_mid.
  destruct (midMatch (lit "/u/") isWordChar (lit "/") (rest st)).
  { destruct (Hk1 (afterGroup 4 (length (lit "/u/") + 1 + length (lit "/")) st))
      as (res & E). rewrite E. unfold k1 in E. eexists. split; [|symmetry; exact E]. reflexivity. }
  rewrite run_alt, group_lit.
  destruct (startsWith (rest st) (lit "embed/")).
  { destruct (Hk1 (afterGroup 5 (length (lit "embed/")) st)) as (res & E).
    rewrite E. unfold k1 in E. eexists. split; [|symmetry; exact E]. reflexivity. }
  rewrite group_lit.
  destruct (startsWith (rest st) (lit "watch?")); [|reflexivity].
  unfold k1. eexists. split; [|reflexivity]. reflexivity.
Qed.

Lemma atPosition_seventh st :
  seventh (atPosition st) = option_map Some (candidateAt (rest st)).
Proof.
  unfold atPosition, candidateAt. rewrite run_seq.
  assert (Hk : total (fun st' => run idTail st' Some)).
  { intros st'. destruct (idTail_run st') as (r & E & _). now exists r. }
  pose proof (markerGroup_run Hk st) as H.
  destruct (markerLength (rest st)) as [n|].
  - destruct H as (st' & Hrest & ->).
    destruct (idTail_run st') as (r & -> & H7).
    cbn [seventh option_map]. now rewrite H7, Hrest.
  - now rewrite H.
Qed.

Lemma star_seventh cs : forall s i,
  seventh (star isDot atPosition cs i s) = option_map Some (lastCandidate s).
Proof.
  induction s as [|c s IH]; intros i; cbn [star lastCandidate].
  - apply (atPosition_seventh (MState i [] cs)).
  - destruct (isDot c); [|apply (atPosition_seventh (MState i (c :: s) cs))].
    specialize (IH (S i)).
    destruct (star isDot atPosition cs (S i) s) as [r|];
      destruct (lastCandidate s) as [g|]; try discriminate IH.
    + exact IH.
    + apply (atPosition_seventh (MState i (c :: s) cs)).
Qed.

(** The seventh group of a match of the whole pattern is the candidate at
    the last marker of the first line; there is no match when there is no
    such marker. *)
Lemma exec_seventh url :
  option_map (fun m => group m 7) (exec videoRegExp url)
  = option_map Some (lastCandidate url).
Proof.
  pose proof (star_seventh [] url 0) as H.
  unfold exec, videoRegExp.
  assert (E : run (Bol +> Star isDot +> markerGroup +> idTail)
                  (MState 0 url []) Some
              = star isDot atPosition [] 0 url) by reflexivity.
  destruct url as [|c url]; cbn [execFrom]; rewrite E.
  - destruct (star isDot atPosition [] 0 []) as [r|]; exact H.
  - destruct (star isDot atPosition [] 0 (c :: url)) as [r|]; [exact H|].
    rewrite StringFacts.execFrom_anchored. exact H.
Qed.

Theorem extractVideoId_lastCandidate url :
  extractVideoId url =
  match lastCandidate url with
  | Some g => if Nat.eqb (length g) 11 then Some g else None
  | None => None
  end.
Proof.
  rewrite extractVideoId_group. pose proof (exec_seventh url) as H.
  destruct (exec videoRegExp url) as [m|];
    destruct (lastCandidate url) as [g|]; try discriminate H.
  - cbn [option_map] in H. injection H as ->. reflexivity.
  - reflexivity.
Qed.

Lemma isIdChar_range c :
  isIdChar c = true ->
  (c = 45 \/ (48 <= c <= 57) \/ (65 <= c <= 90) \/ c = 95 \/ (97 <= c <= 122))%N.
Proof.
  unfold isIdChar, isWordChar, isDigit, between, eqc. intros H.
  repeat match type of H with
         | (_ || _)%bool = true => apply orb_true_iff in H as [H|H]
         end;
    try (apply andb_true_iff in H as [H1 H2];
         apply N.leb_le in H1; apply N.leb_le in H2);
    try apply N.eqb_eq in H; cbn in *; lia.
Qed.

Lemma isIdChar_facts c :
  isIdChar c = true ->
  N.eqb 47 c = false /\ N.eqb 63 c = false /\ N.eqb 61 c = false
  /\ isDot c = true /\ notDelimiter c = true.
Proof.
  intros H. apply isIdChar_range in H.
  unfold isDot, isLineTerminator, notDelimiter, eqc.
  repeat split; try (apply N.eqb_neq; lia);
    apply negb_true_iff; repeat (apply orb_false_iff; split);
    apply N.eqb_neq; cbn; lia.
Qed.

Lemma startsWith_all (q : char16 -> bool) p : forall s,
  startsWith s p = true -> forallb q s = true -> forallb q p = true.
Proof.
  induction p as [|a p IH]; intros s H Hs; [reflexivity|].
  destruct s as [|b s]; [discriminate|]. cbn [startsWith forallb] in *.
  apply andb_true_iff in H as [H1 H2]. apply andb_true_iff in Hs as [Hb Hs].
  apply N.eqb_eq in H1. subst b. rewrite Hb. cbn [andb]. now apply (IH s).
Qed.

(** A literal that holds a character outside the id alphabet does not
    start a string of id characters. *)
Lemma startsWith_id s p :
  forallb isIdChar s = true -> forallb isIdChar p = false ->
  startsWith s p = false.
Proof.
  intros Hs Hp. destruct (startsWith s p) eqn:E; [|reflexivity].
  now rewrite (startsWith_all isIdChar _ _ E Hs) in Hp.
Qed.

Lemma forallb_skipn {A : Type} (q : A -> bool) n : forall s,
  forallb q s = true -> forallb q (skipn n s) = true.
Proof.
  induction n as [|n IH]; intros [|c s] H; try exact H.
  cbn [skipn]. apply IH. cbn [forallb] in H.
  now apply andb_true_iff in H as [_ H].
Qed.

Lemma markerLength_id s : forallb isIdChar s = true -> markerLength s = None.
Proof.
  intros H. unfold markerLength, midMatch.
  rewrite (startsWith_id s (lit "v/") H eq_refl),
          (startsWith_id s (lit "/u/") H eq_refl),
          (startsWith_id s (lit "embed/") H eq_refl),
          (startsWith_id s (lit "watch?") H eq_refl).
  cbn [andb].
  destruct (startsWith s (lit "youtu")); [|reflexivity]. cbn [andb].
  pose proof (forallb_skipn isIdChar (length (lit "youtu")) s H) as Hk.
  destruct (skipn (length (lit "youtu")) s) as [|c r]; [reflexivity|].
  cbn [forallb] in Hk. apply andb_true_iff in Hk as [_ Hr].
  rewrite (startsWith_id r (lit "be/") Hr eq_refl).
  now rewrite andb_false_r.
Qed.

(** No marker starts inside a run of id characters. *)
Lemma lastCandidate_id s : forallb isIdChar s = true -> lastCandidate s = None.
Proof.
  induction s as [|c s IH]; intros H.
  - reflexivity.
  - cbn [lastCandidate]. unfold candidateAt. rewrite (markerLength_id _ H).
    cbn [forallb] in H. apply andb_true_iff in H as [_ H].
    rewrite (IH H). now destruct (isDot c).
Qed.

Lemma takeWhile_id s :
  forallb isIdChar s = true -> takeWhile notDelimiter s = s.
Proof.
  induction s as [|c s IH]; intros H; [reflexivity|].
  cbn [forallb] in H. apply andb_true_iff in H as [Hc H].
  destruct (isIdChar_facts c Hc) as (_ & _ & _ & _ & Hn).
  cbn [takeWhile]. rewrite Hn. now rewrite (IH H).
Qed.

(** After a marker, a run of id characters loses a leading "v" and
    nothing else. *)
Lemma candidateAfter_id id :
  forallb isIdChar id = true ->
  candidateAfter id = skipOne (chr "v") id.
Proof.
  intros H. unfold candidateAfter.
  assert (Hskip : forall c s, isIdChar (chr c) = false ->
                              forallb isIdChar s = true -> skipOne (chr c) s = s).
  { intros c [|x s] Hc Hs; [reflexivity|]. cbn [skipOne forallb] in *.
    apply andb_true_iff in Hs as [Hx _].
    destruct (eqc (chr c) x) eqn:E; [|reflexivity].
    apply N.eqb_eq in E. rewrite E in Hc. now rewrite Hc in Hx. }
  rewrite (Hskip "?" id eq_refl H).
  assert (Hv : forallb isIdChar (skipOne (chr "v") id) = true).
  { destruct id as [|x s]; [reflexivity|]. cbn [skipOne forallb] in *.
    apply andb_true_iff in H as [Hx Hs].
    destruct (eqc (chr "v") x); [exact Hs|].
    cbn [forallb]. now rewrite Hx. }
  rewrite (Hskip "=" _ eq_refl Hv). now apply takeWhile_id.
Qed.

Lemma lastCandidate_app a b :
  forallb isDot a = true ->
  lastCandidate (a ++ b)
  = match lastCandidate b with
    | Some g => Some g
    | None => lastWithin a b
    end.
Proof.
  induction a as [|c a IH]; intros H.
  - cbn [app lastWithin]. now destruct (lastCandidate b).
  - cbn [forallb] in H. apply andb_true_iff in H as [Hc H].
    change ((c :: a) ++ b) with (c :: a ++ b).
    cbn [lastCandidate lastWithin]. rewrite Hc, (IH H).
    destruct (lastCandidate b); [reflexivity|].
    now destruct (lastWithin a b).
Qed.

#[local] Arguments N.eqb !n !m.
#[local] Arguments N.leb !x !y.

(** A slash in front of id characters starts no marker. *)
Lemma candidateAt_slash id :
  forallb isIdChar id = true -> candidateAt (chr "/" :: id) = None.
Proof.
  intros H. unfold candidateAt, markerLength, midMatch.
  destruct id as [|c1 [|c2 id]]; try reflexivity.
  - cbn. now rewrite andb_false_r.
  - cbn [forallb] in H. apply andb_true_iff in H as [_ H].
    apply andb_true_iff in H as [H2 _].
    destruct (isIdChar_facts c2 H2) as (E & _).
    cbn. rewrite E. cbn. now rewrite !andb_false_r.
Qed.

Lemma lastCandidate_short id :
  forallb isIdChar id = true ->
  lastCandidate (lit "https://youtu.be/" ++ id) = Some (skipOne (chr "v") id).
Proof.
  intros H. rewrite lastCandidate_app by reflexivity.
  rewrite (lastCandidate_id _ H). rewrite <- (candidateAfter_id _ H).
  cbn -[candidateAt candidateAfter].
  change (47%N :: id) with (chr "/" :: id).
  rewrite (candidateAt_slash _ H). reflexivity.
Qed.

Lemma lastCandidate_embed id :
  forallb isIdChar id = true ->
  lastCandidate (lit "https://www.youtube.com/embed/" ++ id)
  = Some (skipOne (chr "v") id).
Proof.
  intros H. rewrite lastCandidate_app by reflexivity.
  rewrite (lastCandidate_id _ H). rewrite <- (candidateAfter_id _ H).
  cbn -[candidateAt candidateAfter].
  change (47%N :: id) with (chr "/" :: id).
  rewrite (candidateAt_slash _ H). reflexivity.
Qed.

Lemma lastCandidate_watch id :
  forallb isIdChar id = true ->
  lastCandidate (lit "https://www.youtube.com/watch?v=" ++ id) = Some id.
Proof.
  intros H. rewrite lastCandidate_app by reflexivity.
  rewrite (lastCandidate_id _ H).
  cbn -[takeWhile notDelimiter]. unfold candidateAfter.
  cbn -[takeWhile notDelimiter]. now rewrite (takeWhile_id _ H).
Qed.

Lemma skipOne_length c id :
  length (skipOne c id) = if startsWith id [c] then length id - 1 else length id.
Proof.
  destruct id as [|x id]; [reflexivity|]. cbn [skipOne startsWith].
  destruct (eqc c x); cbn [andb length]; lia.
Qed.

(** Every watch link with an eleven-character id yields the id. *)
Theorem extractVideoId_watch id :
  length id = 11 -> forallb isIdChar id = true ->
  extractVideoId (lit "https://www.youtube.com/watch?v=" ++ id) = Some id.
Proof.
  intros Hlen H. rewrite extractVideoId_lastCandidate, (lastCandidate_watch _ H).
  now rewrite Hlen.
Qed.

(** C4, as the code has it.  A short link or an embed link with an
    eleven-character id over the id alphabet yields that id unless the id
    starts with the letter v; when it does, the optional "v" of the pattern
    takes the first letter, the candidate has ten characters, and the
    function returns null. *)
Theorem extractVideoId_short id :
  length id = 11 -> forallb isIdChar id = true ->
  extractVideoId (lit "https://youtu.be/" ++ id)
  = (if startsWith id (lit "v") then None else Some id)
  /\ extractVideoId (lit "https://www.youtube.com/embed/" ++ id)
     = (if startsWith id (lit "v") then None else Some id).
Proof.
  intros Hlen H.
  rewrite !extractVideoId_lastCandidate, (lastCandidate_short _ H),
          (lastCandidate_embed _ H).
  rewrite skipOne_length, Hlen.
  destruct id as [|x id]; [discriminate Hlen|].
  change (lit "v") with [118%N]. change (chr "v") with 118%N.
  cbn [startsWith skipOne]. rewrite andb_true_r.
  destruct (eqc 118%N x); split; reflexivity.
Qed.

End VideoUrlFacts.

Lemma extractVideoId_short_witness :
  extractVideoId (lit "https://youtu.be/vABCDEFGHIJ") = None
  /\ extractVideoId (lit "https://www.youtube.com/embed/vABCDEFGHIJ") = None.
Proof.
  exact (@VideoUrlFacts.extractVideoId_short (lit "vABCDEFGHIJ") eq_refl eq_refl).
Defined.

(** The same id in the three forms, next to an id that starts with another
    letter: only the watch form of the first is accepted, and the seventh
    group of the short form holds its last ten characters. *)
Example extractVideoId_leading_v :
  let id := lit "vABCDEFGHIJ" in
  length id = 11
  /\ extractVideoId (lit "https://youtu.be/" ++ id) = None
  /\ extractVideoId (lit "https://www.youtube.com/embed/" ++ id) = None
  /\ option_map (fun m => group m 7) (exec videoRegExp (lit "https://youtu.be/" ++ id))
     = Some (Some (lit "ABCDEFGHIJ"))
  /\ extractVideoId (lit "https://www.youtube.com/watch?v=" ++ id) = Some id
  /\ extractVideoId (lit "https://youtu.be/dQw4w9WgXcQ") = Some (lit "dQw4w9WgXcQ").
Proof. cbv zeta. repeat split; vm_compute; reflexivity. Qed.

(* ===================================================================== *)
(** ** The handler: how a run goes *)
(* ===================================================================== *)

Lemma getYoutubeMetadata_run w videoUrl s :
  getYoutubeMetadata w videoUrl s
  = (Returned (metadataOf w videoUrl), metadataEffects videoUrl s).
Proof.
  unfold metadataOf, metadataEffects. unfold_handler.
  destruct (extractVideoId videoUrl) as [videoId|]; [|reflexivity].
  destruct (fetchOEmbed w (oembedUrl videoId)) as [response|e]; [|reflexivity].
  destruct (ok response); cbn [negb]; [|reflexivity].
  destruct (json response); reflexivity.
Qed.

(** The inner try block never throws. *)
Lemma analyze_run w requestId t0 metadata videoId transcript s :
  let s' := MkEffects (ticks s)
              (calls s ++ [CompletionCall
                             (completionRequest (Transcript.content transcript))]) in
  analyze w requestId t0 metadata videoId transcript s
  = match createCompletion w (completionRequest (Transcript.content transcript)) with
    | Returned completion =>
        (Returned
           (successResponse requestId (dateNow w (ticks s) - t0)
              transcript
              (Analysis.Make
                 (Framework.Make
                    (orElse (opt metadata OEmbed.title)
                            (lit "Framework for " ++ videoId))
                    [Component.Make (lit "Summary")
                       (substring0 500 (analysisTextOf completion))])
                 (substring0 500 (analysisTextOf completion))
                 (extractKeyTakeaways (analysisTextOf completion))
                 (extractTopics (analysisTextOf completion)))),
         MkEffects (S (ticks s)) (calls s'))
    | Thrown groqError =>
        (Returned (partialResponse metadata videoId transcript groqError), s')
    end.
Proof.
  unfold_handler. cbv beta iota zeta delta [ticks calls].
  destruct (createCompletion w _); reflexivity.
Qed.

Lemma extractVideoId_truthy url videoId :
  extractVideoId url = Some videoId -> truthy url = true.
Proof.
  unfold extractVideoId. destruct (truthy url); [reflexivity | discriminate].
Qed.

Lemma fetchAndAnalyze_fetched w requestId t0 videoUrl videoId metadata d s :
  TranscriptFetched w videoId d ->
  fetchAndAnalyze w requestId t0 (keyValue (SUPADATA_API_KEY w)) videoUrl videoId
                  metadata s
  = analyze w requestId t0 metadata videoId
            (buildTranscript metadata videoId videoUrl d)
            (transcriptEffects videoId s).
Proof.
  intros (response & data & Hf & Hok & Hj & Hs & Hd).
  pose proof (analyze_run w requestId t0 metadata videoId
                (buildTranscript metadata videoId videoUrl d)
                (transcriptEffects videoId s)) as Hrun.
  cbv zeta in Hrun.
  cbv beta iota zeta delta
      [fetchAndAnalyze fetchSupadata logCall bind ret throw tryCatch await].
  rewrite Hf. cbv beta iota. rewrite Hok. cbn [negb]. cbv beta iota.
  rewrite Hj. cbv beta iota. rewrite Hs. cbn [negb]. cbv beta iota.
  rewrite Hd. cbv beta iota.
  fold (transcriptEffects videoId s). rewrite Hrun.
  destruct (createCompletion w _); reflexivity.
Qed.

Lemma fetchAndAnalyze_failed w requestId t0 videoUrl videoId metadata msg s :
  TranscriptFailed w videoId msg ->
  fetchAndAnalyze w requestId t0 (keyValue (SUPADATA_API_KEY w)) videoUrl videoId
                  metadata s
  = (Returned (failureResponse metadata videoId videoUrl (newError w msg)),
     transcriptEffects videoId s).
Proof.
  intros H.
  cbv beta iota zeta delta
      [fetchAndAnalyze fetchSupadata logCall bind ret throw tryCatch await].
  destruct H as [response Hf Hok | response data Hf Hok Hj Hs];
    rewrite Hf; cbv beta iota; rewrite Hok; cbn [negb]; cbv beta iota.
  - reflexivity.
  - rewrite Hj. cbv beta iota. rewrite Hs. reflexivity.
Qed.

(** The two nested try blocks always end in a response with status 200
    and a data payload. *)
Lemma fetchAndAnalyze_total w requestId t0 apiKey videoUrl videoId metadata s :
  exists r s',
    fetchAndAnalyze w requestId t0 apiKey videoUrl videoId metadata s
    = (Returned r, s')
    /\ httpStatus r = 200%Z
    /\ exists dat,
         Body.data (body r) = Some dat
         /\ VideoInfo.videoId (Transcript.videoInfo (Data.transcript dat)) = videoId
         /\ VideoInfo.videoUrl (Transcript.videoInfo (Data.transcript dat)) = videoUrl
         /\ VideoInfo.title (Transcript.videoInfo (Data.transcript dat))
            = titleOrDefault metadata videoId
         /\ VideoInfo.author (Transcript.videoInfo (Data.transcript dat))
            = orElse (opt metadata OEmbed.author_name) (lit "Unknown")
         /\ VideoInfo.thumbnailUrl (Transcript.videoInfo (Data.transcript dat))
            = orElse (opt metadata OEmbed.thumbnail_url) (defaultThumbnail videoId).
Proof.
  cbv beta iota zeta delta
      [fetchAndAnalyze fetchSupadata logCall bind ret throw tryCatch await].
  destruct (fetchTranscript w (transcriptUrl videoId) apiKey) as [response|e].
  2:{ do 2 eexists. split; [reflexivity|]. split; [reflexivity|].
      eexists. split; [reflexivity|]. repeat split. }
  destruct (ok response); cbn [negb].
  2:{ do 2 eexists. split; [reflexivity|]. split; [reflexivity|].
      eexists. split; [reflexivity|]. repeat split. }
  destruct (json response) as [data|e].
  2:{ do 2 eexists. split; [reflexivity|]. split; [reflexivity|].
      eexists. split; [reflexivity|]. repeat split. }
  destruct (body_success data); cbn [negb].
  2:{ do 2 eexists. split; [reflexivity|]. split; [reflexivity|].
      eexists. split; [reflexivity|]. repeat split. }
  destruct (body_data data) as [d|].
  2:{ do 2 eexists. split; [reflexivity|]. split; [reflexivity|].
      eexists. split; [reflexivity|]. repeat split. }
  match goal with
  | |- context [analyze ?a ?b ?c ?d ?e ?f ?g] =>
      pose proof (analyze_run a b c d e f g) as Hrun; cbv zeta in Hrun;
      rewrite Hrun
  end.
  destruct (createCompletion w _);
    (do 2 eexists; split; [reflexivity|]; split; [reflexivity|];
     eexists; split; [reflexivity|]; repeat split).
Qed.

(** A request that passes validation runs the metadata lookup and then
    the transcript block; the catch-all is not reached. *)
Lemma POST_validated w req videoUrl videoId s :
  PassesValidation w req videoUrl videoId ->
  POST w req s
  = fetchAndAnalyze w (randomId w) (dateNow w (ticks s))
                    (keyValue (SUPADATA_API_KEY w)) videoUrl videoId
                    (metadataOf w videoUrl)
                    (metadataEffects videoUrl (MkEffects (S (ticks s)) (calls s))).
Proof.
  intros [(body & Hb & Hd) Hsk Hgk Hid].
  pose proof (extractVideoId_truthy _ Hid) as Ht.
  cbv beta iota zeta delta [POST now bind ret tryCatch await].
  rewrite Hb. cbv beta iota. rewrite Hd. cbv beta iota.
  cbn [jsTruthy]. rewrite Ht, Hsk, Hgk. cbn [negb].
  cbn [extractVideoIdOf]. rewrite Hid. cbv beta iota.
  rewrite getYoutubeMetadata_run.
  destruct (fetchAndAnalyze_total w (randomId w) (dateNow w (ticks s))
              (keyValue (SUPADATA_API_KEY w)) videoUrl videoId
              (metadataOf w videoUrl)
              (metadataEffects videoUrl (MkEffects (S (ticks s)) (calls s))))
    as (r & s' & Hr & _).
  rewrite Hr. reflexivity.
Qed.

Lemma fetchedEffects_eq videoUrl videoId s :
  extractVideoId videoUrl = Some videoId ->
  transcriptEffects videoId
    (metadataEffects videoUrl (MkEffects (S (ticks s)) (calls s)))
  = fetchedEffects videoId s.
Proof.
  intros H. unfold transcriptEffects, metadataEffects, fetchedEffects.
  rewrite H. cbn [ticks calls]. now rewrite <- app_assoc.
Qed.

Lemma POST_partial_run w req videoUrl videoId d groqError s :
  PassesValidation w req videoUrl videoId ->
  TranscriptFetched w videoId d ->
  createCompletion w (completionRequest (text d)) = Thrown groqError ->
  POST w req s
  = (Returned (partialResponse (metadataOf w videoUrl) videoId
                 (buildTranscript (metadataOf w videoUrl) videoId videoUrl d)
                 groqError),
     pipelineEffects videoId d s).
Proof.
  intros Hv Hf Hg.
  rewrite (POST_validated s Hv), (fetchAndAnalyze_fetched _ _ _ _ _ Hf).
  rewrite (@fetchedEffects_eq _ _ s (valid_id Hv)).
  pose proof (analyze_run w (randomId w) (dateNow w (ticks s))
                (metadataOf w videoUrl) videoId
                (buildTranscript (metadataOf w videoUrl) videoId videoUrl d)
                (fetchedEffects videoId s))
    as Hrun.
  cbv zeta in Hrun. rewrite Hrun.
  change (Transcript.content
            (buildTranscript (metadataOf w videoUrl) videoId videoUrl d))
    with (text d).
  rewrite Hg. unfold pipelineEffects, fetchedEffects. cbn [ticks calls].
  now rewrite <- app_assoc.
Qed.

Lemma POST_success_run w req videoUrl videoId d completion s :
  PassesValidation w req videoUrl videoId ->
  TranscriptFetched w videoId d ->
  createCompletion w (completionRequest (text d)) = Returned completion ->
  exists analysis,
    POST w req s
    = (Returned (successResponse (randomId w)
                   (dateNow w (S (ticks s)) - dateNow w (ticks s))
                   (buildTranscript (metadataOf w videoUrl) videoId videoUrl d)
                   analysis),
       MkEffects (S (S (ticks s))) (calls (pipelineEffects videoId d s))).
Proof.
  intros Hv Hf Hg.
  rewrite (POST_validated s Hv), (fetchAndAnalyze_fetched _ _ _ _ _ Hf).
  rewrite (@fetchedEffects_eq _ _ s (valid_id Hv)).
  pose proof (analyze_run w (randomId w) (dateNow w (ticks s))
                (metadataOf w videoUrl) videoId
                (buildTranscript (metadataOf w videoUrl) videoId videoUrl d)
                (fetchedEffects videoId s))
    as Hrun.
  cbv zeta in Hrun. rewrite Hrun.
  change (Transcript.content
            (buildTranscript (metadataOf w videoUrl) videoId videoUrl d))
    with (text d).
  rewrite Hg. eexists. unfold pipelineEffects, fetchedEffects. cbn [ticks calls].
  rewrite <- app_assoc. reflexivity.
Qed.

Lemma POST_failure_run w req videoUrl videoId msg s :
  PassesValidation w req videoUrl videoId ->
  TranscriptFailed w videoId msg ->
  POST w req s
  = (Returned (failureResponse (metadataOf w videoUrl) videoId videoUrl
                 (newError w msg)),
     fetchedEffects videoId s).
Proof.
  intros Hv Hf.
  rewrite (POST_validated s Hv), <- (@fetchedEffects_eq _ _ s (valid_id Hv)).
  now apply fetchAndAnalyze_failed.
Qed.

(** Every run ends in a response: one with status 200 and a payload, or
    one of the error responses, which have no payload. *)
Lemma POST_cases w req s :
  exists r s',
    POST w req s = (Returned r, s')
    /\ ((httpStatus r = 200%Z
         /\ exists dat,
              Body.data (body r) = Some dat
              /\ let info := Transcript.videoInfo (Data.transcript dat) in
                 let metadata := metadataOf w (VideoInfo.videoUrl info) in
                 VideoInfo.title info
                 = titleOrDefault metadata (VideoInfo.videoId info)
                 /\ VideoInfo.author info
                    = orElse (opt metadata OEmbed.author_name) (lit "Unknown")
                 /\ VideoInfo.thumbnailUrl info
                    = orElse (opt metadata OEmbed.thumbnail_url)
                             (defaultThumbnail (VideoInfo.videoId info)))
        \/ (ErrorResponse w r /\ Body.data (body r) = None)).
Proof.
  cbv beta iota zeta delta [POST now bind ret tryCatch await].
  destruct (req_json req) as [body|e].
  2:{ do 2 eexists. split; [reflexivity|]. right. split; [constructor | reflexivity]. }
  destruct (destructure w body (lit "videoUrl")) as [v|e].
  2:{ do 2 eexists. split; [reflexivity|]. right. split; [constructor | reflexivity]. }
  destruct (jsTruthy v); cbn [negb].
  2:{ do 2 eexists. split; [reflexivity|]. right. split; [constructor | reflexivity]. }
  destruct (templateLiteral w v) as [[]|e].
  2:{ do 2 eexists. split; [reflexivity|]. right. split; [constructor | reflexivity]. }
  destruct (configured (SUPADATA_API_KEY w)); cbn [negb].
  2:{ do 2 eexists. split; [reflexivity|]. right. split; [constructor | reflexivity]. }
  destruct (configured (GROQ_API_KEY w)); cbn [negb].
  2:{ do 2 eexists. split; [reflexivity|]. right. split; [constructor | reflexivity]. }
  destruct (extractVideoIdOf v) as [[url videoId]|].
  2:{ do 2 eexists. split; [reflexivity|]. right. split; [constructor | reflexivity]. }
  rewrite getYoutubeMetadata_run.
  match goal with
  | |- context [fetchAndAnalyze ?a ?b ?c ?d ?e ?f ?g ?h] =>
      destruct (fetchAndAnalyze_total a b c d e f g h)
        as (r & s' & Hr & Hst & dat & Hdat & Hid & Hurl & Ht & Ha & Hth)
  end.
  rewrite Hr. exists r, s'. split; [reflexivity|]. left. split; [exact Hst|].
  exists dat. split; [exact Hdat|]. cbv zeta. rewrite Hid, Hurl. auto.
Qed.

Lemma ErrorResponse_status w r : ErrorResponse w r -> httpStatus r <> 200%Z.
Proof. intros []; discriminate. Qed.

Module DemoFacts.
Import Demo.

Lemma request_valid supadataKey metadata transcript completion :
  configured supadataKey = true ->
  PassesValidation (world supadataKey metadata transcript completion)
                   request videoUrl videoId.
Proof.
  intros Hk. split; [|exact Hk|reflexivity|vm_compute; reflexivity].
  eexists. split; reflexivity.
Qed.

Lemma transcript_fetched metadata completion :
  TranscriptFetched (world key metadata transcriptFound completion)
                    videoId transcriptData.
Proof. do 2 eexists. repeat split. Qed.

End DemoFacts.

(* ===================================================================== *)
(** ** The handler: the response tiers *)
(* ===================================================================== *)

(** C1.  When the transcript is fetched and the summarisation call throws,
    the handler answers with success true and partial true; the payload
    holds the fetched transcript as it was built (its text and segments,
    no error descriptor) and the fallback analysis made from the title
    alone: the metadata title when there is one, 'Video ' followed by the
    video id otherwise. *)
Theorem POST_partial_success w req s videoUrl videoId d groqError :
  PassesValidation w req videoUrl videoId ->
  TranscriptFetched w videoId d ->
  createCompletion w (completionRequest (text d)) = Thrown groqError ->
  exists r s',
    POST w req s = (Returned r, s')
    /\ Body.success (body r) = true
    /\ Body.partial (body r) = Some true
    /\ exists dat,
         Body.data (body r) = Some dat
         /\ Data.transcript dat
            = buildTranscript (metadataOf w videoUrl) videoId videoUrl d
         /\ Transcript.content (Data.transcript dat) = text d
         /\ Transcript.segments (Data.transcript dat)
            = match data_segments d with Some segs => segs | None => [] end
         /\ Transcript.error (Data.transcript dat) = None
         /\ Data.analysis dat
            = generateFallbackAnalysis
                (match metadataOf w videoUrl with
                 | Some metadata =>
                     match OEmbed.title metadata with
                     | Some title =>
                         if truthy title then title else lit "Video " ++ videoId
                     | None => lit "Video " ++ videoId
                     end
                 | None => lit "Video " ++ videoId
                 end).
Proof.
  intros Hv Hf Hg. do 2 eexists.
  split; [exact (POST_partial_run s Hv Hf Hg)|].
  split; [reflexivity|]. split; [reflexivity|].
  eexists. split; [reflexivity|]. repeat split.
  cbn [Data.analysis]. unfold titleOrDefault, orElse, opt.
  destruct (metadataOf w videoUrl) as [m|]; reflexivity.
Qed.

Lemma POST_partial_success_witness :
  exists r s',
    POST Demo.partialWorld Demo.request noEffects = (Returned r, s')
    /\ Body.success (body r) = true
    /\ Body.partial (body r) = Some true
    /\ exists dat,
         Body.data (body r) = Some dat
         /\ Transcript.content (Data.transcript dat) = text Demo.transcriptData
         /\ Data.analysis dat
            = generateFallbackAnalysis (lit "Never Gonna Give You Up").
Proof.
  destruct (@POST_partial_success Demo.partialWorld Demo.request noEffects
              Demo.videoUrl Demo.videoId Demo.transcriptData
              (MkError (lit "Rate limit exceeded") None)
              (@DemoFacts.request_valid Demo.key _ _ _ eq_refl)
              (@DemoFacts.transcript_fetched _ _) eq_refl)
    as (r & s' & Hr & Hs & Hp & dat & Hd & _ & Hc & _ & _ & Ha).
  exists r, s'. repeat (split; [assumption|]).
  exists dat. repeat (split; [assumption|]). exact Ha.
Defined.

(** C2 (as amended).  When the transcript fetch fails, by a status
    outside 200-299 or by a body whose success flag is false, the handler
    answers with success false; the payload holds the placeholder
    transcript, whose error descriptor carries the code
    'TRANSCRIPT_FETCH_ERROR' and the message of the error that the handler
    raised (its own status line for a bad status, whose body it does not
    read; the upstream message or its default for a flagged body),
    together with the fallback analysis. *)
Theorem POST_transcript_failure w req s videoUrl videoId msg :
  PassesValidation w req videoUrl videoId ->
  TranscriptFailed w videoId msg ->
  exists r s',
    POST w req s = (Returned r, s')
    /\ Body.success (body r) = false
    /\ Body.error (body r)
       = Some (ErrorText (lit "Failed to fetch transcript: " ++ msg))
    /\ exists dat,
         Body.data (body r) = Some dat
         /\ Transcript.content (Data.transcript dat)
            = lit "Could not fetch transcript for video " ++ videoId
         /\ Transcript.segments (Data.transcript dat) = []
         /\ Transcript.error (Data.transcript dat)
            = Some (ErrorDescriptor.Make msg (lit "TRANSCRIPT_FETCH_ERROR"))
         /\ Data.analysis dat
            = generateFallbackAnalysis
                (titleOrDefault (metadataOf w videoUrl) videoId).
Proof.
  intros Hv Hf. do 2 eexists.
  split; [exact (POST_failure_run s Hv Hf)|].
  split; [reflexivity|]. split; [reflexivity|].
  eexists. split; [reflexivity|]. repeat split.
Qed.

Lemma POST_transcript_failure_witness :
  TranscriptFailed Demo.failedWorld Demo.videoId
                   (lit "Supadata API returned status: 500")
  /\ exists r s',
       POST Demo.failedWorld Demo.request noEffects = (Returned r, s')
       /\ Body.success (body r) = false
       /\ exists dat,
            Body.data (body r) = Some dat
            /\ Transcript.error (Data.transcript dat)
               = Some (ErrorDescriptor.Make
                         (lit "Supadata API returned status: 500")
                         (lit "TRANSCRIPT_FETCH_ERROR")).
Proof.
  assert (Hf : TranscriptFailed Demo.failedWorld Demo.videoId
                 (lit "Supadata API returned status: 500")).
  { exact (@failed_status Demo.failedWorld Demo.videoId
             (MkHttpResponse 500 (Thrown (MkError (lit "Unexpected token") None)))
             eq_refl eq_refl). }
  split; [exact Hf|].
  destruct (@POST_transcript_failure Demo.failedWorld Demo.request noEffects
              Demo.videoUrl Demo.videoId _
              (@DemoFacts.request_valid Demo.key _ _ _ eq_refl) Hf)
    as (r & s' & Hr & Hs & _ & dat & Hd & _ & _ & He & _).
  exists r, s'. repeat (split; [assumption|]).
  exists dat. split; assumption.
Defined.

(** The descriptor does not carry the upstream message when the status
    is bad: the transcript service answers 403 with the message 'Video is
    private' in its body, the handler does not read the body, and the
    descriptor and the error text hold the handler's own status line. *)
Lemma POST_bad_status_drops_upstream_message :
  fetchTranscript Demo.forbiddenWorld (transcriptUrl Demo.videoId)
                  (keyValue (SUPADATA_API_KEY Demo.forbiddenWorld))
  = Returned (MkHttpResponse 403
                (Returned (MkSupadataBody false (Some (lit "Video is private"))
                                          None)))
  /\ exists r s' dat descriptor,
       POST Demo.forbiddenWorld Demo.request noEffects = (Returned r, s')
       /\ Body.success (body r) = false
       /\ Body.error (body r)
          = Some (ErrorText (lit "Failed to fetch transcript: Supadata API returned status: 403"))
       /\ Body.data (body r) = Some dat
       /\ Transcript.error (Data.transcript dat) = Some descriptor
       /\ ErrorDescriptor.code descriptor = lit "TRANSCRIPT_FETCH_ERROR"
       /\ ErrorDescriptor.message descriptor
          = lit "Supadata API returned status: 403"
       /\ includes (ErrorDescriptor.message descriptor) (lit "Video is private")
          = false.
Proof.
  split; [reflexivity|].
  do 4 eexists. split; [vm_compute; reflexivity|].
  repeat (split; [reflexivity|]). vm_compute. reflexivity.
Qed.

(** The flagged body: the upstream message is the one reported. *)
Example POST_flagged_body :
  exists r s',
    POST Demo.flaggedWorld Demo.request noEffects = (Returned r, s')
    /\ Body.success (body r) = false
    /\ option_map (fun dat => Transcript.error (Data.transcript dat))
                  (Body.data (body r))
       = Some (Some (ErrorDescriptor.Make (lit "Transcript unavailable")
                                          (lit "TRANSCRIPT_FETCH_ERROR"))).
Proof. do 2 eexists. split; [vm_compute; reflexivity|]. split; reflexivity. Qed.

(** C3, as the code has it.  A run that ends in the partial tier or in
    the transcript-failure tier answers with a body that holds neither the
    request id nor the processing time; a run that ends in full success
    answers with a body that holds both. *)
Theorem POST_tier_request_fields w req s videoUrl videoId :
  PassesValidation w req videoUrl videoId ->
  (forall d groqError,
     TranscriptFetched w videoId d ->
     createCompletion w (completionRequest (text d)) = Thrown groqError ->
     exists r s', POST w req s = (Returned r, s')
       /\ Body.partial (body r) = Some true
       /\ Body.requestId (body r) = None /\ Body.processingTime (body r) = None)
  /\ (forall msg,
        TranscriptFailed w videoId msg ->
        exists r s', POST w req s = (Returned r, s')
          /\ Body.success (body r) = false
          /\ Body.requestId (body r) = None /\ Body.processingTime (body r) = None)
  /\ (forall d completion,
        TranscriptFetched w videoId d ->
        createCompletion w (completionRequest (text d)) = Returned completion ->
        exists r s', POST w req s = (Returned r, s')
          /\ Body.success (body r) = true
          /\ Body.requestId (body r) = Some (randomId w)
          /\ Body.processingTime (body r)
             = Some (dateNow w (S (ticks s)) - dateNow w (ticks s))%Z).
Proof.
  intros Hv. split; [|split].
  - intros d e Hf Hg. do 2 eexists.
    split; [exact (POST_partial_run s Hv Hf Hg)|]. repeat split.
  - intros msg Hf. do 2 eexists.
    split; [exact (POST_failure_run s Hv Hf)|]. repeat split.
  - intros d completion Hf Hg.
    destruct (POST_success_run s Hv Hf Hg) as (analysis & Hr).
    do 2 eexists. split; [exact Hr|]. repeat split.
Qed.

Lemma POST_tier_request_fields_witness :
  (exists r s',
     POST Demo.partialWorld Demo.request noEffects = (Returned r, s')
     /\ Body.partial (body r) = Some true
     /\ Body.requestId (body r) = None
     /\ Body.processingTime (body r) = None)
  /\ (exists r s',
        POST Demo.failedWorld Demo.request noEffects = (Returned r, s')
        /\ Body.success (body r) = false
        /\ Body.requestId (body r) = None
        /\ Body.processingTime (body r) = None)
  /\ (exists r s',
        POST Demo.successWorld Demo.request noEffects = (Returned r, s')
        /\ Body.success (body r) = true
        /\ Body.requestId (body r) = Some (lit "k3x9q2ab")
        /\ Body.processingTime (body r) = Some 250%Z).
Proof.
  split; [|split].
  - exact (proj1 (@POST_tier_request_fields Demo.partialWorld Demo.request
                    noEffects Demo.videoUrl Demo.videoId
                    (@DemoFacts.request_valid Demo.key _ _ _ eq_refl))
                 Demo.transcriptData _
                 (@DemoFacts.transcript_fetched _ _) eq_refl).
  - exact (proj1 (proj2 (@POST_tier_request_fields Demo.failedWorld Demo.request
                           noEffects Demo.videoUrl Demo.videoId
                           (@DemoFacts.request_valid Demo.key _ _ _ eq_refl)))
                 _
                 (@failed_status Demo.failedWorld Demo.videoId
                    (MkHttpResponse 500
                       (Thrown (MkError (lit "Unexpected token") None)))
                    eq_refl eq_refl)).
  - exact (proj2 (proj2 (@POST_tier_request_fields Demo.successWorld Demo.request
                           noEffects Demo.videoUrl Demo.videoId
                           (@DemoFacts.request_valid Demo.key _ _ _ eq_refl)))
                 Demo.transcriptData _
                 (@DemoFacts.transcript_fetched _ _) eq_refl).
Defined.

(* ===================================================================== *)
(** ** The handler: validation and configuration *)
(* ===================================================================== *)

Lemma destructure_property w body k :
  body <> JNull -> destructure w body k = Returned (property body k).
Proof. destruct body; intros H; [contradiction| reflexivity ..]. Qed.

(** C7 (as amended).  When the body holds a truthy [videoUrl] whose
    conversion to a string does not throw, and SUPADATA_API_KEY is not
    configured, the handler answers 500 with success false, an error
    message containing 'Missing Supadata API key' and a troubleshooting
    hint, and makes no outbound call. *)
Theorem POST_missing_supadata_key w req s payload videoUrl :
  req_json req = Returned payload ->
  destructure w payload (lit "videoUrl") = Returned (Some videoUrl) ->
  jsTruthy (Some videoUrl) = true ->
  toStringThrows videoUrl = false ->
  configured (SUPADATA_API_KEY w) = false ->
  exists r s' msg hint,
    POST w req s = (Returned r, s')
    /\ httpStatus r = 500%Z
    /\ Body.success (body r) = false
    /\ Body.error (body r) = Some (ErrorText msg)
    /\ includes msg (lit "Missing Supadata API key") = true
    /\ Body.troubleshooting (body r) = Some hint
    /\ truthy hint = true
    /\ calls s' = calls s.
Proof.
  intros Hb Hd Ht Hc Hk.
  cbv beta iota zeta delta [POST now bind ret tryCatch await].
  rewrite Hb. cbv beta iota. rewrite Hd. cbv beta iota.
  rewrite Ht. cbn [negb templateLiteral]. rewrite Hc, Hk. cbn [negb].
  do 4 eexists. split; [reflexivity|]. repeat split.
Qed.

Lemma POST_missing_supadata_key_witness :
  SUPADATA_API_KEY Demo.noKeyWorld = None
  /\ exists r s',
       POST Demo.noKeyWorld Demo.request noEffects = (Returned r, s')
       /\ httpStatus r = 500%Z
       /\ Body.error (body r)
          = Some (ErrorText
                    (lit "Server configuration error: Missing Supadata API key"))
       /\ calls s' = [].
Proof.
  split; [reflexivity|].
  destruct (@POST_missing_supadata_key Demo.noKeyWorld Demo.request noEffects
              (JObject [(lit "videoUrl", JString Demo.videoUrl)])
              (JString Demo.videoUrl)
              eq_refl eq_refl eq_refl eq_refl eq_refl)
    as (r & s' & msg & hint & Hr & Hst & _ & He & _ & _ & _ & Hc).
  injection Hr as <- <-.
  exists (plainError 500
            (lit "Server configuration error: Missing Supadata API key")
            (Some (lit "Add SUPADATA_API_KEY to your environment variables"))).
  eexists. split; [reflexivity|]. repeat split.
Defined.

(** A [videoUrl] that is present and cannot be converted to a string: the
    object has an own property 'toString', the log line that interpolates
    it throws before the keys are looked at, and with SUPADATA_API_KEY not
    configured the handler answers with the response of the catch-all,
    which names no key and gives no hint. *)
Lemma POST_unconvertible_videoUrl_is_server_error :
  destructure Demo.noKeyWorld (JObject [(lit "videoUrl", Demo.unconvertible)])
              (lit "videoUrl")
  = Returned (Some Demo.unconvertible)
  /\ jsTruthy (Some Demo.unconvertible) = true
  /\ configured (SUPADATA_API_KEY Demo.noKeyWorld) = false
  /\ exists r s' msg,
       POST Demo.noKeyWorld Demo.unconvertibleRequest noEffects = (Returned r, s')
       /\ httpStatus r = 500%Z
       /\ Body.error (body r) = Some (ErrorText msg)
       /\ msg = lit "Server error: Cannot convert object to primitive value"
       /\ includes msg (lit "Missing Supadata API key") = false
       /\ Body.troubleshooting (body r) = None.
Proof.
  repeat (split; [reflexivity|]).
  do 3 eexists. split; [vm_compute; reflexivity|].
  split; [reflexivity|]. split; [reflexivity|].
  split; [vm_compute; reflexivity|]. split; [vm_compute; reflexivity|].
  reflexivity.
Qed.

(** C10 (as amended).  When the JSON body is not null and has no
    [videoUrl] property, or a falsy one, the handler answers 400 with
    success false and the message 'Missing videoUrl parameter in request
    body'; it does so whatever the configuration is, and makes no outbound
    call. *)
Theorem POST_missing_videoUrl w req s payload :
  req_json req = Returned payload ->
  payload <> JNull ->
  jsTruthy (property payload (lit "videoUrl")) = false ->
  exists r s',
    POST w req s = (Returned r, s')
    /\ httpStatus r = 400%Z
    /\ Body.success (body r) = false
    /\ Body.error (body r)
       = Some (ErrorText (lit "Missing videoUrl parameter in request body"))
    /\ calls s' = calls s.
Proof.
  intros Hb Hn Hf.
  cbv beta iota zeta delta [POST now bind ret tryCatch await].
  rewrite Hb. cbv beta iota. rewrite (destructure_property w _ Hn).
  cbv beta iota. rewrite Hf. cbn [negb].
  do 2 eexists. split; [reflexivity|]. repeat split.
Qed.

Lemma POST_missing_videoUrl_witness :
  exists r s',
    POST Demo.noKeyWorld Demo.emptyRequest noEffects = (Returned r, s')
    /\ httpStatus r = 400%Z
    /\ Body.success (body r) = false
    /\ Body.error (body r)
       = Some (ErrorText (lit "Missing videoUrl parameter in request body"))
    /\ calls s' = [].
Proof.
  apply (@POST_missing_videoUrl Demo.noKeyWorld Demo.emptyRequest noEffects
           (JObject []) eq_refl); [discriminate | reflexivity].
Defined.

(** The JSON body null has no [videoUrl] property, and the handler answers
    it with 500, not 400: taking the property apart throws, and the
    catch-all builds the response. *)
Lemma POST_null_body_is_server_error :
  property JNull (lit "videoUrl") = None
  /\ exists r s' reason,
       POST Demo.successWorld Demo.nullRequest noEffects = (Returned r, s')
       /\ httpStatus r = 500%Z
       /\ httpStatus r <> 400%Z
       /\ Body.error (body r)
          = Some (ErrorText (lit "Server error: " ++ reason)).
Proof.
  split; [reflexivity|].
  do 3 eexists. split; [vm_compute; reflexivity|].
  split; [reflexivity|]. split; [discriminate|].
  cbn [body Body.error]. do 2 f_equal.
  instantiate (1 := lit "Cannot read properties of null (reading 'videoUrl')").
  reflexivity.
Qed.

(* ===================================================================== *)
(** ** The handler: metadata and status codes *)
(* ===================================================================== *)

(** C8.  [getYoutubeMetadata] never throws: it returns null when the
    request fails, when the status is not a success status, and when
    reading the body throws.  Whenever the handler then assembles a video
    info without metadata, the title is 'Video ' followed by the video id,
    the author is 'Unknown' and the thumbnail is the default URL for the
    video id. *)
Theorem getYoutubeMetadata_absorbed :
  (forall w videoUrl s,
     exists metadata s',
       getYoutubeMetadata w videoUrl s = (Returned metadata, s')
       /\ forall videoId,
            extractVideoId videoUrl = Some videoId ->
            match fetchOEmbed w (oembedUrl videoId) with
            | Thrown _ => metadata = None
            | Returned response =>
                if ok response then
                  match json response with
                  | Thrown _ => metadata = None
                  | Returned document => metadata = Some document
                  end
                else metadata = None
            end)
  /\ (forall w req s r s' dat,
        POST w req s = (Returned r, s') ->
        Body.data (body r) = Some dat ->
        let info := Transcript.videoInfo (Data.transcript dat) in
        (forall s0, fst (getYoutubeMetadata w (VideoInfo.videoUrl info) s0)
                    = Returned None) ->
        VideoInfo.title info = lit "Video " ++ VideoInfo.videoId info
        /\ VideoInfo.author info = lit "Unknown"
        /\ VideoInfo.thumbnailUrl info
           = lit "https://img.youtube.com/vi/" ++ VideoInfo.videoId info
             ++ lit "/hqdefault.jpg").
Proof.
  split.
  - intros w videoUrl s. do 2 eexists.
    split; [apply getYoutubeMetadata_run|].
    intros videoId Hid. unfold metadataOf. rewrite Hid.
    destruct (fetchOEmbed w (oembedUrl videoId)) as [response|e]; [|reflexivity].
    destruct (ok response); [|reflexivity].
    destruct (json response); reflexivity.
  - intros w req s r s' dat Hrun Hdat info Hnone.
    destruct (POST_cases w req s) as (r0 & s0 & Hr0 & Hcases).
    rewrite Hrun in Hr0. injection Hr0 as <- <-.
    destruct Hcases as [(_ & dat' & Hd' & Hinfo) | (_ & Hd')];
      rewrite Hdat in Hd'; [|discriminate].
    injection Hd' as <-. cbv zeta in Hinfo. fold info in Hinfo.
    specialize (Hnone noEffects). rewrite getYoutubeMetadata_run in Hnone.
    cbn [fst] in Hnone. injection Hnone as Hnone. rewrite Hnone in Hinfo.
    exact Hinfo.
Qed.

Lemma getYoutubeMetadata_absorbed_witness :
  exists r s' dat,
    POST Demo.noMetadataWorld Demo.request noEffects = (Returned r, s')
    /\ Body.data (body r) = Some dat
    /\ VideoInfo.title (Transcript.videoInfo (Data.transcript dat))
       = lit "Video dQw4w9WgXcQ"
    /\ VideoInfo.author (Transcript.videoInfo (Data.transcript dat))
       = lit "Unknown"
    /\ VideoInfo.thumbnailUrl (Transcript.videoInfo (Data.transcript dat))
       = lit "https://img.youtube.com/vi/dQw4w9WgXcQ/hqdefault.jpg".
Proof.
  do 3 eexists. split; [vm_compute; reflexivity|]. split; [reflexivity|].
  match goal with
  | |- VideoInfo.title (Transcript.videoInfo (Data.transcript ?dat)) = _ /\ _ =>
      exact (proj2 getYoutubeMetadata_absorbed Demo.noMetadataWorld Demo.request
               noEffects _ _ dat ltac:(vm_compute; reflexivity) eq_refl
               (fun s0 => eq_refl))
  end.
Defined.

(** C9.  Every run ends in a response.  Its status is other than 200
    exactly when it is one of the error responses: the missing parameter
    (400), the invalid URL (400), a missing key (500) or the catch-all for
    an uncaught exception (500).  In particular the partial response and
    the transcript-failure response have status 200, the latter with
    success false. *)
Theorem POST_status_codes w req s :
  exists r s',
    POST w req s = (Returned r, s')
    /\ (httpStatus r <> 200%Z <-> ErrorResponse w r)
    /\ (forall videoUrl videoId d groqError,
          PassesValidation w req videoUrl videoId ->
          TranscriptFetched w videoId d ->
          createCompletion w (completionRequest (text d)) = Thrown groqError ->
          httpStatus r = 200%Z /\ Body.partial (body r) = Some true)
    /\ (forall videoUrl videoId msg,
          PassesValidation w req videoUrl videoId ->
          TranscriptFailed w videoId msg ->
          httpStatus r = 200%Z /\ Body.success (body r) = false).
Proof.
  destruct (POST_cases w req s) as (r & s' & Hr & Hcases).
  exists r, s'. split; [exact Hr|]. split; [|split].
  - destruct Hcases as [(H & _) | (H & _)]; split; intros H'.
    + contradiction.
    + now apply ErrorResponse_status in H'.
    + exact H.
    + now apply ErrorResponse_status in H.
  - intros videoUrl videoId d groqError Hv Hf Hg.
    rewrite (POST_partial_run s Hv Hf Hg) in Hr. injection Hr as <- <-.
    split; reflexivity.
  - intros videoUrl videoId msg Hv Hf.
    rewrite (POST_failure_run s Hv Hf) in Hr. injection Hr as <- <-.
    split; reflexivity.
Qed.

Lemma POST_status_codes_witness :
  exists r s',
    POST Demo.failedWorld Demo.request noEffects = (Returned r, s')
    /\ httpStatus r = 200%Z
    /\ Body.success (body r) = false.
Proof.
  destruct (POST_status_codes Demo.failedWorld Demo.request noEffects)
    as (r & s' & Hr & _ & _ & Hfail).
  exists r, s'. split; [exact Hr|].
  apply (Hfail Demo.videoUrl Demo.videoId (lit "Supadata API returned status: 500")).
  - exact (@DemoFacts.request_valid Demo.key _ _ _ eq_refl).
  - exact (@failed_status Demo.failedWorld Demo.videoId
             (MkHttpResponse 500 (Thrown (MkError (lit "Unexpected token") None)))
             eq_refl eq_refl).
Defined.

(** The error responses are exactly the ones with another status. *)
Lemma POST_error_statuses w r :
  ErrorResponse w r -> httpStatus r = 400%Z \/ httpStatus r = 500%Z.
Proof. intros []; cbn; auto. Qed.

(* ===================================================================== *)
(** ** The patterns of the scanners *)
(* ===================================================================== *)

Module PatternFacts.

(** A greedy star in front of a continuation that refuses every state
    starting with a character of the class: nothing is given back. *)
Lemma star_exclusive p k cs :
  (forall i c s, p c = true -> k (MState i (c :: s) cs) = None) ->
  forall s i,
    star p k cs i s
    = k (MState (i + length (takeWhile p s)) (dropWhile p s) cs).
Proof.
  intros Hk. induction s as [|c s IH]; intros i; cbn [star takeWhile dropWhile].
  - cbn [length]. now rewrite Nat.add_0_r.
  - destruct (p c) eqn:E.
    + rewrite IH, (Hk i c s E). cbn [length]. rewrite Nat.add_succ_r.
      now destruct (k _).
    + cbn [length]. now rewrite Nat.add_0_r.
Qed.

Lemma test_numbered line : test numberedRegExp line = numbered line.
Proof.
  unfold test, exec, numberedRegExp, numbered. destruct line as [|c s].
  - reflexivity.
  - cbn [execFrom run pos rest caps Nat.eqb dropWhile].
    destruct (isDigit c) eqn:D; cbn [andb].
    + rewrite star_exclusive.
      * cbn [rest]. destruct (dropWhile isDigit s) as [|d t]; cbn [run rest].
        -- now rewrite execFrom_anchored.
        -- destruct (eqc (chr ".") d); [reflexivity|].
           now rewrite execFrom_anchored.
      * intros i d t Hd. cbn [rest].
        destruct (eqc (chr ".") d) eqn:E; [|reflexivity].
        apply N.eqb_eq in E. subst d. discriminate Hd.
    + now rewrite execFrom_anchored.
Qed.

Lemma dropWhile_idem p s : dropWhile p (dropWhile p s) = dropWhile p s.
Proof.
  induction s as [|c s IH]; [reflexivity|]. cbn [dropWhile].
  destruct (p c) eqn:E; [exact IH|]. cbn [dropWhile]. now rewrite E.
Qed.

Lemma replace_marker line :
  replaceEmpty markerRegExp line
  = match line with
    | c :: _ =>
        if isMarkerChar c
        then dropWhile isWhiteSpace (dropWhile isMarkerChar line)
        else line
    | [] => line
    end.
Proof.
  unfold replaceEmpty, exec, markerRegExp. destruct line as [|c s].
  - reflexivity.
  - cbn [execFrom run pos rest caps Nat.eqb dropWhile].
    destruct (isMarkerChar c) eqn:D.
    + rewrite VideoUrlFacts.star_total.
      * cbn [pos rest caps].
        rewrite VideoUrlFacts.star_total by (intros st; now exists st).
        reflexivity.
      * intros st. cbn [pos rest caps].
        rewrite VideoUrlFacts.star_total by (intros st'; now exists st').
        now eexists.
    + now rewrite execFrom_anchored.
Qed.

End PatternFacts.

(** X1.  The two patterns of the scanners, read without the matcher: a line is
    numbered exactly when a run of one or more digits at its start is
    followed by a dot, and stripping a line cuts its whole leading run of
    dashes, bullets, digits and dots and trims what is left. *)
Theorem scanner_patterns line :
  test numberedRegExp line = numbered line
  /\ trim (replaceEmpty markerRegExp line) = trim (dropWhile isMarkerChar line).
Proof.
  split; [apply PatternFacts.test_numbered|].
  rewrite PatternFacts.replace_marker.
  destruct line as [|c s]; [reflexivity|].
  cbn [dropWhile]. destruct (isMarkerChar c); [|reflexivity].
  unfold trim, trimStart. now rewrite PatternFacts.dropWhile_idem.
Qed.

(* ===================================================================== *)
(** ** The results of the scanners *)
(* ===================================================================== *)

Module TrimFacts.

Lemma dropWhile_head p s c t : dropWhile p s = c :: t -> p c = false.
Proof.
  induction s as [|x s IH]; cbn [dropWhile]; [discriminate|].
  destruct (p x) eqn:E; [exact IH|]. intros H. injection H as <- _. exact E.
Qed.

Lemma dropWhile_suffix p s : exists pre, s = pre ++ dropWhile p s.
Proof.
  induction s as [|x s (pre & IH)]; [now exists []|]. cbn [dropWhile].
  destruct (p x); [|now exists []].
  exists (x :: pre). cbn [app]. now rewrite <- IH.
Qed.

Lemma dropWhile_keep p s :
  match s with c :: _ => p c = false | [] => True end -> dropWhile p s = s.
Proof. destruct s as [|c s]; [reflexivity|]. cbn [dropWhile]. now intros ->. Qed.

(** A trimmed string neither starts nor ends with white space. *)
Lemma trim_ends s :
  match trim s with c :: _ => isWhiteSpace c = false | [] => True end
  /\ match rev (trim s) with c :: _ => isWhiteSpace c = false | [] => True end.
Proof.
  unfold trim, trimEnd, trimStart. rewrite rev_involutive.
  set (a := dropWhile isWhiteSpace s).
  set (b := dropWhile isWhiteSpace (rev a)).
  split.
  - destruct (dropWhile_suffix isWhiteSpace (rev a)) as (pre & Hpre).
    fold b in Hpre. apply (f_equal (@rev _)) in Hpre.
    rewrite rev_involutive, rev_app_distr in Hpre.
    destruct (rev b) as [|c t] eqn:Eb; [exact I|].
    cbn [app] in Hpre. unfold a in Hpre. now apply dropWhile_head in Hpre.
  - destruct b as [|c t] eqn:Eb; [exact I|].
    unfold b in Eb. now apply dropWhile_head in Eb.
Qed.

Lemma trim_idem s : trim (trim s) = trim s.
Proof.
  destruct (trim_ends s) as [H1 H2].
  unfold trim at 1. unfold trimStart, trimEnd.
  rewrite (dropWhile_keep isWhiteSpace (trim s) H1).
  rewrite (dropWhile_keep isWhiteSpace (rev (trim s)) H2).
  apply rev_involutive.
Qed.

End TrimFacts.

Module EarlyStop.

Lemma split_nl_nonempty s : split_nl s <> [].
Proof.
  destruct s as [|c s]; cbn [split_nl]; [discriminate|].
  destruct (eqc c 10%N); [discriminate|]. destruct (split_nl s); discriminate.
Qed.

(** Splitting a text that has a newline in the middle. *)
Lemma split_nl_app s t :
  split_nl (s ++ 10%N :: t) = split_nl s ++ split_nl t.
Proof.
  induction s as [|c s IH]; cbn [app split_nl].
  - reflexivity.
  - rewrite IH. destruct (eqc c 10%N); [reflexivity|].
    pose proof (split_nl_nonempty s) as Hne.
    destruct (split_nl s) as [|l ls]; [contradiction | reflexivity].
Qed.

Lemma afterFirst_more trigger l1 l2 :
  afterFirst trigger l1 <> [] ->
  afterFirst trigger (l1 ++ l2) = afterFirst trigger l1 ++ l2.
Proof.
  induction l1 as [|x l1 IH]; cbn [afterFirst app]; [contradiction|].
  destruct (trigger x); [reflexivity | exact IH].
Qed.

Lemma collected_full trigger l1 l2 :
  length (collected trigger l1) = 5 ->
  collected trigger (l1 ++ l2) = collected trigger l1.
Proof.
  unfold collected. intros H.
  assert (Hne : afterFirst trigger l1 <> []).
  { intros E. rewrite E in H. discriminate H. }
  rewrite (afterFirst_more _ _ l2 Hne), filter_app, firstn_app.
  rewrite length_firstn in H.
  replace (5 - length (filter (collectable trigger) (afterFirst trigger l1)))
    with 0 by lia.
  cbn [firstn]. apply app_nil_r.
Qed.

End EarlyStop.

(** X2.  [extractKeyTakeaways] returns between one and five strings, each of
    them trimmed. *)
Theorem extractKeyTakeaways_result text :
  1 <= length (extractKeyTakeaways text) <= 5
  /\ forall t, In t (extractKeyTakeaways text) -> trim t = t.
Proof.
  rewrite extractKeyTakeaways_collected.
  pose proof (collected_length isTakeawayTrigger (split_nl text)) as H.
  destruct (collected isTakeawayTrigger (split_nl text)) as [|l ls].
  - split; [cbn [length]; lia|]. intros t [<-|[]]. reflexivity.
  - split; [rewrite length_map; cbn [length] in *; lia|].
    intros t Hin. apply in_map_iff in Hin as (x & <- & _).
    apply TrimFacts.trim_idem.
Qed.

(** X3.  [extractTopics] returns between one and five topics; the title of
    each is trimmed, and its description is the title after 'Discussion
    about ', or the fixed description of the placeholder. *)
Theorem extractTopics_result text :
  1 <= length (extractTopics text) <= 5
  /\ forall t, In t (extractTopics text) ->
       trim (Topic.title t) = Topic.title t
       /\ (Topic.description t = lit "Discussion about " ++ Topic.title t
           \/ t = topicPlaceholder).
Proof.
  rewrite extractTopics_collected.
  pose proof (collected_length isTopicTrigger (split_nl text)) as H.
  destruct (collected isTopicTrigger (split_nl text)) as [|l ls].
  - split; [cbn [length]; lia|]. intros t [<-|[]]. split; [reflexivity|now right].
  - split; [rewrite length_map; cbn [length] in *; lia|].
    intros t Hin. apply in_map_iff in Hin as (x & <- & _).
    split; [apply TrimFacts.trim_idem | now left].
Qed.

(** X4.  Once five items have been collected the rest of the text is not read:
    whatever is appended on further lines leaves the result as it is.  The
    same holds of [extractTopics]. *)
Theorem scanners_stop_at_five text more :
  (length (extractKeyTakeaways text) = 5 ->
   extractKeyTakeaways (text ++ 10%N :: more) = extractKeyTakeaways text)
  /\ (length (extractTopics text) = 5 ->
      extractTopics (text ++ 10%N :: more) = extractTopics text).
Proof.
  split; intros H.
  - rewrite !extractKeyTakeaways_collected, EarlyStop.split_nl_app in *.
    assert (H5 : length (collected isTakeawayTrigger (split_nl text)) = 5).
    { destruct (collected isTakeawayTrigger (split_nl text));
        [discriminate H | now rewrite length_map in H]. }
    now rewrite (EarlyStop.collected_full _ _ (split_nl more) H5).
  - rewrite !extractTopics_collected, EarlyStop.split_nl_app in *.
    assert (H5 : length (collected isTopicTrigger (split_nl text)) = 5).
    { destruct (collected isTopicTrigger (split_nl text));
        [discriminate H | now rewrite length_map in H]. }
    now rewrite (EarlyStop.collected_full _ _ (split_nl more) H5).
Qed.

Lemma scanners_stop_at_five_witness :
  extractKeyTakeaways (Sample.longAnswer ++ 10%N :: lit "- six")
  = extractKeyTakeaways Sample.longAnswer.
Proof.
  exact (proj1 (@scanners_stop_at_five Sample.longAnswer (lit "- six")) eq_refl).
Defined.

(* ===================================================================== *)
(** ** extractVideoId: what is returned, and watch links *)
(* ===================================================================== *)

Module MoreVideoUrl.
Import VideoUrlFacts.

Lemma skipOne_suffix c s : exists pre, s = pre ++ skipOne c s.
Proof.
  destruct s as [|x s]; [now exists []|]. cbn [skipOne].
  destruct (eqc c x); [now exists [x] | now exists []].
Qed.

Lemma takeWhile_prefix p s :
  (exists post, s = takeWhile p s ++ post) /\ forallb p (takeWhile p s) = true.
Proof.
  induction s as [|x s ((post & IH) & IHp)]; [split; [now exists []|reflexivity]|].
  cbn [takeWhile]. destruct (p x) eqn:E.
  - split; [exists post; cbn [app]; now rewrite <- IH|].
    cbn [forallb]. now rewrite E, IHp.
  - split; [now exists (x :: s) | reflexivity].
Qed.

Lemma candidateAfter_piece s :
  (exists pre post, s = pre ++ candidateAfter s ++ post)
  /\ forallb notDelimiter (candidateAfter s) = true.
Proof.
  unfold candidateAfter.
  destruct (skipOne_suffix (chr "?") s) as (p1 & H1).
  destruct (skipOne_suffix (chr "v") (skipOne (chr "?") s)) as (p2 & H2).
  destruct (skipOne_suffix (chr "=")
              (skipOne (chr "v") (skipOne (chr "?") s))) as (p3 & H3).
  set (u := skipOne (chr "=") (skipOne (chr "v") (skipOne (chr "?") s))) in *.
  destruct (takeWhile_prefix notDelimiter u) as ((post & H4) & H5).
  split; [|exact H5].
  exists (p1 ++ p2 ++ p3), post.
  rewrite H1 at 1. rewrite H2 at 1. rewrite H3 at 1. rewrite H4 at 1.
  now rewrite <- !app_assoc.
Qed.

Lemma candidateAt_piece s g :
  candidateAt s = Some g ->
  (exists pre post, s = pre ++ g ++ post) /\ forallb notDelimiter g = true.
Proof.
  unfold candidateAt. destruct (markerLength s) as [n|]; [|discriminate].
  intros H. injection H as <-.
  destruct (candidateAfter_piece (skipn n s)) as ((pre & post & Hp) & Hd).
  split; [|exact Hd]. exists (firstn n s ++ pre), post.
  rewrite <- app_assoc, <- Hp. symmetry. apply firstn_skipn.
Qed.

Lemma lastCandidate_piece s : forall g,
  lastCandidate s = Some g ->
  (exists pre post, s = pre ++ g ++ post) /\ forallb notDelimiter g = true.
Proof.
  induction s as [|c s IH]; intros g; cbn [lastCandidate].
  - apply candidateAt_piece.
  - destruct (isDot c); [|apply candidateAt_piece].
    destruct (lastCandidate s) as [g'|]; [|apply candidateAt_piece].
    intros H. injection H as <-.
    destruct (IH g' eq_refl) as ((pre & post & Hp) & Hd).
    split; [|exact Hd]. exists (c :: pre), post. cbn [app]. now rewrite <- Hp.
Qed.

Lemma isPlain_marker s : forallb isPlain s = true -> markerLength s = None.
Proof.
  intros H. unfold markerLength, midMatch.
  assert (Hs : forall p, forallb isPlain p = false -> startsWith s p = false).
  { intros p Hp. destruct (startsWith s p) eqn:E; [|reflexivity].
    now rewrite (startsWith_all isPlain _ _ E H) in Hp. }
  rewrite (Hs (lit "v/") eq_refl), (Hs (lit "/u/") eq_refl),
          (Hs (lit "embed/") eq_refl), (Hs (lit "watch?") eq_refl).
  cbn [andb].
  destruct (startsWith s (lit "youtu")); [|reflexivity]. cbn [andb].
  pose proof (forallb_skipn isPlain (length (lit "youtu")) s H) as Hk.
  destruct (skipn (length (lit "youtu")) s) as [|c r]; [reflexivity|].
  cbn [forallb] in Hk. apply andb_true_iff in Hk as [_ Hr].
  destruct (startsWith r (lit "be/")) eqn:E; [|now rewrite andb_false_r].
  now pose proof (startsWith_all isPlain _ _ E Hr).
Qed.

(** No marker starts in a string without slash and question mark. *)
Lemma lastCandidate_plain s : forallb isPlain s = true -> lastCandidate s = None.
Proof.
  induction s as [|c s IH]; intros H.
  - reflexivity.
  - cbn [lastCandidate]. unfold candidateAt. rewrite (isPlain_marker _ H).
    cbn [forallb] in H. apply andb_true_iff in H as [_ H].
    rewrite (IH H). now destruct (isDot c).
Qed.

Lemma isIdChar_plain id : forallb isIdChar id = true -> forallb isPlain id = true.
Proof.
  apply forallb_impl. intros c Hc.
  destruct (isIdChar_facts c Hc) as (H1 & H2 & _).
  unfold isPlain, eqc. change (chr "/") with 47%N. change (chr "?") with 63%N.
  now rewrite (N.eqb_sym c 47), H1, (N.eqb_sym c 63), H2.
Qed.

Lemma takeWhile_stop id d rest :
  forallb isIdChar id = true -> notDelimiter d = false ->
  takeWhile notDelimiter (id ++ d :: rest) = id.
Proof.
  intros H Hd. induction id as [|c id IH]; cbn [app takeWhile].
  - now rewrite Hd.
  - cbn [forallb] in H. apply andb_true_iff in H as [Hc H].
    destruct (isIdChar_facts c Hc) as (_ & _ & _ & _ & Hn).
    rewrite Hn. now rewrite (IH H).
Qed.

#[local] Arguments N.eqb !n !m.
#[local] Arguments N.leb !x !y.

Lemma lastCandidate_watch_more id d rest :
  forallb isIdChar id = true ->
  notDelimiter d = false -> isPlain d = true ->
  forallb isPlain rest = true ->
  lastCandidate (lit "https://www.youtube.com/watch?v=" ++ id ++ d :: rest)
  = Some id.
Proof.
  intros H Hd Hp Hrest. rewrite lastCandidate_app by reflexivity.
  rewrite lastCandidate_plain.
  - set (b := id ++ d :: rest).
    cbn -[takeWhile notDelimiter]. unfold candidateAfter.
    cbn -[takeWhile notDelimiter]. unfold b.
    now rewrite (takeWhile_stop id d rest H Hd).
  - rewrite forallb_app. cbn [forallb].
    now rewrite (isIdChar_plain _ H), Hp, Hrest.
Qed.

Lemma takeWhile_until q d rest :
  forallb notDelimiter q = true -> notDelimiter d = false ->
  takeWhile notDelimiter (q ++ d :: rest) = q.
Proof.
  intros H Hd. induction q as [|c q IH]; cbn [app takeWhile].
  - now rewrite Hd.
  - cbn [forallb] in H. apply andb_true_iff in H as [Hc H].
    rewrite Hc. now rewrite (IH H).
Qed.

Lemma skipOne_keep c q d rest :
  startsWith q [c] = false -> eqc c d = false ->
  skipOne c (q ++ d :: rest) = q ++ d :: rest.
Proof.
  intros Hq Hd. destruct q as [|x q]; cbn [app skipOne].
  - now rewrite Hd.
  - cbn [startsWith] in Hq. rewrite andb_true_r in Hq. now rewrite Hq.
Qed.

Lemma lastCandidate_first_parameter q id :
  forallb isPlain q = true -> forallb notDelimiter q = true ->
  startsWith q (lit "v") = false -> startsWith q (lit "=") = false ->
  forallb isIdChar id = true ->
  lastCandidate (lit "https://www.youtube.com/watch?" ++ q ++ lit "&v=" ++ id)
  = Some q.
Proof.
  intros Hp Hn Hv He H. rewrite lastCandidate_app by reflexivity.
  rewrite lastCandidate_plain.
  - set (b := q ++ lit "&v=" ++ id).
    cbn -[takeWhile notDelimiter]. unfold candidateAfter, b.
    change (lit "&v=" ++ id) with (38%N :: lit "v=" ++ id).
    assert (Hq : startsWith q [chr "?"] = false).
    { destruct q as [|x q]; [reflexivity|]. cbn [forallb] in Hp.
      apply andb_true_iff in Hp as [Hx _]. unfold isPlain in Hx.
      apply negb_true_iff, orb_false_iff in Hx as [_ Hx].
      cbn [startsWith]. rewrite andb_true_r. unfold eqc in *.
      now rewrite N.eqb_sym. }
    rewrite (@skipOne_keep _ q 38%N _ Hq eq_refl).
    rewrite (@skipOne_keep _ q 38%N _ Hv eq_refl).
    rewrite (@skipOne_keep _ q 38%N _ He eq_refl).
    now rewrite (@takeWhile_until q 38%N _ Hn eq_refl).
  - rewrite !forallb_app. now rewrite Hp, (isIdChar_plain _ H).
Qed.

End MoreVideoUrl.

(** X5.  Whatever [extractVideoId] returns is a piece of the URL that has
    exactly eleven code units, none of them a "#", an "&" or a "?". *)
Theorem extractVideoId_result url id :
  extractVideoId url = Some id ->
  length id = 11
  /\ forallb notDelimiter id = true
  /\ exists pre post, url = pre ++ id ++ post.
Proof.
  intros H. split; [exact (extractVideoId_length _ H)|].
  rewrite VideoUrlFacts.extractVideoId_lastCandidate in H.
  destruct (lastCandidate url) as [g|] eqn:E; [|discriminate].
  destruct (Nat.eqb (length g) 11); [|discriminate]. injection H as <-.
  destruct (MoreVideoUrl.lastCandidate_piece _ E) as (Hp & Hd). now split.
Qed.

Lemma extractVideoId_result_witness :
  length Demo.videoId = 11
  /\ forallb notDelimiter Demo.videoId = true
  /\ exists pre post, Demo.videoUrl = pre ++ Demo.videoId ++ post.
Proof.
  apply (@extractVideoId_result Demo.videoUrl Demo.videoId).
  vm_compute. reflexivity.
Defined.

(** X6.  A watch link yields its eleven-character id, whatever letters the
    id starts with, also when further parameters or a fragment follow it,
    as long as what follows holds no slash and no question mark. *)
Theorem extractVideoId_watch_link id tail :
  length id = 11 -> forallb isIdChar id = true ->
  match tail with
  | [] => True
  | d :: rest => (d = chr "&" \/ d = chr "#") /\ forallb isPlain rest = true
  end ->
  extractVideoId (lit "https://www.youtube.com/watch?v=" ++ id ++ tail) = Some id.
Proof.
  intros Hlen H Htail. destruct tail as [|d rest].
  - rewrite app_nil_r. now apply VideoUrlFacts.extractVideoId_watch.
  - destruct Htail as [Hd Hrest].
    rewrite VideoUrlFacts.extractVideoId_lastCandidate.
    rewrite MoreVideoUrl.lastCandidate_watch_more; try assumption.
    + now rewrite Hlen.
    + destruct Hd as [-> | ->]; reflexivity.
    + destruct Hd as [-> | ->]; reflexivity.
Qed.

Lemma extractVideoId_watch_link_witness :
  extractVideoId (lit "https://www.youtube.com/watch?v=vABCDEFGHIJ")
  = Some (lit "vABCDEFGHIJ")
  /\ extractVideoId (lit "https://www.youtube.com/watch?v=dQw4w9WgXcQ&t=42s")
     = Some (lit "dQw4w9WgXcQ").
Proof.
  split.
  - exact (@extractVideoId_watch_link (lit "vABCDEFGHIJ") [] eq_refl eq_refl I).
  - exact (@extractVideoId_watch_link (lit "dQw4w9WgXcQ") (lit "&t=42s")
             eq_refl eq_refl (conj (or_introl eq_refl) eq_refl)).
Defined.

(** X7.  In a watch link only the first query parameter is read.  Let
    the link be 'https://www.youtube.com/watch?' followed by a first
    parameter q, '&v=' and an id over the id alphabet, where q holds none
    of the characters slash, question mark, hash and ampersand and starts
    neither with 'v' nor with '='.  Then q is the candidate: the link
    yields q when q happens to have eleven code units, and null
    otherwise; the id after '&v=' is not returned. *)
Theorem extractVideoId_first_parameter q id :
  forallb isPlain q = true -> forallb notDelimiter q = true ->
  startsWith q (lit "v") = false -> startsWith q (lit "=") = false ->
  forallb isIdChar id = true ->
  extractVideoId (lit "https://www.youtube.com/watch?" ++ q ++ lit "&v=" ++ id)
  = if Nat.eqb (length q) 11 then Some q else None.
Proof.
  intros Hp Hn Hv He H.
  rewrite VideoUrlFacts.extractVideoId_lastCandidate.
  now rewrite MoreVideoUrl.lastCandidate_first_parameter.
Qed.

Lemma extractVideoId_first_parameter_witness :
  extractVideoId Sample.sharedUrl = None
  /\ extractVideoId (lit "https://www.youtube.com/watch?feature=abc&v=dQw4w9WgXcQ")
     = Some (lit "feature=abc").
Proof.
  split.
  - exact (@extractVideoId_first_parameter (lit "feature=share") (lit "dQw4w9WgXcQ")
             eq_refl eq_refl eq_refl eq_refl eq_refl).
  - exact (@extractVideoId_first_parameter (lit "feature=abc") (lit "dQw4w9WgXcQ")
             eq_refl eq_refl eq_refl eq_refl eq_refl).
Defined.

(* ===================================================================== *)
(** ** The handler: every way a run can end *)
(* ===================================================================== *)

Module HandlerFacts.

Lemma POST_success_exact w req videoUrl videoId d completion s :
  PassesValidation w req videoUrl videoId ->
  TranscriptFetched w videoId d ->
  createCompletion w (completionRequest (text d)) = Returned completion ->
  POST w req s
  = (Returned (successResponse (randomId w)
                 (dateNow w (S (ticks s)) - dateNow w (ticks s))
                 (buildTranscript (metadataOf w videoUrl) videoId videoUrl d)
                 (analysisOf (metadataOf w videoUrl) videoId
                             (analysisTextOf completion))),
     MkEffects (S (S (ticks s))) (calls (pipelineEffects videoId d s))).
Proof.
  intros Hv Hf Hg.
  rewrite (POST_validated s Hv), (fetchAndAnalyze_fetched _ _ _ _ _ Hf).
  rewrite (@fetchedEffects_eq _ _ s (valid_id Hv)).
  pose proof (analyze_run w (randomId w) (dateNow w (ticks s))
                (metadataOf w videoUrl) videoId
                (buildTranscript (metadataOf w videoUrl) videoId videoUrl d)
                (fetchedEffects videoId s))
    as Hrun.
  cbv zeta in Hrun. rewrite Hrun.
  change (Transcript.content
            (buildTranscript (metadataOf w videoUrl) videoId videoUrl d))
    with (text d).
  rewrite Hg. unfold pipelineEffects, fetchedEffects, analysisOf.
  cbn [ticks calls]. rewrite <- app_assoc. reflexivity.
Qed.

Lemma fetchAndAnalyze_throws w requestId t0 videoUrl videoId metadata e s :
  TranscriptThrows w videoId e ->
  fetchAndAnalyze w requestId t0 (keyValue (SUPADATA_API_KEY w)) videoUrl videoId
                  metadata s
  = (Returned (failureResponse metadata videoId videoUrl e),
     transcriptEffects videoId s).
Proof.
  intros H.
  cbv beta iota zeta delta
      [fetchAndAnalyze fetchSupadata logCall bind ret throw tryCatch await].
  destruct H as [e Hf | response e Hf Hok Hj | response data Hf Hok Hj Hs Hd];
    rewrite Hf; cbv beta iota; try reflexivity;
    rewrite Hok; cbn [negb]; cbv beta iota; rewrite Hj; cbv beta iota;
    try reflexivity.
  rewrite Hs. cbn [negb]. cbv beta iota. rewrite Hd. reflexivity.
Qed.

End HandlerFacts.

Module RunFacts.

Lemma destructure_cases w payload k :
  (payload = JNull /\ destructure w payload k = Thrown (typeError w k))
  \/ (payload <> JNull
      /\ destructure w payload k = Returned (property payload k)).
Proof. destruct payload; [left; now split | right; split; [discriminate|reflexivity] ..]. Qed.

Lemma templateLiteral_cases w videoUrl :
  templateLiteral w videoUrl = Returned tt
  \/ exists v, videoUrl = Some v /\ toStringThrows v = true
               /\ templateLiteral w videoUrl = Thrown (conversionError w).
Proof.
  destruct videoUrl as [v|]; [|now left]. cbn [templateLiteral].
  destruct (toStringThrows v) eqn:E; [right | now left].
  exists v. now repeat split.
Qed.

Lemma extractVideoIdOf_some v url videoId :
  extractVideoIdOf v = Some (url, videoId) ->
  v = Some (JString url) /\ extractVideoId url = Some videoId.
Proof.
  destruct v as [[| | |x| |]|]; try discriminate. cbn [extractVideoIdOf].
  destruct (extractVideoId x) as [i|] eqn:E; [|discriminate].
  intros H. injection H as -> ->. now split.
Qed.

(** The transcript block ends in one of the three responses with status
    200. *)
Lemma fetchAndAnalyze_tiers w requestId t0 apiKey videoUrl videoId metadata s :
  exists r s',
    fetchAndAnalyze w requestId t0 apiKey videoUrl videoId metadata s
    = (Returned r, s')
    /\ ((exists e, r = failureResponse metadata videoId videoUrl e
                   /\ s' = transcriptEffects videoId s)
        \/ (exists d groqError,
              createCompletion w (completionRequest (text d)) = Thrown groqError
              /\ r = partialResponse metadata videoId
                       (buildTranscript metadata videoId videoUrl d) groqError
              /\ s' = MkEffects (ticks s)
                        (calls (transcriptEffects videoId s)
                         ++ [CompletionCall (completionRequest (text d))]))
        \/ (exists d completion,
              createCompletion w (completionRequest (text d)) = Returned completion
              /\ r = successResponse requestId (dateNow w (ticks s) - t0)
                       (buildTranscript metadata videoId videoUrl d)
                       (analysisOf metadata videoId (analysisTextOf completion))
              /\ s' = MkEffects (S (ticks s))
                        (calls (transcriptEffects videoId s)
                         ++ [CompletionCall (completionRequest (text d))]))).
Proof.
  cbv beta iota zeta delta
      [fetchAndAnalyze fetchSupadata logCall bind ret throw tryCatch await].
  destruct (fetchTranscript w (transcriptUrl videoId) apiKey) as [response|e].
  2:{ do 2 eexists. split; [reflexivity|]. left. eexists. split; reflexivity. }
  destruct (ok response); cbn [negb].
  2:{ do 2 eexists. split; [reflexivity|]. left. eexists. split; reflexivity. }
  destruct (json response) as [data|e].
  2:{ do 2 eexists. split; [reflexivity|]. left. eexists. split; reflexivity. }
  destruct (body_success data); cbn [negb].
  2:{ do 2 eexists. split; [reflexivity|]. left. eexists. split; reflexivity. }
  destruct (body_data data) as [d|].
  2:{ do 2 eexists. split; [reflexivity|]. left. eexists. split; reflexivity. }
  match goal with
  | |- context [analyze ?a ?b ?c ?d ?e ?f ?g] =>
      pose proof (analyze_run a b c d e f g) as Hrun; cbv zeta in Hrun;
      rewrite Hrun
  end.
  change (Transcript.content (buildTranscript metadata videoId videoUrl d))
    with (text d).
  destruct (createCompletion w (completionRequest (text d))) as [c|g] eqn:E.
  - do 2 eexists. split; [reflexivity|]. right. right. exists d, c.
    split; [exact E|]. split; reflexivity.
  - do 2 eexists. split; [reflexivity|]. right. left. exists d, g.
    split; [exact E|]. split; reflexivity.
Qed.

(** Every run of the handler returns, in one of five ways. *)
Lemma POST_ending w req s :
  exists r s', POST w req s = (Returned r, s') /\ Ending w req s r s'.
Proof.
  cbv beta iota zeta delta [POST now bind ret tryCatch await].
  destruct (req_json req) as [payload|e] eqn:Hb.
  2:{ do 2 eexists. split; [reflexivity|]. cbn [ticks calls].
      apply (@ends_uncaught w req s e). now left. }
  destruct (destructure_cases w payload (lit "videoUrl")) as [[-> ->] | [Hn ->]].
  { do 2 eexists. split; [reflexivity|]. cbn [ticks calls].
    apply (@ends_uncaught w req s (typeError w (lit "videoUrl"))).
    right. now split. }
  cbv beta iota.
  destruct (jsTruthy (property payload (lit "videoUrl"))) eqn:Ht; cbn [negb].
  2:{ do 2 eexists. split; [reflexivity|]. cbn [ticks calls].
      now apply (@ends_missing_parameter w req s payload). }
  destruct (templateLiteral_cases w (property payload (lit "videoUrl")))
    as [Hc | (v & Hv & Hc & He)]; rewrite ?Hc, ?He.
  2:{ do 2 eexists. split; [reflexivity|]. cbn [ticks calls].
      apply (@ends_unconvertible w req s payload v); try assumption.
      now rewrite <- Hv. }
  destruct (configured (SUPADATA_API_KEY w)) eqn:Hsk; cbn [negb].
  2:{ do 2 eexists. split; [reflexivity|]. cbn [ticks calls].
      now apply (@ends_missing_supadata_key w req s payload). }
  destruct (configured (GROQ_API_KEY w)) eqn:Hgk; cbn [negb].
  2:{ do 2 eexists. split; [reflexivity|]. cbn [ticks calls].
      now apply (@ends_missing_groq_key w req s payload). }
  destruct (extractVideoIdOf (property payload (lit "videoUrl")))
    as [[url videoId]|] eqn:Hv.
  2:{ do 2 eexists. split; [reflexivity|]. cbn [ticks calls].
      now apply (@ends_invalid_url w req s payload). }
  apply extractVideoIdOf_some in Hv as [Hv Hid].
  assert (Hvalid : PassesValidation w req url videoId).
  { split; try assumption. exists payload. split; [exact Hb|].
    now rewrite (destructure_property w _ Hn), Hv. }
  rewrite getYoutubeMetadata_run. unfold metadataEffects. rewrite Hid.
  cbn [ticks calls].
  match goal with
  | |- context [fetchAndAnalyze ?a1 ?a2 ?a3 ?a4 ?a5 ?a6 ?a7 ?a8] =>
      destruct (fetchAndAnalyze_tiers a1 a2 a3 a4 a5 a6 a7 a8)
        as (r & s' & Hr & [(e & -> & ->) | [(d & g & Hg & -> & ->)
                                           | (d & c & Hg & -> & ->)]])
  end;
    unfold transcriptEffects in Hr; cbn [ticks calls] in Hr; rewrite <- ?app_assoc in Hr; cbn [app] in Hr;
    rewrite Hr; do 2 eexists; (split; [reflexivity|]).
  - exact (@ends_failure w req s url videoId e Hvalid).
  - exact (@ends_partial w req s url videoId d g Hvalid Hg).
  - exact (@ends_success w req s url videoId d c Hvalid Hg).
Qed.

End RunFacts.

(* ===================================================================== *)
(** ** The handler: the success tier and the error paths *)
(* ===================================================================== *)

Module HandlerRuns.

Lemma POST_throws_run w req videoUrl videoId e s :
  PassesValidation w req videoUrl videoId ->
  TranscriptThrows w videoId e ->
  POST w req s
  = (Returned (failureResponse (metadataOf w videoUrl) videoId videoUrl e),
     fetchedEffects videoId s).
Proof.
  intros Hv Hf.
  rewrite (POST_validated s Hv), <- (@fetchedEffects_eq _ _ s (valid_id Hv)).
  now apply HandlerFacts.fetchAndAnalyze_throws.
Qed.

Lemma metadataOf_withoutMetadata w videoUrl :
  metadataOf (withoutMetadata w) videoUrl = None.
Proof. unfold metadataOf. now destruct (extractVideoId videoUrl). Qed.

Lemma destructure_withoutMetadata w payload k :
  destructure (withoutMetadata w) payload k = destructure w payload k.
Proof. now destruct payload. Qed.

Lemma templateLiteral_withoutMetadata w v :
  templateLiteral (withoutMetadata w) v = templateLiteral w v.
Proof. now destruct v. Qed.

End HandlerRuns.

(** X8.  When the transcript is fetched and the summariser answers, the
    handler answers 200 with success true, no partial flag and no error;
    the payload holds the transcript as it was built, the first 500 code
    units of the completion text as the summary and as the only component
    of the framework, and the takeaways and topics that the two scanners
    read from the completion text.  The three upstream calls are made
    once each, in order. *)
Theorem POST_full_success w req s videoUrl videoId d completion :
  PassesValidation w req videoUrl videoId ->
  TranscriptFetched w videoId d ->
  createCompletion w (completionRequest (text d)) = Returned completion ->
  exists r s' dat,
    POST w req s = (Returned r, s')
    /\ httpStatus r = 200%Z
    /\ Body.success (body r) = true
    /\ Body.partial (body r) = None
    /\ Body.error (body r) = None
    /\ Body.data (body r) = Some dat
    /\ Data.transcript dat
       = buildTranscript (metadataOf w videoUrl) videoId videoUrl d
    /\ Analysis.summary (Data.analysis dat)
       = firstn 500 (analysisTextOf completion)
    /\ length (Analysis.summary (Data.analysis dat)) <= 500
    /\ Framework.components (Analysis.framework (Data.analysis dat))
       = [Component.Make (lit "Summary") (Analysis.summary (Data.analysis dat))]
    /\ Analysis.keyTakeaways (Data.analysis dat)
       = extractKeyTakeaways (analysisTextOf completion)
    /\ Analysis.topics (Data.analysis dat)
       = extractTopics (analysisTextOf completion)
    /\ calls s' = calls s ++ [FetchCall (oembedUrl videoId);
                              FetchCall (transcriptUrl videoId);
                              CompletionCall (completionRequest (text d))].
Proof.
  intros Hv Hf Hg. do 3 eexists.
  split; [exact (HandlerFacts.POST_success_exact s Hv Hf Hg)|].
  repeat (split; [reflexivity|]).
  split; [|repeat split].
  cbn [Data.analysis analysisOf Analysis.summary]. unfold substring0.
  rewrite length_firstn. apply Nat.le_min_l.
Qed.

Lemma POST_full_success_witness :
  exists r s' dat,
    POST Demo.successWorld Demo.request noEffects = (Returned r, s')
    /\ Body.success (body r) = true
    /\ Body.data (body r) = Some dat
    /\ Analysis.summary (Data.analysis dat) = Demo.completionText
    /\ Analysis.keyTakeaways (Data.analysis dat) = [lit "Commitment"; lit "Love"]
    /\ length (calls s') = 3.
Proof.
  destruct (@POST_full_success Demo.successWorld Demo.request noEffects
              Demo.videoUrl Demo.videoId Demo.transcriptData
              (MkCompletion [MkChoice (Some (Some Demo.completionText))])
              (@DemoFacts.request_valid Demo.key _ _ _ eq_refl)
              (@DemoFacts.transcript_fetched _ _) eq_refl)
    as (r & s' & dat & Hr & _ & Hs & _ & _ & Hd & _ & Hsum & _ & _ & Hk & _ & Hc).
  exists r, s', dat. split; [exact Hr|]. split; [exact Hs|].
  split; [exact Hd|]. split; [rewrite Hsum; vm_compute; reflexivity|].
  split; [rewrite Hk; vm_compute; reflexivity|].
  rewrite Hc. reflexivity.
Defined.

(** X9.  A completion without a choice, without a message or with an empty
    content is not an error: the handler answers with full success, an
    empty summary and the two placeholders. *)
Theorem POST_empty_completion w req s videoUrl videoId d completion :
  PassesValidation w req videoUrl videoId ->
  TranscriptFetched w videoId d ->
  createCompletion w (completionRequest (text d)) = Returned completion ->
  analysisTextOf completion = [] ->
  exists r s' dat,
    POST w req s = (Returned r, s')
    /\ httpStatus r = 200%Z
    /\ Body.success (body r) = true
    /\ Body.partial (body r) = None
    /\ Body.error (body r) = None
    /\ Body.data (body r) = Some dat
    /\ Analysis.summary (Data.analysis dat) = []
    /\ Analysis.keyTakeaways (Data.analysis dat) = [takeawayPlaceholder]
    /\ Analysis.topics (Data.analysis dat) = [topicPlaceholder].
Proof.
  intros Hv Hf Hg He. do 3 eexists.
  split; [exact (HandlerFacts.POST_success_exact s Hv Hf Hg)|].
  repeat (split; [reflexivity|]).
  cbn [Data.analysis analysisOf Analysis.summary Analysis.keyTakeaways
       Analysis.topics].
  rewrite He. repeat split.
Qed.

Lemma POST_empty_completion_witness :
  exists r s' dat,
    POST Sample.emptyWorld Demo.request noEffects = (Returned r, s')
    /\ Body.success (body r) = true
    /\ Body.data (body r) = Some dat
    /\ Analysis.summary (Data.analysis dat) = []
    /\ Analysis.keyTakeaways (Data.analysis dat)
       = [lit "No specific key takeaways identified"].
Proof.
  destruct (@POST_empty_completion Sample.emptyWorld Demo.request noEffects
              Demo.videoUrl Demo.videoId Demo.transcriptData
              (MkCompletion [])
              (@DemoFacts.request_valid Demo.key _ _ _ eq_refl)
              (@DemoFacts.transcript_fetched _ _) eq_refl eq_refl)
    as (r & s' & dat & Hr & _ & Hs & _ & _ & Hd & Hsum & Hk & _).
  exists r, s', dat. repeat (split; [assumption|]). exact Hk.
Defined.

(** X10.  An exception while the transcript is fetched or read (the request is
    rejected, the body does not parse, or the body has no data) is not
    passed on: the handler answers 200 with success false, the message of
    the exception after 'Failed to fetch transcript: ' and in the error
    descriptor of the placeholder transcript, and the fallback analysis.
    The summariser is not called. *)
Theorem POST_transcript_exception w req s videoUrl videoId e :
  PassesValidation w req videoUrl videoId ->
  TranscriptThrows w videoId e ->
  exists r s' dat,
    POST w req s = (Returned r, s')
    /\ httpStatus r = 200%Z
    /\ Body.success (body r) = false
    /\ Body.error (body r)
       = Some (ErrorText (lit "Failed to fetch transcript: " ++ message e))
    /\ Body.data (body r) = Some dat
    /\ Transcript.error (Data.transcript dat)
       = Some (ErrorDescriptor.Make (message e) (lit "TRANSCRIPT_FETCH_ERROR"))
    /\ Transcript.content (Data.transcript dat)
       = lit "Could not fetch transcript for video " ++ videoId
    /\ Data.analysis dat
       = generateFallbackAnalysis (titleOrDefault (metadataOf w videoUrl) videoId)
    /\ calls s' = calls s ++ [FetchCall (oembedUrl videoId);
                              FetchCall (transcriptUrl videoId)].
Proof.
  intros Hv Hf. do 3 eexists.
  split; [exact (HandlerRuns.POST_throws_run s Hv Hf)|]. repeat split.
Qed.

Lemma POST_transcript_exception_witness :
  exists r s',
    POST Sample.rejectedWorld Demo.request noEffects = (Returned r, s')
    /\ httpStatus r = 200%Z
    /\ Body.success (body r) = false
    /\ Body.error (body r)
       = Some (ErrorText (lit "Failed to fetch transcript: fetch failed")).
Proof.
  destruct (@POST_transcript_exception Sample.rejectedWorld Demo.request
              noEffects Demo.videoUrl Demo.videoId
              (MkError (lit "fetch failed") None)
              (@DemoFacts.request_valid Demo.key _ _ _ eq_refl)
              (@throws_fetch Sample.rejectedWorld Demo.videoId _ eq_refl))
    as (r & s' & dat & Hr & Hst & Hs & He & _).
  exists r, s'. repeat (split; [assumption|]). exact He.
Defined.

(** X11.  When the body holds a truthy [videoUrl] whose conversion to a
    string does not throw, SUPADATA_API_KEY is configured and GROQ_API_KEY
    is not, the handler answers 500 with the Groq configuration message and
    its hint, and makes no outbound call: the key is checked before the URL
    is looked at. *)
Theorem POST_missing_groq_key w req s payload videoUrl :
  req_json req = Returned payload ->
  destructure w payload (lit "videoUrl") = Returned (Some videoUrl) ->
  jsTruthy (Some videoUrl) = true ->
  toStringThrows videoUrl = false ->
  configured (SUPADATA_API_KEY w) = true ->
  configured (GROQ_API_KEY w) = false ->
  exists r s',
    POST w req s = (Returned r, s')
    /\ httpStatus r = 500%Z
    /\ Body.success (body r) = false
    /\ Body.error (body r)
       = Some (ErrorText (lit "Server configuration error: Missing Groq API key"))
    /\ Body.troubleshooting (body r)
       = Some (lit "Add GROQ_API_KEY to your environment variables")
    /\ Body.data (body r) = None
    /\ calls s' = calls s.
Proof.
  intros Hb Hd Ht Hc Hsk Hgk.
  cbv beta iota zeta delta [POST now bind ret tryCatch await].
  rewrite Hb. cbv beta iota. rewrite Hd. cbv beta iota.
  rewrite Ht. cbn [negb templateLiteral]. rewrite Hc, Hsk, Hgk. cbn [negb].
  do 2 eexists. split; [reflexivity|]. repeat split.
Qed.

Lemma POST_missing_groq_key_witness :
  GROQ_API_KEY Sample.noGroqWorld = None
  /\ exists r s',
       POST Sample.noGroqWorld Sample.otherRequest noEffects = (Returned r, s')
       /\ httpStatus r = 500%Z
       /\ calls s' = [].
Proof.
  split; [reflexivity|].
  destruct (@POST_missing_groq_key Sample.noGroqWorld Sample.otherRequest
              noEffects
              (JObject [(lit "videoUrl", JString (lit "https://example.com/"))])
              (JString (lit "https://example.com/"))
              eq_refl eq_refl eq_refl eq_refl eq_refl eq_refl)
    as (r & s' & Hr & Hst & _ & _ & _ & _ & Hc).
  exists r, s'. repeat (split; [assumption|]). exact Hc.
Defined.

(** X12.  When both keys are configured and the body holds a truthy
    [videoUrl] whose conversion to a string does not throw and from which
    no video id is extracted, be it a string or a value of another type,
    the handler answers 400 with the message 'Invalid YouTube URL. Could
    not extract video ID.' and makes no outbound call. *)
Theorem POST_invalid_url w req s payload videoUrl :
  req_json req = Returned payload ->
  destructure w payload (lit "videoUrl") = Returned (Some videoUrl) ->
  jsTruthy (Some videoUrl) = true ->
  toStringThrows videoUrl = false ->
  configured (SUPADATA_API_KEY w) = true ->
  configured (GROQ_API_KEY w) = true ->
  (forall url, videoUrl = JString url -> extractVideoId url = None) ->
  exists r s',
    POST w req s = (Returned r, s')
    /\ httpStatus r = 400%Z
    /\ Body.success (body r) = false
    /\ Body.error (body r)
       = Some (ErrorText (lit "Invalid YouTube URL. Could not extract video ID."))
    /\ Body.troubleshooting (body r) = None
    /\ Body.data (body r) = None
    /\ calls s' = calls s.
Proof.
  intros Hb Hd Ht Hc Hsk Hgk Hurl.
  assert (Hv : extractVideoIdOf (Some videoUrl) = None).
  { destruct videoUrl as [| | |url| |]; try reflexivity.
    cbn [extractVideoIdOf]. now rewrite (Hurl url eq_refl). }
  cbv beta iota zeta delta [POST now bind ret tryCatch await].
  rewrite Hb. cbv beta iota. rewrite Hd. cbv beta iota.
  rewrite Ht. cbn [negb templateLiteral]. rewrite Hc, Hsk, Hgk. cbn [negb].
  rewrite Hv.
  do 2 eexists. split; [reflexivity|]. repeat split.
Qed.

Lemma POST_invalid_url_witness :
  (exists r s',
     POST Demo.successWorld Sample.numberRequest noEffects = (Returned r, s')
     /\ httpStatus r = 400%Z
     /\ calls s' = [])
  /\ (exists r s',
        POST Demo.successWorld Sample.otherRequest noEffects = (Returned r, s')
        /\ httpStatus r = 400%Z
        /\ calls s' = []).
Proof.
  split.
  - destruct (@POST_invalid_url Demo.successWorld Sample.numberRequest noEffects
                (JObject [(lit "videoUrl", JNumber (QArith_base.Qmake 42 1))])
                (JNumber (QArith_base.Qmake 42 1))
                eq_refl eq_refl eq_refl eq_refl eq_refl eq_refl
                ltac:(intros url H; discriminate H))
      as (r & s' & Hr & Hst & _ & _ & _ & _ & Hc).
    exists r, s'. repeat (split; [assumption|]). exact Hc.
  - destruct (@POST_invalid_url Demo.successWorld Sample.otherRequest noEffects
                (JObject [(lit "videoUrl", JString (lit "https://example.com/"))])
                (JString (lit "https://example.com/"))
                eq_refl eq_refl eq_refl eq_refl eq_refl eq_refl
                ltac:(intros url H; injection H as <-; vm_compute; reflexivity))
      as (r & s' & Hr & Hst & _ & _ & _ & _ & Hc).
    exists r, s'. repeat (split; [assumption|]). exact Hc.
Defined.

(** X13.  When reading the body throws, or the body is the JSON value null, the
    catch-all answers: status 500, success false, 'Server error: ' and the
    message of the exception, the request id, the processing time between
    the two readings of the clock, no payload, and the stack of the
    exception only when NODE_ENV is 'development'.  No outbound call is
    made. *)
Theorem POST_uncaught_exception w req s error :
  req_json req = Thrown error
  \/ (req_json req = Returned JNull /\ error = typeError w (lit "videoUrl")) ->
  exists r s',
    POST w req s = (Returned r, s')
    /\ httpStatus r = 500%Z
    /\ Body.success (body r) = false
    /\ Body.error (body r)
       = Some (ErrorText (lit "Server error: " ++ message error))
    /\ Body.requestId (body r) = Some (randomId w)
    /\ Body.processingTime (body r)
       = Some (dateNow w (S (ticks s)) - dateNow w (ticks s))%Z
    /\ Body.stack (body r)
       = (match NODE_ENV w with
          | Some env => if eqs env (lit "development") then stack error else None
          | None => None
          end)
    /\ Body.troubleshooting (body r) = None
    /\ Body.data (body r) = None
    /\ calls s' = calls s.
Proof.
  intros [Hb | [Hb ->]];
    cbv beta iota zeta delta [POST now bind ret tryCatch await];
    rewrite Hb; cbv beta iota; cbn [destructure ticks calls];
    do 2 eexists; (split; [reflexivity|]); repeat split;
    cbn [body Body.stack jsonResponse]; unfold isDevelopment;
    now destruct (NODE_ENV w).
Qed.

Lemma POST_uncaught_exception_witness :
  (exists r s',
     POST Demo.successWorld Sample.unreadableRequest noEffects = (Returned r, s')
     /\ httpStatus r = 500%Z
     /\ Body.processingTime (body r) = Some 250%Z
     /\ Body.stack (body r) = None)
  /\ (exists r s',
        POST Sample.developmentWorld Sample.unreadableRequest noEffects
        = (Returned r, s')
        /\ httpStatus r = 500%Z
        /\ Body.stack (body r)
           = Some (lit "SyntaxError: Unexpected end of JSON input")).
Proof.
  split.
  - destruct (@POST_uncaught_exception Demo.successWorld Sample.unreadableRequest
                noEffects Sample.syntaxError (or_introl eq_refl))
      as (r & s' & Hr & Hst & _ & _ & _ & Ht & Hk & _).
    exists r, s'. repeat (split; [assumption|]). exact Hk.
  - destruct (@POST_uncaught_exception Sample.developmentWorld
                Sample.unreadableRequest noEffects Sample.syntaxError
                (or_introl eq_refl))
      as (r & s' & Hr & Hst & _ & _ & _ & _ & Hk & _).
    exists r, s'. repeat (split; [assumption|]). exact Hk.
Defined.

(* ===================================================================== *)
(** ** The handler: the text sent to the summariser *)
(* ===================================================================== *)

Module PromptFacts.

Lemma substring0_length n s : length (substring0 n s) = Nat.min n (length s).
Proof. unfold substring0. apply length_firstn. Qed.

Lemma textToAnalyze_short content :
  length content <= 15000 -> textToAnalyze content = content.
Proof.
  intros H. unfold textToAnalyze.
  destruct (Nat.ltb_spec 15000 (length content)) as [H'|H']; [|reflexivity].
  exfalso. lia.
Qed.

Lemma textToAnalyze_long content :
  15000 < length content ->
  textToAnalyze content = firstn 15000 content ++ lit "...".
Proof.
  intros H. unfold textToAnalyze.
  destruct (Nat.ltb_spec 15000 (length content)) as [H'|H']; [reflexivity|].
  exfalso. lia.
Qed.

Lemma textToAnalyze_length content :
  length (textToAnalyze content)
  = if Nat.ltb 15000 (length content) then 15003 else length content.
Proof.
  unfold textToAnalyze.
  destruct (Nat.ltb_spec 15000 (length content)) as [H|H]; [|reflexivity].
  rewrite length_app, substring0_length.
  rewrite Nat.min_l by lia. reflexivity.
Qed.

Lemma textToAnalyze_prefix content :
  firstn 15000 (textToAnalyze content) = firstn 15000 content.
Proof.
  unfold textToAnalyze.
  destruct (Nat.ltb_spec 15000 (length content)) as [H|H]; [|reflexivity].
  unfold substring0. rewrite firstn_app, firstn_firstn, Nat.min_id.
  rewrite length_firstn, Nat.min_l by lia.
  rewrite Nat.sub_diag. apply app_nil_r.
Qed.

End PromptFacts.

(** X14.  What is sent to the summariser.  When the request passes
    validation and the transcript is fetched, the one completion request
    of the run holds the system message, and the user message whose
    content is the fixed prompt followed by the transcript text as it is
    sent: the content itself when it has at most 15,000 code units;
    otherwise its first 15,000 code units followed by three dots, 15,003
    code units in all (so a content of 15,001 or 15,002 code units is
    sent longer than it is).  In both cases the text sent has at most
    15,003 code units, and its first 15,000 code units are those of the
    content. *)
Theorem POST_sends_bounded_text w req s videoUrl videoId d :
  PassesValidation w req videoUrl videoId ->
  TranscriptFetched w videoId d ->
  exists r s' sent,
    POST w req s = (Returned r, s')
    /\ calls s'
       = calls s
         ++ [FetchCall (oembedUrl videoId);
             FetchCall (transcriptUrl videoId);
             CompletionCall
               (MkChatRequest
                  [MkChatMessage (lit "system") systemPrompt;
                   MkChatMessage (lit "user")
                     (lit "Based on this transcript, create a structured framework summarizing the main points. Include key takeaways, terms, and topics."
                      ++ [10%N; 10%N] ++ lit "TRANSCRIPT:" ++ [10%N] ++ sent)]
                  (lit "llama3-70b-8192"))]
    /\ (length (text d) <= 15000 -> sent = text d)
    /\ (15000 < length (text d) ->
        sent = firstn 15000 (text d) ++ lit "..." /\ length sent = 15003)
    /\ length sent <= 15003
    /\ firstn 15000 sent = firstn 15000 (text d).
Proof.
  intros Hv Hf.
  assert (Hcalls : forall r s',
            POST w req s = (Returned r, s') ->
            calls s' = calls (pipelineEffects videoId d s) ->
            exists r s' sent,
              POST w req s = (Returned r, s')
              /\ calls s'
                 = calls s
                   ++ [FetchCall (oembedUrl videoId);
                       FetchCall (transcriptUrl videoId);
                       CompletionCall
                         (MkChatRequest
                            [MkChatMessage (lit "system") systemPrompt;
                             MkChatMessage (lit "user") (userPrompt sent)]
                            (lit "llama3-70b-8192"))]
              /\ (length (text d) <= 15000 -> sent = text d)
              /\ (15000 < length (text d) ->
                  sent = firstn 15000 (text d) ++ lit "..."
                  /\ length sent = 15003)
              /\ length sent <= 15003
              /\ firstn 15000 sent = firstn 15000 (text d)).
  { intros r s' Hr Hc. exists r, s', (textToAnalyze (text d)).
    split; [exact Hr|]. split; [exact Hc|].
    split; [apply PromptFacts.textToAnalyze_short|].
    pose proof (PromptFacts.textToAnalyze_length (text d)) as Hl.
    split; [|split; [|apply PromptFacts.textToAnalyze_prefix]].
    - intros H. split; [now apply PromptFacts.textToAnalyze_long|].
      rewrite Hl. now apply Nat.ltb_lt in H as ->.
    - rewrite Hl.
      destruct (Nat.ltb_spec 15000 (length (text d))) as [H|H];
        [apply Nat.le_refl|].
      apply (Nat.le_trans _ _ _ H), Nat.leb_le. vm_compute. reflexivity. }
  destruct (createCompletion w (completionRequest (text d)))
    as [completion|groqError] eqn:Hg.
  - exact (Hcalls _ _ (HandlerFacts.POST_success_exact s Hv Hf Hg) eq_refl).
  - exact (Hcalls _ _ (POST_partial_run s Hv Hf Hg) eq_refl).
Qed.

Lemma POST_sends_bounded_text_witness :
  exists r s' sent,
    POST Demo.successWorld Demo.request noEffects = (Returned r, s')
    /\ nth_error (calls s') 2
       = Some (CompletionCall
                 (MkChatRequest
                    [MkChatMessage (lit "system") systemPrompt;
                     MkChatMessage (lit "user") (userPrompt sent)]
                    (lit "llama3-70b-8192")))
    /\ sent = lit "We are no strangers to love".
Proof.
  destruct (@POST_sends_bounded_text Demo.successWorld Demo.request noEffects
              Demo.videoUrl Demo.videoId Demo.transcriptData
              (@DemoFacts.request_valid Demo.key _ _ _ eq_refl)
              (@DemoFacts.transcript_fetched _ _))
    as (r & s' & sent & Hr & Hc & Hshort & _).
  exists r, s', sent. split; [exact Hr|].
  split; [rewrite Hc; reflexivity|].
  apply Hshort, Nat.leb_le. vm_compute. reflexivity.
Defined.

(* ===================================================================== *)
(** ** The handler: calls, response shape and configuration *)
(* ===================================================================== *)

(** X15.  Every run ends in a response.  A run that answers with another
    status than 200 makes no outbound call.  A run that answers 200 has
    passed validation and calls the oEmbed endpoint and then the
    transcript endpoint for the extracted id, once each; it calls the
    summariser, once and last, exactly when it answers with success
    true. *)
Theorem POST_outbound_calls w req s :
  exists r s',
    POST w req s = (Returned r, s')
    /\ (httpStatus r <> 200%Z -> calls s' = calls s)
    /\ (httpStatus r = 200%Z ->
        exists videoUrl videoId,
          PassesValidation w req videoUrl videoId
          /\ ((Body.success (body r) = false
               /\ calls s' = calls s ++ [FetchCall (oembedUrl videoId);
                                         FetchCall (transcriptUrl videoId)])
              \/ (Body.success (body r) = true
                  /\ exists d,
                       calls s'
                       = calls s ++ [FetchCall (oembedUrl videoId);
                                     FetchCall (transcriptUrl videoId);
                                     CompletionCall (completionRequest (text d))]))).
Proof.
  destruct (RunFacts.POST_ending w req s) as (r & s' & Hr & HE).
  exists r, s'. split; [exact Hr|].
  destruct HE as [payload Hb Hn Ht | payload v Hb Hp Ht Hc
                  | payload Hb Ht Hc Hk | payload Hb Ht Hc Hk Hg
                  | payload Hb Ht Hc Hk Hg Hv | error He
                  | videoUrl videoId error Hv
                  | videoUrl videoId d groqError Hv Hg
                  | videoUrl videoId d completion Hv Hg];
    (split; [intros H; try reflexivity; now contradiction H
            | intros H; try discriminate H]).
  - exists videoUrl, videoId. split; [exact Hv|]. left. now split.
  - exists videoUrl, videoId. split; [exact Hv|]. right.
    split; [reflexivity|]. now exists d.
  - exists videoUrl, videoId. split; [exact Hv|]. right.
    split; [reflexivity|]. now exists d.
Qed.

(** X16.  What the fields of a response say about each other, whatever the
    request and the outside world: the payload is present exactly when
    the status is 200; success true comes with status 200 only; the
    partial flag comes with success true only; the error is absent in
    exactly one case, success without the partial flag; a troubleshooting
    hint or a stack comes with status 500 only. *)
Theorem POST_response_shape w req s :
  exists r s',
    POST w req s = (Returned r, s')
    /\ (Body.data (body r) <> None <-> httpStatus r = 200%Z)
    /\ (Body.success (body r) = true -> httpStatus r = 200%Z)
    /\ (Body.partial (body r) <> None -> Body.success (body r) = true)
    /\ (Body.error (body r) = None
        <-> Body.success (body r) = true /\ Body.partial (body r) = None)
    /\ (Body.troubleshooting (body r) <> None \/ Body.stack (body r) <> None ->
        httpStatus r = 500%Z).
Proof.
  destruct (RunFacts.POST_ending w req s) as (r & s' & Hr & HE).
  exists r, s'. split; [exact Hr|].
  destruct HE;
    unfold plainError, uncaughtResponse, failureResponse, partialResponse,
           successResponse, jsonResponse;
    cbn [body httpStatus Body.data Body.success Body.partial Body.error
         Body.troubleshooting Body.stack];
    repeat match goal with
           | |- _ <-> _ => split
           | |- _ /\ _ => split
           | |- _ -> _ => intro
           | Hq : _ /\ _ |- _ => destruct Hq
           | Hq : _ \/ _ |- _ => destruct Hq
           | Hq : ?x <> ?x |- _ => now contradiction Hq
           | Hq : _ = _ |- _ => discriminate Hq
           | |- _ = _ => reflexivity
           | |- Some _ <> None => discriminate
           end.
Qed.

(** X17.  A response with status 500 has one of three origins: a key
    that is not configured; a body that cannot be read or is the JSON
    value null; a truthy [videoUrl] whose conversion to a string throws.
    A failure of the oEmbed endpoint, of the transcript service or of the
    summariser never gives a 500. *)
Theorem POST_server_error_origin w req s r s' :
  POST w req s = (Returned r, s') ->
  httpStatus r = 500%Z ->
  configured (SUPADATA_API_KEY w) = false
  \/ configured (GROQ_API_KEY w) = false
  \/ (exists error, req_json req = Thrown error)
  \/ req_json req = Returned JNull
  \/ (exists payload videoUrl,
        req_json req = Returned payload
        /\ property payload (lit "videoUrl") = Some videoUrl
        /\ jsTruthy (Some videoUrl) = true
        /\ toStringThrows videoUrl = true).
Proof.
  intros Hrun Hst.
  destruct (RunFacts.POST_ending w req s) as (r0 & s0 & Hr & HE).
  rewrite Hrun in Hr. injection Hr as <- <-.
  destruct HE as [payload Hb Hn Ht | payload v Hb Hp Ht Hc
                  | payload Hb Ht Hc Hk | payload Hb Ht Hc Hk Hg
                  | payload Hb Ht Hc Hk Hg Hv | error [He | [He _]]
                  | videoUrl videoId error Hv
                  | videoUrl videoId d groqError Hv Hg
                  | videoUrl videoId d completion Hv Hg];
    try discriminate Hst; auto.
  - do 4 right. now exists payload, v.
  - right. right. left. now exists error.
Qed.

Lemma POST_server_error_origin_witness :
  exists r s',
    POST Demo.successWorld Demo.unconvertibleRequest noEffects = (Returned r, s')
    /\ httpStatus r = 500%Z
    /\ exists payload videoUrl,
         req_json Demo.unconvertibleRequest = Returned payload
         /\ property payload (lit "videoUrl") = Some videoUrl
         /\ toStringThrows videoUrl = true.
Proof.
  exists (uncaughtResponse Demo.successWorld
            (conversionError Demo.successWorld) 250),
         (MkEffects 2 []).
  split; [reflexivity|]. split; [reflexivity|].
  destruct (@POST_server_error_origin Demo.successWorld Demo.unconvertibleRequest
              noEffects
              (uncaughtResponse Demo.successWorld
                 (conversionError Demo.successWorld) 250)
              (MkEffects 2 []) eq_refl eq_refl)
    as [H | [H | [[error H] | [H | (payload & v & Hb & Hp & _ & Hc)]]]];
    try discriminate H.
  now exists payload, v.
Defined.

(** X18.  The metadata only decorates the response.  Run against the world in
    which every oEmbed request is rejected, the handler makes the same
    calls and reads the clock as often, and its response has the same
    status, flags, error, request id and processing time, the same
    transcript text, segments and error descriptor, and the same summary,
    takeaways and topics. *)
Theorem POST_metadata_independent w req s :
  exists r s' r0,
    POST w req s = (Returned r, s')
    /\ POST (withoutMetadata w) req s = (Returned r0, s')
    /\ responseView r = responseView r0.
Proof.
  cbv beta iota zeta delta [POST now bind ret tryCatch await].
  unfold isDevelopment.
  cbn [withoutMetadata SUPADATA_API_KEY GROQ_API_KEY NODE_ENV dateNow randomId].
  destruct (req_json req) as [payload|e].
  2:{ do 3 eexists. split; [reflexivity|]. split; reflexivity. }
  rewrite HandlerRuns.destructure_withoutMetadata.
  destruct (destructure w payload (lit "videoUrl")) as [v|e].
  2:{ do 3 eexists. split; [reflexivity|]. split; reflexivity. }
  destruct (jsTruthy v); cbn [negb].
  2:{ do 3 eexists. split; [reflexivity|]. split; reflexivity. }
  rewrite HandlerRuns.templateLiteral_withoutMetadata.
  destruct (templateLiteral w v) as [[]|e].
  2:{ do 3 eexists. split; [reflexivity|]. split; reflexivity. }
  destruct (configured (SUPADATA_API_KEY w)); cbn [negb].
  2:{ do 3 eexists. split; [reflexivity|]. split; reflexivity. }
  destruct (configured (GROQ_API_KEY w)); cbn [negb].
  2:{ do 3 eexists. split; [reflexivity|]. split; reflexivity. }
  destruct (extractVideoIdOf v) as [[url videoId]|].
  2:{ do 3 eexists. split; [reflexivity|]. split; reflexivity. }
  rewrite !getYoutubeMetadata_run, HandlerRuns.metadataOf_withoutMetadata.
  cbv beta iota zeta delta
      [fetchAndAnalyze fetchSupadata logCall bind ret throw tryCatch await].
  cbn [withoutMetadata fetchTranscript typeError captureStack newError].
  unfold newError.
  cbn [withoutMetadata fetchTranscript typeError captureStack].
  destruct (fetchTranscript w (transcriptUrl videoId)
              (keyValue (SUPADATA_API_KEY w))) as [response|e].
  2:{ do 3 eexists. split; [reflexivity|]. split; reflexivity. }
  destruct (ok response); cbn [negb].
  2:{ do 3 eexists. split; [reflexivity|]. split; reflexivity. }
  destruct (json response) as [data|e].
  2:{ do 3 eexists. split; [reflexivity|]. split; reflexivity. }
  destruct (body_success data); cbn [negb].
  2:{ do 3 eexists. split; [reflexivity|]. split; reflexivity. }
  destruct (body_data data) as [d|].
  2:{ do 3 eexists. split; [reflexivity|]. split; reflexivity. }
  cbv beta iota zeta delta
      [analyze chatCompletionsCreate logCall now bind ret tryCatch await].
  cbn [withoutMetadata createCompletion dateNow Transcript.content
       buildTranscript ticks calls].
  destruct (createCompletion w (completionRequest (text d)));
    do 3 eexists; (split; [reflexivity|]); split; reflexivity.
Qed.

(** X19.  The health check and the handler agree on the configuration: a
    request whose body holds a truthy [videoUrl] that converts to a string
    without throwing is answered with status 500 exactly when [GET]
    reports one of the two keys as missing, and the error names the
    Supadata key when that one is missing, the Groq key when only that one
    is. *)
Theorem GET_reports_configuration w req s payload videoUrl :
  req_json req = Returned payload ->
  destructure w payload (lit "videoUrl") = Returned (Some videoUrl) ->
  jsTruthy (Some videoUrl) = true ->
  toStringThrows videoUrl = false ->
  let health := healthBody (GET w) in
  exists r s',
    POST w req s = (Returned r, s')
    /\ (httpStatus r = 500%Z
        <-> Health.hasSupadataKey health = false
            \/ Health.hasGroqKey health = false)
    /\ (Health.hasSupadataKey health = false ->
        Body.error (body r)
        = Some (ErrorText
                  (lit "Server configuration error: Missing Supadata API key")))
    /\ (Health.hasSupadataKey health = true ->
        Health.hasGroqKey health = false ->
        Body.error (body r)
        = Some (ErrorText
                  (lit "Server configuration error: Missing Groq API key"))).
Proof.
  intros Hb Hd Ht Hc health. subst health.
  cbn [GET healthBody Health.hasSupadataKey Health.hasGroqKey].
  cbv beta iota zeta delta [POST now bind ret tryCatch await].
  rewrite Hb. cbv beta iota. rewrite Hd. cbv beta iota. rewrite Ht.
  cbn [negb templateLiteral]. rewrite Hc.
  destruct (configured (SUPADATA_API_KEY w)); cbn [negb].
  2:{ do 2 eexists. split; [reflexivity|].
      split; [split; [now left | reflexivity]|].
      split; [reflexivity | discriminate]. }
  destruct (configured (GROQ_API_KEY w)); cbn [negb].
  2:{ do 2 eexists. split; [reflexivity|].
      split; [split; [now right | reflexivity]|].
      split; [discriminate | reflexivity]. }
  destruct (extractVideoIdOf (Some videoUrl)) as [[url videoId]|].
  2:{ do 2 eexists. split; [reflexivity|].
      split; [split; [discriminate | now intros [H|H]]|].
      split; discriminate. }
  rewrite getYoutubeMetadata_run.
  match goal with
  | |- context [fetchAndAnalyze ?a1 ?a2 ?a3 ?a4 ?a5 ?a6 ?a7 ?a8] =>
      destruct (fetchAndAnalyze_total a1 a2 a3 a4 a5 a6 a7 a8)
        as (r & s' & Hr & Hst & _)
  end.
  rewrite Hr. exists r, s'. split; [reflexivity|].
  split; [split; [rewrite Hst; discriminate | now intros [H|H]]|].
  split; discriminate.
Qed.

Lemma GET_reports_configuration_witness :
  Health.hasGroqKey (healthBody (GET Sample.noGroqWorld)) = false
  /\ exists r s',
       POST Sample.noGroqWorld Demo.request noEffects = (Returned r, s')
       /\ httpStatus r = 500%Z.
Proof.
  split; [reflexivity|].
  destruct (@GET_reports_configuration Sample.noGroqWorld Demo.request noEffects
              (JObject [(lit "videoUrl", JString Demo.videoUrl)])
              (JString Demo.videoUrl) eq_refl eq_refl eq_refl eq_refl)
    as (r & s' & Hr & [_ Hst] & _).
  exists r, s'. split; [exact Hr|]. apply Hst. right. reflexivity.
Defined.
